(** * Budget shopping mission app (src/app.py): model and verification

    The program is a three-screen Streamlit script.  Every user interaction
    re-runs [main] against the session state; the model below follows that:
    a script is a function from a world (session state, the elements put on
    screen, the files written) to a result and a new world, and one run of
    [main] is one step of the session.

    Conventions of the embedding:
    - a Python [str] is a Rocq [string] holding its UTF-8 encoding;
    - a Python [int] is a [Z], a Python [float] is a primitive binary64
      [float], whose operations are the IEEE 754 ones the interpreter uses;
    - a Python exception that nothing catches, and [st.stop()], end the run:
      they are the [Halt] results of the script monad;
    - library functions whose text is not part of the repository (parsing a
      float from a string, printing a float, [textwrap.wrap]) are fields of
      the [Runtime] class. *)

From Stdlib Require Import ZArith NArith List String Ascii Bool Lia Floats.
From Stdlib Require Import Permutation DecimalString.
Import ListNotations.

#[local] Open Scope string_scope.
#[local] Open Scope Z_scope.

(** Decimal literals such as 1500.9 stand for the nearest double, as they do
    in Python. *)
#[local] Set Warnings "-inexact-float".

(* ===================================================================== *)
(** * Python values *)
(* ===================================================================== *)

(** Exceptions the modelled code can raise. *)
Inductive pyexn := ValueError | OverflowError | KeyError | OSError.

(** Why a run ended early: [st.stop()] or an exception nobody caught. *)
Inductive halt := StopScript | Uncaught (e : pyexn).

Inductive result (A : Type) : Type :=
| Ok (a : A)
| Halt (h : halt).
Arguments Ok {A} a.
Arguments Halt {A} h.

Definition raise {A : Type} (e : pyexn) : result A := Halt (Uncaught e).

Definition rbind {A B : Type} (r : result A) (k : A -> result B) : result B :=
  match r with
  | Ok a => k a
  | Halt h => Halt h
  end.

(** [try: r except ValueError: handler] *)
Definition except_ValueError {A : Type} (r : result A) (handler : result A) : result A :=
  match r with
  | Halt (Uncaught ValueError) => handler
  | _ => r
  end.

(** ** Strings *)

Module PyStr.

(** [s.split("\n")]: the pieces between line feeds; the empty string gives
    one empty piece.  The line feed is one byte in UTF-8 and never part of
    a longer sequence, so splitting bytes splits code points. *)
Fixpoint split_lines (s : string) : list string :=
  match s with
  | EmptyString => [EmptyString]
  | String c r =>
      if Ascii.eqb c "010"%char then EmptyString :: split_lines r
      else match split_lines r with
           | h :: t => String c h :: t
           | [] => [String c EmptyString]
           end
  end.

(** The code points of a UTF-8 string. *)
Fixpoint code_points (s : string) : list N :=
  match s with
  | EmptyString => []
  | String b0 r0 =>
      let n0 := N_of_ascii b0 in
      if (n0 <? 128)%N then n0 :: code_points r0
      else
        match r0 with
        | EmptyString => [n0]
        | String b1 r1 =>
            let n1 := (N_of_ascii b1 - 128)%N in
            if (n0 <? 224)%N then ((n0 - 192) * 64 + n1)%N :: code_points r1
            else
              match r1 with
              | EmptyString => [n0]
              | String b2 r2 =>
                  let n2 := (N_of_ascii b2 - 128)%N in
                  if (n0 <? 240)%N
                  then ((n0 - 224) * 4096 + n1 * 64 + n2)%N :: code_points r2
                  else
                    match r2 with
                    | EmptyString => [n0]
                    | String b3 r3 =>
                        let n3 := (N_of_ascii b3 - 128)%N in
                        ((n0 - 240) * 262144 + n1 * 4096 + n2 * 64 + n3)%N
                          :: code_points r3
                    end
              end
        end
  end.

(** [str.isspace] on one code point: the characters [str.strip()] removes. *)
Definition isspace (cp : N) : bool :=
  ((9 <=? cp) && (cp <=? 13) || (28 <=? cp) && (cp <=? 32)
   || (cp =? 133) || (cp =? 160) || (cp =? 5760)
   || (8192 <=? cp) && (cp <=? 8202)
   || (cp =? 8232) || (cp =? 8233) || (cp =? 8239) || (cp =? 8287)
   || (cp =? 12288))%N.

Fixpoint lstrip (l : list N) : list N :=
  match l with
  | [] => []
  | c :: r => if isspace c then lstrip r else l
  end.

(** [s.strip()], as code points. *)
Definition strip (s : string) : list N :=
  rev (lstrip (rev (lstrip (code_points s)))).

(** [not s.strip()]. *)
Definition blank (s : string) : bool :=
  match strip s with
  | [] => true
  | _ :: _ => false
  end.

(** Decimal digits of a natural number, most significant first. *)
Definition digits (n : N) : list ascii :=
  list_ascii_of_string (NilZero.string_of_uint (N.to_uint n)).

(** Walking the digits from the least significant one, a comma goes in
    after every third digit that has a digit above it; [k] counts the
    digits put out since the last comma. *)
Fixpoint commas_rev (k : nat) (rev_digits : list ascii) : list ascii :=
  match rev_digits with
  | [] => []
  | d :: r =>
      match k with
      | 3%nat => ","%char :: d :: commas_rev 1 r
      | _ => d :: commas_rev (S k) r
      end
  end.

(** [format(z, ",")], the [{z:,}] of an f-string for an [int]. *)
Definition format_thousands (z : Z) : string :=
  (if z <? 0 then "-" else "")
  ++ string_of_list_ascii (rev (commas_rev 0 (rev (digits (Z.abs_N z))))).

(** [str(z)] for an [int]. *)
Definition str_of_int (z : Z) : string :=
  (if z <? 0 then "-" else "")
  ++ string_of_list_ascii (digits (Z.abs_N z)).

Definition not_comma (c : ascii) : bool := negb (Ascii.eqb c ","%char).

(** The text without its commas. *)
Definition remove_commas (s : string) : string :=
  string_of_list_ascii (filter not_comma (list_ascii_of_string s)).

End PyStr.

(** ** Numbers *)

Module PyNum.

(** A Python number as this program meets it: [int] or [float]. *)
Inductive pynum := PyInt (z : Z) | PyFloat (f : float).

(** The integer part of a finite float, rounded toward zero. *)
Definition trunc_SF (x : spec_float) : option Z :=
  match x with
  | S754_zero _ => Some 0
  | S754_finite s m e =>
      Some (cond_Zopp s (if 0 <=? e then Zpos m * 2 ^ e
                         else Zpos m / 2 ^ (- e)))
  | S754_infinity _ => None
  | S754_nan => None
  end.

(** [int(f)] for a float: a NaN raises [ValueError], an infinity raises
    [OverflowError], anything else is truncated toward zero. *)
Definition int_of_float (f : float) : result Z :=
  match Prim2SF f with
  | S754_nan => raise ValueError
  | S754_infinity _ => raise OverflowError
  | x => match trunc_SF x with
         | Some z => Ok z
         | None => raise OverflowError
         end
  end.

(** [int(x)]. *)
Definition py_int (x : pynum) : result Z :=
  match x with
  | PyInt z => Ok z
  | PyFloat f => int_of_float f
  end.

(** The float nearest to an integer (ties to even), without range check. *)
Definition Z2float (z : Z) : float :=
  SF2Prim (binary_normalize prec emax z 0 false).

(** [float(z)] for an [int]: correctly rounded, [OverflowError] beyond the
    range of a double. *)
Definition float_of_int (z : Z) : result float :=
  let f := Z2float z in
  if is_infinity f then raise OverflowError else Ok f.

(** [float(x)] for a number. *)
Definition py_float (x : pynum) : result float :=
  match x with
  | PyInt z => float_of_int z
  | PyFloat f => Ok f
  end.

(** [x - y], with the usual conversion of an [int] operand when the other
    one is a [float]. *)
Definition py_sub (x y : pynum) : result pynum :=
  match x, y with
  | PyInt a, PyInt b => Ok (PyInt (a - b))
  | _, _ =>
      rbind (py_float x) (fun fx =>
      rbind (py_float y) (fun fy => Ok (PyFloat (fx - fy)%float)))
  end.

(** [-x]. *)
Definition py_neg (x : pynum) : pynum :=
  match x with
  | PyInt a => PyInt (- a)
  | PyFloat f => PyFloat (- f)%float
  end.

(** [x >= 0]. *)
Definition py_ge0 (x : pynum) : bool :=
  match x with
  | PyInt a => 0 <=? a
  | PyFloat f => (0 <=? f)%float
  end.

(** [sum] over floats, one addition per item from left to right, starting
    from the [int] 0: the result is that [int] when there is no item. *)
Definition sum_sequential (l : list float) : pynum :=
  match l with
  | [] => PyInt 0
  | x :: r => PyFloat (fold_left PrimFloat.add r (0 + x)%float)
  end.

(** One step of the compensated summation CPython 3.12 and later use for
    floats: [hi] is the running sum, [lo] the running compensation. *)
Definition compensated_step (acc : float * float) (x : float) : float * float :=
  let '(hi, lo) := acc in
  let t := (hi + x)%float in
  let lo' :=
    if (abs x <=? abs hi)%float then (lo + ((hi - t) + x))%float
    else (lo + ((x - t) + hi))%float in
  (t, lo').

(** The compensation is added at the end unless it is zero or not finite. *)
Definition compensated_result (acc : float * float) : float :=
  let '(hi, lo) := acc in
  if negb (lo =? 0)%float && is_finite lo then (hi + lo)%float else hi.

Definition sum_compensated (l : list float) : pynum :=
  match l with
  | [] => PyInt 0
  | x :: r =>
      PyFloat (compensated_result
                 (fold_left compensated_step r ((0 + x)%float, 0%float)))
  end.

End PyNum.

Import PyStr PyNum.

(** [l.append(x)] *)
Definition append {A : Type} (l : list A) (x : A) : list A := (l ++ [x])%list.
Arguments append : simpl never.

(** ** Library functions outside the repository *)

(** What the interpreter and its libraries contribute and the repository
    does not define. *)
Class Runtime := {
  (** [float(s)] for a [str]; [None] is [ValueError] *)
  float_of_str : string -> option float;
  (** [str(f)] for a [float] *)
  str_of_float : float -> string;
  (** [textwrap.wrap(text, width=w)] *)
  textwrap_wrap : string -> Z -> list string;
  (** whether [sum] adds floats with compensation (CPython 3.12 and later)
      or one addition per item *)
  compensated_sum : bool
}.

(* ===================================================================== *)
(** * The catalog *)
(* ===================================================================== *)

(** A value in a row of the data frame [pd.read_csv] returns. *)
Inductive cell :=
| CInt (z : Z)
| CFloat (f : float)
| CStr (s : string)
| CBool (b : bool).

(** The data frame: the header, and the rows as [iterrows] yields them, one
    cell per column. *)
Record DataFrame := {
  columns : list string;
  rows : list (list cell)
}.

(** What reading a path gives: [FileNotFoundError], or the parsed file. *)
Inductive csv_file :=
| FileNotFound
| CsvData (df : DataFrame).

(** [pd.DataFrame()] *)
Definition empty_frame : DataFrame := {| columns := []; rows := [] |}.

(** [df.empty]: one of the axes has length 0. *)
Definition df_empty (df : DataFrame) : bool :=
  match columns df, rows df with
  | [], _ => true
  | _, [] => true
  | _, _ => false
  end.

(** [col in df.columns] *)
Definition has_column (df : DataFrame) (col : string) : bool :=
  existsb (String.eqb col) (columns df).

Fixpoint index_of (col : string) (cols : list string) : option nat :=
  match cols with
  | [] => None
  | c :: r => if String.eqb col c then Some 0%nat
              else option_map S (index_of col r)
  end.

(** [row[col]] *)
Definition row_get (df : DataFrame) (row : list cell) (col : string) : result cell :=
  match index_of col (columns df) with
  | None => raise KeyError
  | Some i => match nth_error row i with
              | Some c => Ok c
              | None => raise KeyError
              end
  end.

(** [pd.notna(c)] *)
Definition notna (c : cell) : bool :=
  match c with
  | CFloat f => negb (is_nan f)
  | _ => true
  end.

(** The rows with their index labels, as [df.iterrows()] yields them. *)
Definition iterrows (df : DataFrame) : list (nat * list cell) :=
  combine (seq 0 (List.length (rows df))) (rows df).

(** A value of the integer column that [astype(int)] makes of a column of
    finite floats: the float truncated toward zero when that fits 64 bits.
    Beyond them the conversion of the platform decides what the column
    holds (pandas silences the warning); the model leaves that value
    open. *)
Inductive int64_value :=
| Int64 (z : Z)
| OutOfRange.

Definition astype_int (f : float) : int64_value :=
  match trunc_SF (Prim2SF f) with
  | Some z => if (- 2 ^ 63 <=? z) && (z <? 2 ^ 63) then Int64 z else OutOfRange
  | None => OutOfRange
  end.

(* ===================================================================== *)
(** * Session state and the script monad *)
(* ===================================================================== *)

(** An entry of the cart, as [add_to_cart] builds it. *)
Record CartItem := {
  item_name : cell;
  item_price : float;
  item_image_url : option cell
}.

(** [st.session_state] *)
Record SessionState := {
  page : string;
  mission : option string;
  budget : Z;
  cart : list CartItem;
  reason : string
}.

(** The state the module-level statements set up on the first run. *)
Definition initial_session : SessionState :=
  {| page := "mission"; mission := None; budget := 0; cart := []; reason := "" |}.

(** The buttons of the three screens. *)
Inductive button :=
| BtnMissionDone
| BtnShopGuardBack
| BtnAdd (idx : nat)
| BtnShopBack
| BtnCheckout
| BtnResultGuardBack
| BtnResultBack
| BtnSubmit.

Definition button_eqb (a b : button) : bool :=
  match a, b with
  | BtnMissionDone, BtnMissionDone => true
  | BtnShopGuardBack, BtnShopGuardBack => true
  | BtnAdd i, BtnAdd j => Nat.eqb i j
  | BtnShopBack, BtnShopBack => true
  | BtnCheckout, BtnCheckout => true
  | BtnResultGuardBack, BtnResultGuardBack => true
  | BtnResultBack, BtnResultBack => true
  | BtnSubmit, BtnSubmit => true
  | _, _ => false
  end.

(** The image file the renderer saves: its path, its size, and the lines of
    text drawn on it from top to bottom. *)
Record png_file := {
  png_path : string;
  png_width : Z;
  png_height : Z;
  png_lines : list string
}.

(** What a run puts on the screen. *)
Inductive element :=
| StTitle (s : string)
| StSubheader (s : string)
| StWrite (s : string)
| StMarkdown (s : string)
| StInfo (s : string)
| StSuccess (s : string)
| StWarning (s : string)
| StError (s : string)
| StRadio (label : string) (options : list string)
| StButton (b : button)
| StImage (src : cell)
| StDataframe (lines : list (cell * int64_value))
| StTextArea (label : string) (value : string)
| StDownload (label : string) (file : png_file) (file_name : string) (mime : string).

(** What one run receives from outside: the widget event that triggered it,
    and the environment it reads. *)
Record inputs := {
  (** the button whose click triggered this run, if any *)
  clicked : option button;
  (** the position selected in the radio group *)
  radio_index : nat;
  (** the text in the text area when the user edited it *)
  text_area_input : option string;
  (** what reading a path with [pd.read_csv] gives *)
  read_csv : string -> csv_file;
  (** whether [st.image] raises on a source *)
  image_fails : cell -> bool;
  (** [datetime.now().strftime('%Y%m%d_%H%M%S')] *)
  timestamp : string
}.

Record world := {
  session : SessionState;
  screen : list element;
  files : list png_file
}.

(** A script computes a result and a new world; state changes made before a
    halt stay, as they do in [st.session_state]. *)
Definition script (A : Type) : Type := world -> result A * world.

Definition ret {A : Type} (a : A) : script A := fun w => (Ok a, w).

Definition bind {A B : Type} (m : script A) (k : A -> script B) : script B :=
  fun w => match m w with
           | (Ok a, w') => k a w'
           | (Halt h, w') => (Halt h, w')
           end.

Declare Scope script_scope.
Delimit Scope script_scope with script.
Notation "x <- m ;; k" := (bind m (fun x => k))
  (at level 61, m at next level, right associativity) : script_scope.
Notation "m ;; k" := (bind m (fun _ => k))
  (at level 61, right associativity) : script_scope.
#[local] Open Scope script_scope.

(** A pure computation that may raise. *)
Definition lift {A : Type} (r : result A) : script A := fun w => (r, w).

(** [st.stop()] *)
Definition st_stop {A : Type} : script A := fun w => (Halt StopScript, w).

Definition emit (e : element) : script unit :=
  fun w => (Ok tt, {| session := session w;
                      screen := append (screen w) e;
                      files := files w |}).

Definition session_state : script SessionState := fun w => (Ok (session w), w).

Definition put_session (s : SessionState) : script unit :=
  fun w => (Ok tt, {| session := s; screen := screen w; files := files w |}).

Definition save_file (f : png_file) : script unit :=
  fun w => (Ok tt, {| session := session w;
                      screen := screen w;
                      files := f :: files w |}).

Definition when (b : bool) (m : script unit) : script unit :=
  if b then m else ret tt.

Fixpoint for_each {A : Type} (body : A -> script unit) (l : list A) : script unit :=
  match l with
  | [] => ret tt
  | x :: r => body x ;; for_each body r
  end.

(** Assignments to the fields of [st.session_state]. *)
Definition set_page (p : string) : script unit :=
  s <- session_state ;;
  put_session {| page := p; mission := mission s; budget := budget s;
                 cart := cart s; reason := reason s |}.

Definition set_mission (m : string) : script unit :=
  s <- session_state ;;
  put_session {| page := page s; mission := Some m; budget := budget s;
                 cart := cart s; reason := reason s |}.

Definition set_budget (b : Z) : script unit :=
  s <- session_state ;;
  put_session {| page := page s; mission := mission s; budget := b;
                 cart := cart s; reason := reason s |}.

Definition set_cart (c : list CartItem) : script unit :=
  s <- session_state ;;
  put_session {| page := page s; mission := mission s; budget := budget s;
                 cart := c; reason := reason s |}.

Definition set_reason (r : string) : script unit :=
  s <- session_state ;;
  put_session {| page := page s; mission := mission s; budget := budget s;
                 cart := cart s; reason := r |}.

(* ===================================================================== *)
(** * The program *)
(* ===================================================================== *)

(** [MISSIONS]: the labels in the order the dictionary lists them. *)
Definition MISSIONS : list (string * Z) :=
  [ ("절약형 장보기 (예산 10,000원)", 10000);
    ("균형 잡힌 장보기 (예산 20,000원)", 20000);
    ("풍성한 장보기 (예산 30,000원)", 30000) ].

(** [d[k]] *)
Fixpoint dict_get (d : list (string * Z)) (k : string) : result Z :=
  match d with
  | [] => raise KeyError
  | (k', v) :: r => if String.eqb k k' then Ok v else dict_get r k
  end.

(** [list(d.keys())] *)
Definition dict_keys (d : list (string * Z)) : list string := map fst d.

Section App.

Context {R : Runtime}.

(** The event and the environment of the run being modelled. *)
Variable inp : inputs.

(** ** Widgets *)

(** Whether the run was triggered by a click on [b]. *)
Definition pressed (b : button) : bool :=
  match clicked inp with
  | Some c => button_eqb c b
  | None => false
  end.

(** [st.button]: shows the button; true in the run its click triggered. *)
Definition st_button (b : button) : script bool :=
  emit (StButton b) ;;
  ret (pressed b).

(** [st.radio(label, options, index=0)] *)
Definition st_radio (label : string) (options : list string) : script string :=
  emit (StRadio label options) ;;
  ret (nth (radio_index inp) options (hd "" options)).

(** [st.text_area(label, value=v)]: the text the user typed, or [v]. *)
Definition st_text_area (label value : string) : script string :=
  let text := match text_area_input inp with
              | Some t => t
              | None => value
              end in
  emit (StTextArea label text) ;;
  ret text.

(** ** Utility functions *)

(** [str(c)], as an f-string puts a cell into text. *)
Definition py_str (c : cell) : string :=
  match c with
  | CInt z => str_of_int z
  | CFloat f => str_of_float f
  | CStr s => s
  | CBool true => "True"
  | CBool false => "False"
  end.

(** [float(c)] for a cell. *)
Definition float_of_cell (c : cell) : result float :=
  match c with
  | CInt z => float_of_int z
  | CFloat f => Ok f
  | CStr s => match float_of_str s with
              | Some f => Ok f
              | None => raise ValueError
              end
  | CBool true => Ok 1%float
  | CBool false => Ok 0%float
  end.

(** [sum] over floats, as the interpreter in use computes it. *)
Definition py_sum (l : list float) : pynum :=
  if compensated_sum then sum_compensated l else sum_sequential l.

Definition load_products (csv_path : string) : script DataFrame :=
  match read_csv inp csv_path with
  | CsvData df => ret df
  | FileNotFound =>
      emit (StError ("'products.csv' 파일을 찾을 수 없습니다. "
                   ++ "앱과 같은 폴더에 'products.csv'를 넣어 주세요.")) ;;
      ret empty_frame
  end.

Definition get_column_name (df : DataFrame) (kor eng label : string) : script string :=
  if has_column df kor then ret kor
  else if has_column df eng then ret eng
  else
    emit (StError ("products.csv에 '" ++ kor ++ "' 또는 '" ++ eng
                 ++ "' 열이 필요합니다. (" ++ label ++ ")")) ;;
    st_stop.

Definition add_to_cart (name : cell) (price : pynum) (image_url : option cell)
  : script unit :=
  s <- session_state ;;
  p <- lift (py_float price) ;;
  set_cart (append (cart s) {| item_name := name;
                               item_price := p;
                               item_image_url := image_url |}).

Definition calc_cart_total : script pynum :=
  s <- session_state ;;
  ret (py_sum (map item_price (cart s))).

(** ** The submission renderer *)

Definition wrap_width : Z := 30.

(** The loop over the cart: one line per item. *)
Fixpoint append_item_lines (lines : list string) (cart : list CartItem)
  : result (list string) :=
  match cart with
  | [] => Ok lines
  | item :: rest =>
      rbind (py_int (PyFloat (item_price item))) (fun p =>
      append_item_lines
        (append lines ("- " ++ py_str (item_name item) ++ " ("
                       ++ format_thousands p ++ "원)"))
        rest)
  end.

(** The loop over the paragraphs of the justification. *)
Fixpoint append_reason_lines (lines : list string) (paras : list string)
  : list string :=
  match paras with
  | [] => lines
  | para :: rest =>
      if blank para then append_reason_lines (append lines "") rest
      else
        append_reason_lines
          (fold_left (fun ls wrapped => append ls wrapped)
                     (textwrap_wrap para wrap_width) lines)
          rest
  end.

(** The text part of [create_submission_png]: the list [lines]. *)
Definition submission_lines
  (mission : string) (budget : pynum) (cart : list CartItem) (reason_text : string)
  : result (list string) :=
  let lines := [] in
  let lines := append lines ("미션: " ++ mission) in
  rbind (py_int budget) (fun b =>
  let lines := append lines ("예산: " ++ format_thousands b ++ "원") in
  let lines := append lines "" in
  let lines := append lines "▶ 구매한 물품" in
  rbind (match cart with
         | _ :: _ => append_item_lines lines cart
         | [] => Ok (append lines "- (구매한 물품 없음)")
         end) (fun lines =>
  let lines := append lines "" in
  let lines := append lines "▶ 구매 이유" in
  Ok (append_reason_lines lines (split_lines reason_text)))).

Definition create_submission_png
  (mission : string) (budget : pynum) (cart : list CartItem) (reason_text : string)
  : script string :=
  lines <- lift (submission_lines mission budget cart reason_text) ;;
  let margin := 40 in
  let line_height := 30 in
  let width := 800 in
  let height := margin * 2 + line_height * (Z.of_nat (List.length lines) + 3) in
  let save_dir := "submissions" in
  let filename := "submission_" ++ timestamp inp ++ ".png" in
  let filepath := save_dir ++ "/" ++ filename in
  save_file {| png_path := filepath;
               png_width := width;
               png_height := height;
               png_lines := lines |} ;;
  ret filepath.

(** [open(filepath, "rb").read()]: the file last saved under that path. *)
Definition read_file (filepath : string) : script png_file :=
  fun w => match find (fun f => String.eqb (png_path f) filepath) (files w) with
           | Some f => (Ok f, w)
           | None => (raise OSError, w)
           end.

(** [os.path.basename] of a path with one directory. *)
Fixpoint basename (p : string) : string :=
  match p with
  | EmptyString => EmptyString
  | String c r =>
      if existsb (Ascii.eqb "/"%char) (list_ascii_of_string r)
      then basename r
      else if Ascii.eqb c "/"%char then r else p
  end.

(** ** Screen 1: choosing the mission *)

Definition nl : string := String "010"%char EmptyString.

Definition show_mission_page : script unit :=
  emit (StTitle "🧾 예산 장보기 미션") ;;
  emit (StSubheader "1. 미션(예산) 선택하기") ;;
  emit (StWrite "학생은 아래 세 가지 미션 중 하나를 선택하여 장보기를 진행합니다.") ;;
  mission <- st_radio "원하는 미션을 선택하세요." (dict_keys MISSIONS) ;;
  budget <- lift (dict_get MISSIONS mission) ;;
  emit (StInfo ("선택한 미션: **" ++ mission ++ "**  " ++ nl
              ++ "예산: **" ++ format_thousands budget ++ "원**")) ;;
  b <- st_button BtnMissionDone ;;
  when b (set_mission mission ;;
          set_budget budget ;;
          set_page "shop").

(** ** Screen 2: shopping *)

(** The table of the cart: the columns "name" and "price", the prices
    through [astype(int)], which refuses a column with a value that is not
    finite. *)
Definition cart_table (cart : list CartItem) : result element :=
  if forallb (fun item => is_finite (item_price item)) cart
  then Ok (StDataframe
             (map (fun item => (item_name item, astype_int (item_price item)))
                  cart))
  else raise ValueError.

(** A row of the catalog, first column: the image. *)
Definition row_image (df : DataFrame) (image_col : option string) (row : list cell)
  : script unit :=
  match image_col with
  | Some ic =>
      c <- lift (row_get df row ic) ;;
      if notna c then
        if image_fails inp c then emit (StWrite "(이미지를 불러올 수 없습니다)")
        else emit (StImage c)
      else emit (StWrite "(이미지 없음)")
  | None => emit (StWrite "(이미지 없음)")
  end.

(** Second column: the name and the price; gives [price_value]. *)
Definition row_info (df : DataFrame) (name_col price_col : string) (row : list cell)
  : script pynum :=
  name <- lift (row_get df row name_col) ;;
  emit (StMarkdown ("**" ++ py_str name ++ "**")) ;;
  price_cell <- lift (row_get df row price_col) ;;
  price_value <- lift (except_ValueError
                         (rbind (float_of_cell price_cell)
                                (fun f => Ok (PyFloat f)))
                         (Ok (PyInt 0))) ;;
  shown <- lift (py_int price_value) ;;
  emit (StWrite ("가격: " ++ format_thousands shown ++ "원")) ;;
  ret price_value.

(** Third column: the button that puts the row into the cart. *)
Definition row_add (df : DataFrame) (name_col : string) (image_col : option string)
  (idx : nat) (row : list cell) (price_value : pynum) : script unit :=
  b <- st_button (BtnAdd idx) ;;
  when b (name <- lift (row_get df row name_col) ;;
          image_url <- match image_col with
                       | Some ic => c <- lift (row_get df row ic) ;; ret (Some c)
                       | None => ret None
                       end ;;
          add_to_cart name price_value image_url ;;
          emit (StSuccess ("장바구니에 '" ++ py_str name ++ "'을(를) 담았습니다."))).

(** The body of the loop over the rows of the catalog. *)
Definition shop_row (df : DataFrame) (name_col price_col : string)
  (image_col : option string) (ir : nat * list cell) : script unit :=
  let '(idx, row) := ir in
  row_image df image_col row ;;
  price_value <- row_info df name_col price_col row ;;
  row_add df name_col image_col idx row price_value ;;
  emit (StMarkdown "---").

(** The table of the cart with the total and what is left of the budget,
    as the shopping screen shows it under the catalog. *)
Definition shop_cart_summary (cart : list CartItem) (total : pynum) : script unit :=
  match cart with
  | _ :: _ =>
      table <- lift (cart_table cart) ;;
      emit table ;;
      shown <- lift (py_int total) ;;
      emit (StWrite ("**합계:** " ++ format_thousands shown ++ "원")) ;;
      s <- session_state ;;
      remaining <- lift (py_sub (PyInt (budget s)) total) ;;
      if py_ge0 remaining then
        left <- lift (py_int remaining) ;;
        emit (StSuccess ("남은 예산: " ++ format_thousands left ++ "원"))
      else
        over <- lift (py_int (py_neg remaining)) ;;
        emit (StError ("예산을 " ++ format_thousands over ++ "원 초과했습니다!"))
  | [] => emit (StWrite "장바구니가 비어 있습니다.")
  end.

(** The two buttons under the cart. *)
Definition shop_back : script unit :=
  back <- st_button BtnShopBack ;;
  when back (set_page "mission").

Definition shop_checkout (cart : list CartItem) : script unit :=
  go <- st_button BtnCheckout ;;
  when go (match cart with
           | [] => emit (StWarning "장바구니에 물품을 한 개 이상 담아주세요.")
           | _ :: _ => set_page "result"
           end).

(** The optional image column, under one of its three spellings. *)
Definition image_column (df : DataFrame) : option string :=
  if has_column df "이미지url" then Some "이미지url"
  else if has_column df "이미지URL" then Some "이미지URL"
  else if has_column df "image_url" then Some "image_url"
  else None.

Definition show_shop_page : script unit :=
  emit (StTitle "🛒 쇼핑 화면") ;;
  emit (StSubheader "2. 물품 선택하기") ;;
  s <- session_state ;;
  match mission s with
  | None =>
      emit (StWarning "먼저 미션을 선택해주세요.") ;;
      b <- st_button BtnShopGuardBack ;;
      when b (set_page "mission")
  | Some m =>
      emit (StWrite ("**현재 미션:** " ++ m)) ;;
      shown <- lift (py_int (PyInt (budget s))) ;;
      emit (StWrite ("**예산:** " ++ format_thousands shown ++ "원")) ;;
      df <- load_products "products.csv" ;;
      if df_empty df then ret tt
      else
        name_col <- get_column_name df "품명" "name" "품명(상품명)" ;;
        price_col <- get_column_name df "가격" "price" "가격" ;;
        let image_col := image_column df in
        emit (StMarkdown "### 상품 목록") ;;
        for_each (shop_row df name_col price_col image_col) (iterrows df) ;;
        emit (StMarkdown "### 🧺 장바구니") ;;
        s1 <- session_state ;;
        let cart := cart s1 in
        total <- calc_cart_total ;;
        shop_cart_summary cart total ;;
        shop_back ;;
        shop_checkout cart
  end.

(** ** Screen 3: the result and the submission *)

(** The table of the cart on the result screen; [remaining] was computed
    before it. *)
Definition result_cart_summary (cart : list CartItem) (total remaining : pynum)
  : script unit :=
  match cart with
  | _ :: _ =>
      table <- lift (cart_table cart) ;;
      emit table ;;
      shown <- lift (py_int total) ;;
      emit (StWrite ("**합계:** " ++ format_thousands shown ++ "원")) ;;
      if py_ge0 remaining then
        left <- lift (py_int remaining) ;;
        emit (StSuccess ("남은 예산: " ++ format_thousands left ++ "원"))
      else
        over <- lift (py_int (py_neg remaining)) ;;
        emit (StError ("예산을 " ++ format_thousands over ++ "원 초과했습니다!"))
  | [] => emit (StWrite "구매한 물품이 없습니다.")
  end.

Definition result_back : script unit :=
  back <- st_button BtnResultBack ;;
  when back (set_page "shop").

(** [str(x)] of the optional mission label. *)
Definition str_of_mission (m : option string) : string :=
  match m with
  | Some label => label
  | None => "None"
  end.

Definition result_submit (cart : list CartItem) : script unit :=
  submit <- st_button BtnSubmit ;;
  when submit (
    s <- session_state ;;
    if blank (reason s) then emit (StWarning "구매 이유를 입력해주세요.")
    else
      filepath <- create_submission_png (str_of_mission (mission s))
                    (PyInt (budget s)) cart (reason s) ;;
      png <- read_file filepath ;;
      emit (StSuccess "제출이 완료되었습니다! 아래 버튼을 눌러 PNG를 다운로드하세요.") ;;
      emit (StDownload "결과 PNG 다운로드" png (basename filepath) "image/png")).

Definition show_result_page : script unit :=
  emit (StTitle "📋 결과 화면") ;;
  emit (StSubheader "3. 구매 결과 확인 및 이유 작성") ;;
  s <- session_state ;;
  match mission s with
  | None =>
      emit (StWarning "먼저 미션을 선택하고 쇼핑을 완료해주세요.") ;;
      b <- st_button BtnResultGuardBack ;;
      when b (set_page "mission")
  | Some m =>
      emit (StWrite ("**미션:** " ++ m)) ;;
      shown <- lift (py_int (PyInt (budget s))) ;;
      emit (StWrite ("**예산:** " ++ format_thousands shown ++ "원")) ;;
      let cart := cart s in
      total <- calc_cart_total ;;
      remaining <- lift (py_sub (PyInt (budget s)) total) ;;
      emit (StMarkdown "### 🧺 내가 구매한 물품") ;;
      result_cart_summary cart total remaining ;;
      emit (StMarkdown "### ✏️ 구매 이유 작성") ;;
      text <- st_text_area "왜 이렇게 구매했는지 이유를 적어보세요." (reason s) ;;
      set_reason text ;;
      result_back ;;
      result_submit cart
  end.

(** ** Main *)

Definition main : script unit :=
  s <- session_state ;;
  if String.eqb (page s) "mission" then show_mission_page
  else if String.eqb (page s) "shop" then show_shop_page
  else if String.eqb (page s) "result" then show_result_page
  else set_page "mission" ;; show_mission_page.

End App.

(** One run of the script on a session, with the files written so far. *)
Definition run `{Runtime} (inp : inputs) (s : SessionState) (fs : list png_file)
  : result unit * world :=
  main inp {| session := s; screen := []; files := fs |}.

(** The sessions a user can bring about: the initial one, and any session a
    run leads to from one of them. *)
Inductive reachable `{Runtime} : SessionState -> Prop :=
| reachable_init : reachable initial_session
| reachable_run (inp : inputs) (s : SessionState) (fs : list png_file) :
    reachable s -> reachable (session (snd (run inp s fs))).

(* ===================================================================== *)
(** * A runtime to run the model on examples *)
(* ===================================================================== *)

(** The theorems below hold for every [Runtime].  To evaluate the model on
    concrete inputs one is needed; this one covers the inputs of the
    examples: plain decimal integers for [float(s)] and [str(f)], and
    greedy wrapping of space-separated ASCII words for [textwrap.wrap]. *)
Module Demo.

Fixpoint parse_digits (acc : Z) (s : string) : option Z :=
  match s with
  | EmptyString => Some acc
  | String c r =>
      let n := Z.of_N (N_of_ascii c) in
      if (48 <=? n) && (n <=? 57) then parse_digits (10 * acc + (n - 48)) r
      else None
  end.

Definition parse_float (s : string) : option float :=
  match s with
  | EmptyString => None
  | String "-" r =>
      match r with
      | EmptyString => None
      | _ => option_map (fun z => Z2float (- z)) (parse_digits 0 r)
      end
  | _ => option_map Z2float (parse_digits 0 s)
  end.

Definition print_float (f : float) : string :=
  match int_of_float f with
  | Ok z => str_of_int z ++ ".0"
  | Halt _ => "nan"
  end.

Fixpoint words (cur : string) (s : string) : list string :=
  match s with
  | EmptyString => match cur with EmptyString => [] | _ => [cur] end
  | String c r =>
      if Ascii.eqb c " "%char
      then match cur with
           | EmptyString => words EmptyString r
           | _ => cur :: words EmptyString r
           end
      else words (cur ++ String c EmptyString) r
  end.

Fixpoint fill (width : Z) (cur : string) (ws : list string) : list string :=
  match ws with
  | [] => match cur with EmptyString => [] | _ => [cur] end
  | w :: r =>
      match cur with
      | EmptyString => fill width w r
      | _ =>
          if Z.of_nat (String.length cur + 1 + String.length w) <=? width
          then fill width (cur ++ " " ++ w) r
          else cur :: fill width w r
      end
  end.

Definition wrap (text : string) (width : Z) : list string :=
  fill width EmptyString (words EmptyString text).

Definition runtime (compensated : bool) : Runtime :=
  {| float_of_str := parse_float;
     str_of_float := print_float;
     textwrap_wrap := wrap;
     compensated_sum := compensated |}.

End Demo.

(* ===================================================================== *)
(** * A program logic for scripts *)
(* ===================================================================== *)

(** [wp m Q E w]: running [m] from [w] either returns a value and a world
    that satisfy [Q], or halts leaving a world that satisfies [E]. *)
Definition wp {A : Type} (m : script A)
  (Q : A -> world -> Prop) (E : halt -> world -> Prop) (w : world) : Prop :=
  match m w with
  | (Ok a, w') => Q a w'
  | (Halt h, w') => E h w'
  end.

Definition hoare {A : Type} (P : world -> Prop) (m : script A)
  (Q : A -> world -> Prop) (E : halt -> world -> Prop) : Prop :=
  forall w, P w -> wp m Q E w.

(** [m] maintains [I], however it ends. *)
Definition maintains {A : Type} (I : world -> Prop) (m : script A) : Prop :=
  hoare I m (fun _ => I) (fun _ => I).

(** The world after one more element went on the screen. *)
Definition shown (w : world) (e : element) : world :=
  {| session := session w; screen := append (screen w) e; files := files w |}.

(** The world after an assignment to the session state. *)
Definition with_session (w : world) (s : SessionState) : world :=
  {| session := s; screen := screen w; files := files w |}.

Definition with_page (s : SessionState) (p : string) : SessionState :=
  {| page := p; mission := mission s; budget := budget s;
     cart := cart s; reason := reason s |}.

Definition with_cart (s : SessionState) (c : list CartItem) : SessionState :=
  {| page := page s; mission := mission s; budget := budget s;
     cart := c; reason := reason s |}.

Definition with_mission (s : SessionState) (m : string) : SessionState :=
  {| page := page s; mission := Some m; budget := budget s;
     cart := cart s; reason := reason s |}.

Definition with_budget (s : SessionState) (b : Z) : SessionState :=
  {| page := page s; mission := mission s; budget := b;
     cart := cart s; reason := reason s |}.

Definition with_reason (s : SessionState) (r : string) : SessionState :=
  {| page := page s; mission := mission s; budget := budget s;
     cart := cart s; reason := r |}.

(** [I] survives showing any element that [allowed] admits. *)
Definition emit_stable (allowed : element -> Prop) (I : world -> Prop) : Prop :=
  forall w e, allowed e -> I w -> I (shown w e).

(** [I] survives appending an item to the cart. *)
Definition cart_stable (I : world -> Prop) : Prop :=
  forall w item,
    I w -> I (with_session w (with_cart (session w) (append (cart (session w)) item))).

(** The elements that are no button, and the buttons that [ok] admits. *)
Definition shows_only (ok : button -> Prop) (e : element) : Prop :=
  match e with
  | StButton b => ok b
  | _ => True
  end.

Definition is_add (b : button) : Prop := exists idx, b = BtnAdd idx.

(** Whether the click that triggered the run is on a button to add an item. *)
Definition adds (inp : inputs) : Prop :=
  exists idx, clicked inp = Some (BtnAdd idx).

Definition no_button (b : button) : Prop := False.

Definition any_button (b : button) : Prop := True.

(** The world the next run leaves, starting from the session and the files
    the previous one left. *)
Definition next `{Runtime} (w : world) (inp : inputs) : world :=
  snd (run inp (session w) (files w)).

(** Several runs in a row. *)
Definition runs `{Runtime} (inps : list inputs) (w : world) : world :=
  fold_left next inps w.

(** The label the radio group of the mission screen returns in a run. *)
Definition selected_mission (inp : inputs) : string :=
  nth (radio_index inp) (dict_keys MISSIONS) (hd "" (dict_keys MISSIONS)).

(** The text the text area of the result screen returns in a run. *)
Definition justification (inp : inputs) (s : SessionState) : string :=
  match text_area_input inp with
  | Some t => t
  | None => reason s
  end.

(** The messages the claims are about. *)
Definition empty_cart_warning : element :=
  StWarning "장바구니에 물품을 한 개 이상 담아주세요.".

Definition blank_reason_warning : element :=
  StWarning "구매 이유를 입력해주세요.".

(** What [row_add] passes as [image_url]. *)
Definition row_image_url (df : DataFrame) (image_col : option string)
  (row : list cell) : option cell :=
  match image_col with
  | Some ic => match row_get df row ic with
               | Ok c => Some c
               | Halt _ => None
               end
  | None => None
  end.

(** The first required column of which the frame has neither spelling, as
    the shopping screen asks for them: the name, then the price; with the
    label the message gives it. *)
Definition missing_required (df : DataFrame) : option (string * string * string) :=
  if (has_column df "품명" || has_column df "name")%bool then
    if (has_column df "가격" || has_column df "price")%bool then None
    else Some ("가격", "price", "가격")
  else Some ("품명", "name", "품명(상품명)").

Definition missing_column_message (kor eng label : string) : string :=
  "products.csv에 '" ++ kor ++ "' 또는 '" ++ eng
  ++ "' 열이 필요합니다. (" ++ label ++ ")".

(** ** Whole numbers as floats *)

(** [p] with [k] zero bits appended. *)
Definition shl (k : nat) (p : positive) : positive := Nat.iter k xO p.

(** The float nearest to a whole number, in the form the specification of
    the float operations works on. *)
Definition whole (z : Z) : spec_float := binary_normalize prec emax z 0 false.

(** A shift record with nothing shifted out. *)
Definition exact (m : Z) : shr_record :=
  {| shr_m := m; shr_r := false; shr_s := false |}.

(** The float of a whole number [c] below 2^53, with sign [s]: the mantissa
    is [c] brought to 53 bits. *)
Definition canon (s : bool) (c : positive) : spec_float :=
  S754_finite s (shl (Z.to_nat (53 - Zpos (digits2_pos c))) c)
              (Zpos (digits2_pos c) - 53).

(** The arithmetic sum of whole prices, and the sum of their absolute
    values. *)
Definition sum_Z (ks : list Z) : Z := fold_right Z.add 0 ks.

Definition sum_abs (ks : list Z) : Z :=
  fold_right (fun k acc => Z.abs k + acc) 0 ks.

(** What [sum] gives for whole prices when it is exact: the [int] 0 without
    prices, else the float of their arithmetic sum. *)
Definition whole_total (ks : list Z) : pynum :=
  match ks with
  | [] => PyInt 0
  | _ :: _ => PyFloat (Z2float (sum_Z ks))
  end.

(** A sequence of calls of [add_to_cart]. *)
Definition add_items (calls : list (cell * pynum * option cell)) : script unit :=
  for_each (fun call => add_to_cart (fst (fst call)) (snd (fst call)) (snd call))
           calls.

(** The call that adds a whole price. *)
Definition whole_call (item : cell * Z * option cell) : cell * pynum * option cell :=
  (fst (fst item), PyFloat (Z2float (snd (fst item))), snd item).

(** A world in which nothing was shown or written yet. *)
Definition fresh (s : SessionState) : world :=
  {| session := s; screen := []; files := [] |}.

(** An item for the examples. *)
Definition apple (price : float) : CartItem :=
  {| item_name := CStr "Apple"; item_price := price; item_image_url := None |}.

(** Two carts with the same three items in two orders. *)
Definition huge_first : list CartItem :=
  [apple 1e308; apple 1e308; apple (-1e308)].

Definition huge_apart : list CartItem :=
  [apple 1e308; apple (-1e308); apple 1e308].

(** ** The lines of a submission, as the specification lists them *)

(** The line of a cart item: its name, and its price with thousands
    separators and the currency suffix. *)
Definition item_line (name : string) (price : Z) : string :=
  "- " ++ name ++ " (" ++ format_thousands price ++ "원)".

(** A paragraph of the justification, wrapped at 30 columns; an empty or
    blank paragraph is kept as one blank line. *)
Definition paragraph_lines `{Runtime} (para : string) : list string :=
  if blank para then [""] else textwrap_wrap para 30.

(** The justification: its paragraphs, one after the other. *)
Definition reflow `{Runtime} (text : string) : list string :=
  flat_map paragraph_lines (split_lines text).

(** The display lines in the order the specification gives them, for a
    budget and prices that are integers already. *)
Definition display_lines `{Runtime} (mission : string) (budget : Z)
  (items : list (string * Z)) (reason_text : string) : list string :=
  ([ ("미션: " ++ mission)%string;
     ("예산: " ++ format_thousands budget ++ "원")%string;
     "";
     "▶ 구매한 물품" ]
   ++ match items with
      | [] => ["- (구매한 물품 없음)"]
      | _ :: _ => map (fun item => item_line (fst item) (snd item)) items
      end
   ++ [ ""; "▶ 구매 이유" ]
   ++ reflow reason_text)%list.

(** A text written as its paragraphs: the paragraphs with one line feed
    between each two of them. *)
Definition join_lines (paras : list string) : string := String.concat nl paras.

(** A paragraph holds no line feed. *)
Definition no_line_feed (para : string) : bool :=
  forallb (fun c => negb (Ascii.eqb c "010"%char)) (list_ascii_of_string para).

(** A paragraph with nothing in it but white space, the empty one included. *)
Definition all_space (para : string) : bool :=
  forallb isspace (code_points para).

(** The lines of the justification, paragraph by paragraph. *)
Definition justification_lines `{Runtime} (paras : list string) : list string :=
  flat_map (fun para => if all_space para then [""] else textwrap_wrap para 30)
           paras.

(** The lines of a submission for a justification given as its paragraphs. *)
Definition layout `{Runtime} (mission : string) (budget : Z)
  (items : list (string * Z)) (paras : list string) : list string :=
  ([ ("미션: " ++ mission)%string;
     ("예산: " ++ format_thousands budget ++ "원")%string;
     "";
     "▶ 구매한 물품" ]
   ++ match items with
      | [] => ["- (구매한 물품 없음)"]
      | _ :: _ =>
          map (fun item =>
                 ("- " ++ fst item ++ " (" ++ format_thousands (snd item)
                  ++ "원)")%string) items
      end
   ++ [ ""; "▶ 구매 이유" ]
   ++ justification_lines paras)%list.

(** A second item for the examples. *)
Definition bread (price : float) : CartItem :=
  {| item_name := CStr "Bread"; item_price := price; item_image_url := None |}.

(** The exact value of a finite float, as a fraction of two integers,
    divided with rounding toward zero. *)
Definition truncate_toward_zero (f : float) : result Z :=
  match Prim2SF f with
  | S754_nan => raise ValueError
  | S754_infinity _ => raise OverflowError
  | S754_zero _ => Ok 0
  | S754_finite s m e =>
      Ok (Z.quot (cond_Zopp s (Zpos m) * 2 ^ Z.max e 0) (2 ^ Z.max (- e) 0))
  end.

(** The integers the renderer formats: every price, truncated. *)
Fixpoint truncated_prices (cart : list CartItem) : result (list Z) :=
  match cart with
  | [] => Ok []
  | item :: rest =>
      rbind (truncate_toward_zero (item_price item)) (fun p =>
      rbind (truncated_prices rest) (fun ps => Ok (p :: ps)))
  end.

(** Whether the price of an item is a finite float. *)
Definition finite_price (item : CartItem) : bool :=
  match Prim2SF (item_price item) with
  | S754_zero _ | S754_finite _ _ _ => true
  | S754_infinity _ | S754_nan => false
  end.

(** The budget the renderer formats. *)
Definition truncated_budget (budget : pynum) : result Z :=
  match budget with
  | PyInt z => Ok z
  | PyFloat f => truncate_toward_zero f
  end.

(** The image the renderer saves for a list of lines. *)
Definition submission_file (inp : inputs) (lines : list string) : png_file :=
  {| png_path := "submissions/submission_" ++ timestamp inp ++ ".png";
     png_width := 800;
     png_height := 80 + 30 * (Z.of_nat (List.length lines) + 3);
     png_lines := lines |}.

(** ** Inputs for the examples *)

(** A run that no click triggered, on a given catalog file. *)
Definition idle (csv : csv_file) : inputs :=
  {| clicked := None;
     radio_index := 0;
     text_area_input := None;
     read_csv := fun _ => csv;
     image_fails := fun _ => false;
     timestamp := "20240101_120000" |}.

(** A run that a click on [b] triggered. *)
Definition click (b : button) (csv : csv_file) : inputs :=
  {| clicked := Some b;
     radio_index := 0;
     text_area_input := None;
     read_csv := fun _ => csv;
     image_fails := fun _ => false;
     timestamp := "20240101_120000" |}.

(** A click on the submit button in a run whose text area holds [text]. *)
Definition submit_typing (text : string) : inputs :=
  {| clicked := Some BtnSubmit;
     radio_index := 0;
     text_area_input := Some text;
     read_csv := fun _ => FileNotFound;
     image_fails := fun _ => false;
     timestamp := "20240101_120000" |}.

(** A session on the shopping screen with the first mission and a cart. *)
Definition shopping (c : list CartItem) : SessionState :=
  {| page := "shop";
     mission := Some "절약형 장보기 (예산 10,000원)";
     budget := 10000;
     cart := c;
     reason := "" |}.

(** The same session on the result screen, with a justification. *)
Definition at_result (c : list CartItem) (text : string) : SessionState :=
  {| page := "result";
     mission := Some "절약형 장보기 (예산 10,000원)";
     budget := 10000;
     cart := c;
     reason := text |}.

(** A catalog file with the header of the name column only, and no row. *)
Definition header_only : DataFrame :=
  {| columns := ["name"]; rows := [] |}.

(** A catalog with one row and no price column. *)
Definition no_price_column : DataFrame :=
  {| columns := ["name"; "image_url"];
     rows := [[CStr "Apple"; CFloat nan]] |}.

(** The catalog of the specification's example, with a price that is no
    number in its second row. *)
Definition two_products : DataFrame :=
  {| columns := ["name"; "price"; "image_url"];
     rows := [ [CStr "Apple"; CStr "1500"; CFloat nan];
               [CStr "Milk"; CStr "abc"; CFloat nan] ] |}.

(** ** The catalog, row by row *)

(** Whether a float is a zero or a finite number. *)
Definition finite_float (f : float) : bool :=
  match Prim2SF f with
  | S754_zero _ | S754_finite _ _ _ => true
  | S754_infinity _ | S754_nan => false
  end.

(** The exception [int] raises on a float that is not finite. *)
Definition int_error (f : float) : pyexn :=
  match Prim2SF f with
  | S754_nan => ValueError
  | _ => OverflowError
  end.

(** The column [get_column_name] returns when the frame has one of the two
    spellings: the Korean one if it is there. *)
Definition resolved (df : DataFrame) (kor eng : string) : string :=
  if has_column df kor then kor else eng.

(** The entry a click on the button of a row puts into the cart: the name
    and the image cell of the row, and [float(price_value)]; the row gets as
    far as its button only when [int(price_value)] went through. *)
Definition row_item `{Runtime} (df : DataFrame) (name_col price_col : string)
  (image_col : option string) (row : list cell) : result CartItem :=
  rbind (row_get df row name_col) (fun name =>
  rbind (row_get df row price_col) (fun price_cell =>
  rbind (except_ValueError
           (rbind (float_of_cell price_cell) (fun f => Ok (PyFloat f)))
           (Ok (PyInt 0))) (fun price_value =>
  rbind (py_int price_value) (fun _ =>
  rbind (py_float price_value) (fun p =>
  Ok {| item_name := name;
        item_price := p;
        item_image_url := row_image_url df image_col row |}))))).

(** What a row of the catalog may have done to the world [w] it started
    from, when it leaves [w']: it wrote no file, it showed no button but its
    own, and it left the session alone unless its button was clicked, in
    which case its item is in the cart. *)
Definition row_effect `{Runtime} (inp : inputs) (df : DataFrame)
  (name_col price_col : string) (image_col : option string)
  (idx : nat) (row : list cell) (w w' : world) : Prop :=
  files w' = files w
  /\ (forall b, In (StButton b) (screen w') ->
        In (StButton b) (screen w) \/ b = BtnAdd idx)
  /\ ((session w' = session w
       /\ (pressed inp (BtnAdd idx) = true ->
           In (StButton (BtnAdd idx)) (screen w') ->
           In (StButton (BtnAdd idx)) (screen w)))
      \/ (pressed inp (BtnAdd idx) = true
          /\ exists item,
               row_item df name_col price_col image_col row = Ok item
               /\ session w'
                  = with_cart (session w) (append (cart (session w)) item))).

(** The same for the loop over rows [first], [first + 1], ... of the
    catalog, in a run that a click on the button of row [i] triggered. *)
Definition rows_effect `{Runtime} (inp : inputs) (df : DataFrame)
  (name_col price_col : string) (image_col : option string)
  (i first : nat) (rows : list (list cell)) (w w' : world) : Prop :=
  files w' = files w
  /\ (forall b, In (StButton b) (screen w') ->
        In (StButton b) (screen w) \/ is_add b)
  /\ ((session w' = session w
       /\ (pressed inp (BtnAdd i) = true ->
           In (StButton (BtnAdd i)) (screen w') ->
           In (StButton (BtnAdd i)) (screen w)))
      \/ (exists row item,
            (first <= i)%nat
            /\ nth_error rows (i - first) = Some row
            /\ row_item df name_col price_col image_col row = Ok item
            /\ session w'
               = with_cart (session w) (append (cart (session w)) item))).

(** The session [s'] is [s] with the item of row [i] of the catalog file
    appended to the cart. *)
Definition clicked_row_added `{Runtime} (inp : inputs) (i : nat)
  (s s' : SessionState) : Prop :=
  exists df row item,
    read_csv inp "products.csv" = CsvData df
    /\ nth_error (rows df) i = Some row
    /\ row_item df (resolved df "품명" "name") (resolved df "가격" "price")
         (image_column df) row = Ok item
    /\ s' = with_cart s (append (cart s) item).

(** The message [load_products] shows when the catalog file is missing. *)
Definition missing_file_message : string :=
  "'products.csv' 파일을 찾을 수 없습니다. "
  ++ "앱과 같은 폴더에 'products.csv'를 넣어 주세요.".

(** ** The summary of the cart *)

(** The table of a cart, as the summaries show it: the names, and the
    prices as the integer column holds them. *)
Definition table_of (items : list CartItem) : element :=
  StDataframe
    (map (fun item => (item_name item, astype_int (item_price item))) items).

(** The last line of the summary of the cart, for a budget and a total that
    are whole numbers. *)
Definition budget_message (b total : Z) : element :=
  if total <=? b
  then StSuccess ("남은 예산: " ++ format_thousands (b - total) ++ "원")
  else StError ("예산을 " ++ format_thousands (total - b) ++ "원 초과했습니다!").

(** What the summary of a cart that is not empty puts on the screen. *)
Definition summary_shown (w : world) (items : list CartItem) (b total : Z)
  : world :=
  shown
    (shown
       (shown w (table_of items))
       (StWrite ("**합계:** " ++ format_thousands total ++ "원")))
    (budget_message b total).

(** ** The mission screen *)

(** The session a confirmed mission leaves. *)
Definition confirmed (s : SessionState) (label : string) (amount : Z)
  : SessionState :=
  {| page := "shop"; mission := Some label; budget := amount;
     cart := cart s; reason := reason s |}.

(** What the mission screen puts on the screen. *)
Definition mission_screen (label : string) (amount : Z) : list element :=
  [ StTitle "🧾 예산 장보기 미션";
    StSubheader "1. 미션(예산) 선택하기";
    StWrite "학생은 아래 세 가지 미션 중 하나를 선택하여 장보기를 진행합니다.";
    StRadio "원하는 미션을 선택하세요." (dict_keys MISSIONS);
    StInfo ("선택한 미션: **" ++ label ++ "**  " ++ nl
            ++ "예산: **" ++ format_thousands amount ++ "원**");
    StButton BtnMissionDone ].

(** ** The sessions of the application *)

(** What every run keeps true of the session: the page is one of the three
    screens; the budget is the amount of the selected mission, and nothing
    was done yet as long as no mission is selected; the result screen has a
    cart that is not empty; every price in the cart is finite. *)
Definition consistent (s : SessionState) : Prop :=
  (page s = "mission" \/ page s = "shop" \/ page s = "result")
  /\ match mission s with
     | None => s = initial_session
     | Some label => In (label, budget s) MISSIONS
     end
  /\ (page s = "result" -> cart s <> [])
  /\ forallb finite_price (cart s) = true.

(** ** The image of a submission *)

(** The loop that draws the lines of the image: every line at the left
    margin, each [line_height] under the one before. *)
Fixpoint draw_lines (margin y line_height : Z) (lines : list string)
  : list (Z * Z * string) :=
  match lines with
  | [] => []
  | line :: rest =>
      (margin, y, line) :: draw_lines margin (y + line_height) line_height rest
  end.

(** Where the text of a saved image was drawn: [margin] is 40 and
    [line_height] is 30. *)
Definition drawn_text (f : png_file) : list (Z * Z * string) :=
  draw_lines 40 40 30 (png_lines f).

(** Whether a text has no slash in it. *)
Definition no_slash (s : string) : bool :=
  negb (existsb (Ascii.eqb "/"%char) (list_ascii_of_string s)).

(** The button that offers a saved image for download. *)
Definition download_button (file : png_file) : element :=
  StDownload "결과 PNG 다운로드" file (basename (png_path file)) "image/png".

(** ** Calls of [add_to_cart] *)

(** A call with a float as its price, and the entry it makes. *)
Definition float_call (c : cell * float * option cell)
  : cell * pynum * option cell :=
  (fst (fst c), PyFloat (snd (fst c)), snd c).

Definition called_item (c : cell * float * option cell) : CartItem :=
  {| item_name := fst (fst c);
     item_price := snd (fst c);
     item_image_url := snd c |}.

(** ** More inputs for the examples *)

(** The entry the first row of the example catalog makes. *)
Definition apple_row : CartItem :=
  {| item_name := CStr "Apple";
     item_price := 1500;
     item_image_url := Some (CFloat nan) |}.

(** A catalog whose only row has no price, and one whose price is a whole
    number. *)
Definition unpriced : DataFrame :=
  {| columns := ["name"; "price"]; rows := [[CStr "Pear"; CFloat nan]] |}.

Definition priced : DataFrame :=
  {| columns := ["name"; "price"]; rows := [[CStr "Pear"; CInt 1200]] |}.

(** A catalog whose second row has no price: pandas reads the column as
    objects, the missing price as a NaN. *)
Definition missing_price_catalog : DataFrame :=
  {| columns := ["name"; "price"];
     rows := [ [CStr "Apple"; CStr "1500"];
               [CStr "Pear"; CFloat nan];
               [CStr "Milk"; CStr "abc"] ] |}.

(** An item at the price 1e308: two of them add up to more than a float
    holds. *)
Definition heavy (name : string) : CartItem :=
  {| item_name := CStr name; item_price := 1e308; item_image_url := None |}.

(* ===================================================================== *)
(** * Rules of the program logic *)
(* ===================================================================== *)

Section Rules.

Context {R : Runtime}.
Variable inp : inputs.

Lemma wp_ret {A} (a : A) Q E w : Q a w -> wp (ret a) Q E w.
Proof. exact (fun H => H). Qed.

Lemma wp_bind {A B} (m : script A) (k : A -> script B) Q E w :
  wp m (fun a w' => wp (k a) Q E w') E w -> wp (bind m k) Q E w.
Proof.
  unfold wp, bind. destruct (m w) as [[a|h] w']; auto.
Qed.

Lemma wp_lift {A} (r : result A) Q E w :
  match r with Ok a => Q a w | Halt h => E h w end -> wp (lift r) Q E w.
Proof. unfold wp, lift. destruct r; auto. Qed.

Lemma wp_stop {A} (Q : A -> world -> Prop) E w :
  E StopScript w -> wp st_stop Q E w.
Proof. exact (fun H => H). Qed.

Lemma wp_emit e Q E w : Q tt (shown w e) -> wp (emit e) Q E w.
Proof. exact (fun H => H). Qed.

Lemma wp_session_state Q E w : Q (session w) w -> wp session_state Q E w.
Proof. exact (fun H => H). Qed.

Lemma wp_put_session s Q E w :
  Q tt (with_session w s) -> wp (put_session s) Q E w.
Proof. exact (fun H => H). Qed.

Lemma wp_set_page p Q E w :
  Q tt (with_session w (with_page (session w) p)) -> wp (set_page p) Q E w.
Proof. exact (fun H => H). Qed.

Lemma wp_set_cart c Q E w :
  Q tt (with_session w (with_cart (session w) c)) -> wp (set_cart c) Q E w.
Proof. exact (fun H => H). Qed.

Lemma wp_set_reason r Q E w :
  Q tt (with_session w (with_reason (session w) r)) -> wp (set_reason r) Q E w.
Proof. exact (fun H => H). Qed.

Lemma wp_st_button b Q E w :
  Q (pressed inp b) (shown w (StButton b)) -> wp (st_button inp b) Q E w.
Proof. exact (fun H => H). Qed.

Lemma wp_st_text_area label value Q E w :
  let text := match text_area_input inp with Some t => t | None => value end in
  Q text (shown w (StTextArea label text)) ->
  wp (st_text_area inp label value) Q E w.
Proof. exact (fun H => H). Qed.

Lemma wp_calc_cart_total Q E w :
  Q (py_sum (map item_price (cart (session w)))) w -> wp calc_cart_total Q E w.
Proof. exact (fun H => H). Qed.

Lemma wp_hoare {A} (P : world -> Prop) (m : script A) Q' E' Q E w :
  hoare P m Q' E' -> P w ->
  (forall a w', Q' a w' -> Q a w') -> (forall h w', E' h w' -> E h w') ->
  wp m Q E w.
Proof.
  intros Hm HP HQ HE. specialize (Hm w HP). unfold wp in *.
  destruct (m w) as [[a|h] w']; auto.
Qed.

(** A block that maintains [I], followed by a continuation. *)
Lemma wp_bind_maintains {A B} (I : world -> Prop)
  (m : script A) (k : A -> script B) Q E w :
  maintains I m -> I w ->
  (forall h w', I w' -> E h w') ->
  (forall a w', I w' -> wp (k a) Q E w') ->
  wp (bind m k) Q E w.
Proof.
  intros Hm Hw HE Hk. apply wp_bind.
  eapply wp_hoare; [exact Hm | exact Hw | |]; cbn beta; auto.
Qed.

(** What [wp] says about the world a script leaves. *)
Lemma wp_snd {A} (m : script A) (I : world -> Prop) w :
  wp m (fun _ => I) (fun _ => I) w -> I (snd (m w)).
Proof. unfold wp. destruct (m w) as [[a|h] w']; auto. Qed.

Lemma maintains_bind {A B} I (m : script A) (k : A -> script B) :
  maintains I m -> (forall a, maintains I (k a)) -> maintains I (bind m k).
Proof.
  intros Hm Hk w Hw. eapply wp_bind_maintains; eauto.
Qed.

Lemma maintains_ret {A} I (a : A) : maintains I (ret a).
Proof. intros w Hw. exact Hw. Qed.

Lemma maintains_lift {A} I (r : result A) : maintains I (lift r).
Proof. intros w Hw. apply wp_lift. destruct r; exact Hw. Qed.

Lemma maintains_stop {A} I : maintains I (@st_stop A).
Proof. intros w Hw. exact Hw. Qed.

Lemma maintains_session_state I : maintains I session_state.
Proof. intros w Hw. exact Hw. Qed.

Lemma maintains_calc_cart_total I : maintains I calc_cart_total.
Proof. intros w Hw. exact Hw. Qed.

Lemma maintains_emit allowed I e :
  emit_stable allowed I -> allowed e -> maintains I (emit e).
Proof. intros He Ha w Hw. apply wp_emit, He; assumption. Qed.

Lemma maintains_for_each {A} I (body : A -> script unit) l :
  (forall x, In x l -> maintains I (body x)) -> maintains I (for_each body l).
Proof.
  induction l as [|x l IH]; intros Hb; simpl.
  - apply maintains_ret.
  - apply maintains_bind.
    + apply Hb. left. reflexivity.
    + intros _. apply IH. intros y Hy. apply Hb. right. exact Hy.
Qed.

Lemma emit_stable_mono (ok ok' : button -> Prop) I :
  (forall b, ok' b -> ok b) ->
  emit_stable (shows_only ok) I -> emit_stable (shows_only ok') I.
Proof.
  intros Hsub He w e Ha Hw. apply He; [|exact Hw].
  destruct e; simpl in *; auto.
Qed.

End Rules.

(** One step of symbolic execution on a primitive of the monad. *)
Ltac wp_prim :=
  lazymatch goal with
  | |- wp (ret _) _ _ _ => apply wp_ret
  | |- wp (emit _) _ _ _ => apply wp_emit
  | |- wp (lift _) _ _ _ => apply wp_lift
  | |- wp session_state _ _ _ => apply wp_session_state
  | |- wp calc_cart_total _ _ _ => apply wp_calc_cart_total
  | |- wp (put_session _) _ _ _ => apply wp_put_session
  | |- wp (set_page _) _ _ _ => apply wp_set_page
  | |- wp (set_cart _) _ _ _ => apply wp_set_cart
  | |- wp (set_reason _) _ _ _ => apply wp_set_reason
  | |- wp (st_button _ _) _ _ _ => apply wp_st_button
  | |- wp (st_text_area _ _ _) _ _ _ => apply wp_st_text_area
  | |- wp st_stop _ _ _ => apply wp_stop
  | |- wp (when _ _) _ _ _ => unfold when
  end; cbn beta.

Ltac wp_step :=
  lazymatch goal with
  | |- wp (bind _ _) _ _ _ => apply wp_bind; wp_step
  | |- _ => wp_prim
  end.

Ltac wp_steps := repeat wp_step.

(** Run on, knowing which button was clicked. *)
Ltac wp_click click :=
  repeat first [ wp_step
               | progress (unfold pressed; rewrite click; cbn [button_eqb]) ].

(** Split on what the statement at the head of the script examines. *)
Ltac wp_case :=
  lazymatch goal with
  | |- wp (match ?x with _ => _ end) _ _ _ => destruct x eqn:?
  end.

(** Cut at the first statement: it maintains the invariant [Hw] states. *)
Ltac wp_cut Hw :=
  lazymatch goal with
  | |- wp _ _ _ ?w =>
      lazymatch type of Hw with
      | ?P =>
          let abstracted := eval pattern w in P in
          lazymatch abstracted with
          | ?Inv w =>
              eapply wp_bind_maintains with (I := Inv);
              [ | exact Hw
                | let H := fresh in
                  intros ? ? H; cbn beta in H;
                  first [ exact H | exact (proj1 H) | solve [auto]
                        | destruct H as [H _]; solve [auto] ]
                | clear Hw; intros ? ? Hw; cbn beta in Hw ]
          end
      end
  end.

(* ===================================================================== *)
(** * The blocks of the screens *)
(* ===================================================================== *)

Lemma in_append {A} (x y : A) l : In x (append l y) <-> In x l \/ x = y.
Proof.
  unfold append. rewrite in_app_iff. simpl. intuition congruence.
Qed.

Section Blocks.

Context {R : Runtime}.
Variable inp : inputs.

Lemma pressed_add_adds idx : pressed inp (BtnAdd idx) = true -> adds inp.
Proof.
  unfold pressed, adds. destruct (clicked inp) as [c|]; [|discriminate].
  destruct c; try discriminate. eauto.
Qed.

Lemma add_to_cart_maintains I name price image_url :
  cart_stable I -> maintains I (add_to_cart name price image_url).
Proof.
  intros Hc w Hw. unfold add_to_cart. wp_steps.
  destruct (py_float price) as [p|h]; [|exact Hw].
  wp_step. apply Hc, Hw.
Qed.

Lemma read_file_maintains I path : maintains I (read_file path).
Proof.
  intros w Hw. unfold wp, read_file.
  destruct (find _ (files w)); exact Hw.
Qed.

Lemma create_submission_png_maintains I label budget cart text :
  (forall w f, I w -> I {| session := session w; screen := screen w;
                           files := f :: files w |}) ->
  maintains I (create_submission_png inp label budget cart text).
Proof.
  intros Hf w Hw. unfold create_submission_png. wp_steps.
  destruct (submission_lines label budget cart text) as [lines|h]; [|exact Hw].
  cbv zeta. apply wp_bind. unfold wp, save_file. apply Hf, Hw.
Qed.

(** ** The rows of the catalog *)

Section Rows.

Variable I : world -> Prop.
Hypothesis I_emit : emit_stable (shows_only is_add) I.
Hypothesis I_cart : adds inp -> cart_stable I.

Lemma row_shows e : shows_only is_add e -> maintains I (emit e).
Proof. intros H. apply (maintains_emit (shows_only is_add)); assumption. Qed.

Lemma row_image_maintains df image_col row :
  maintains I (row_image inp df image_col row).
Proof.
  unfold row_image. destruct image_col as [ic|].
  - apply maintains_bind; [apply maintains_lift|]. intros c.
    destruct (notna c); [destruct (image_fails inp c)|];
      apply row_shows; exact Logic.I.
  - apply row_shows; exact Logic.I.
Qed.

Lemma row_info_maintains df name_col price_col row :
  maintains I (row_info df name_col price_col row).
Proof.
  unfold row_info.
  repeat first [ apply maintains_bind; [|intros ?]
               | apply maintains_lift
               | apply maintains_ret
               | apply row_shows; exact Logic.I ].
Qed.

Lemma row_add_maintains df name_col image_col idx row price_value :
  maintains I (row_add inp df name_col image_col idx row price_value).
Proof.
  intros w Hw. unfold row_add. wp_steps.
  assert (Hw' : I (shown w (StButton (BtnAdd idx)))).
  { apply I_emit; [|exact Hw]. exists idx. reflexivity. }
  destruct (pressed inp (BtnAdd idx)) eqn:Hp; [|exact Hw'].
  apply pressed_add_adds in Hp. specialize (I_cart Hp).
  revert Hw'. generalize (shown w (StButton (BtnAdd idx))). clear w Hw.
  intros w Hw.
  wp_steps. destruct (row_get df row name_col) as [name|h]; [|exact Hw].
  eapply wp_bind_maintains with (I := I); [ | exact Hw | auto | ].
  { destruct image_col.
    - apply maintains_bind; [apply maintains_lift|]. intros; apply maintains_ret.
    - apply maintains_ret. }
  clear w Hw. intros image_url w Hw.
  wp_cut Hw; [apply add_to_cart_maintains, I_cart|].
  apply row_shows; [exact Logic.I | exact Hw].
Qed.

Lemma shop_row_maintains df name_col price_col image_col ir :
  maintains I (shop_row inp df name_col price_col image_col ir).
Proof.
  destruct ir as [idx row]. unfold shop_row.
  apply maintains_bind; [apply row_image_maintains|]. intros _.
  apply maintains_bind; [apply row_info_maintains|]. intros price_value.
  apply maintains_bind; [apply row_add_maintains|]. intros _.
  apply row_shows; exact Logic.I.
Qed.

Lemma catalog_rows_maintain df name_col price_col image_col l :
  maintains I (for_each (shop_row inp df name_col price_col image_col) l).
Proof. apply maintains_for_each. intros. apply shop_row_maintains. Qed.

End Rows.

(** ** The blocks that show no button *)

Section Passive.

Variable I : world -> Prop.
Hypothesis I_emit : emit_stable (shows_only no_button) I.

Lemma maintains_show e : shows_only no_button e -> maintains I (emit e).
Proof. intros H. apply (maintains_emit (shows_only no_button)); assumption. Qed.

Lemma load_products_maintains path : maintains I (load_products inp path).
Proof.
  unfold load_products. destruct (read_csv inp path).
  - apply maintains_bind; [apply maintains_show; exact Logic.I|].
    intros _. apply maintains_ret.
  - apply maintains_ret.
Qed.

Lemma get_column_name_maintains df kor eng label :
  maintains I (get_column_name df kor eng label).
Proof.
  unfold get_column_name.
  destruct (has_column df kor); [apply maintains_ret|].
  destruct (has_column df eng); [apply maintains_ret|].
  apply maintains_bind; [apply maintains_show; exact Logic.I|].
  intros _. apply maintains_stop.
Qed.

Lemma cart_table_shown cart e :
  cart_table cart = Ok e -> shows_only no_button e.
Proof.
  unfold cart_table. destruct (forallb _ cart); [|discriminate].
  intros [= <-]. exact Logic.I.
Qed.

(** The last lines of both summaries: what is left of the budget. *)
Lemma remaining_maintains remaining :
  maintains I
    (if py_ge0 remaining then
       left <- lift (py_int remaining) ;;
       emit (StSuccess ("남은 예산: " ++ format_thousands left ++ "원"))
     else
       over <- lift (py_int (py_neg remaining)) ;;
       emit (StError ("예산을 " ++ format_thousands over ++ "원 초과했습니다!"))).
Proof.
  destruct (py_ge0 remaining);
    (apply maintains_bind; [apply maintains_lift|]);
    intros ?; apply maintains_show; exact Logic.I.
Qed.

Lemma shop_cart_summary_maintains cart total :
  maintains I (shop_cart_summary cart total).
Proof.
  unfold shop_cart_summary. destruct cart as [|item rest].
  - apply maintains_show; exact Logic.I.
  - intros w Hw. wp_steps.
    destruct (cart_table (item :: rest)) as [table|h] eqn:Ht; [|exact Hw].
    apply cart_table_shown in Ht.
    wp_cut Hw; [apply maintains_show, Ht|].
    wp_cut Hw; [apply maintains_lift|].
    wp_cut Hw; [apply maintains_show; exact Logic.I|].
    wp_cut Hw; [apply maintains_session_state|].
    wp_cut Hw; [apply maintains_lift|].
    apply remaining_maintains, Hw.
Qed.

Lemma result_cart_summary_maintains cart total remaining :
  maintains I (result_cart_summary cart total remaining).
Proof.
  unfold result_cart_summary. destruct cart as [|item rest].
  - apply maintains_show; exact Logic.I.
  - intros w Hw. wp_steps.
    destruct (cart_table (item :: rest)) as [table|h] eqn:Ht; [|exact Hw].
    apply cart_table_shown in Ht.
    wp_cut Hw; [apply maintains_show, Ht|].
    wp_cut Hw; [apply maintains_lift|].
    wp_cut Hw; [apply maintains_show; exact Logic.I|].
    apply remaining_maintains, Hw.
Qed.

End Passive.

End Blocks.


(* ===================================================================== *)
(** * The screens as a whole *)
(* ===================================================================== *)

Section Screens.

Context {R : Runtime}.
Variable inp : inputs.

Lemma main_mission w :
  page (session w) = "mission" -> main inp w = show_mission_page inp w.
Proof. unfold main, bind, session_state. intros ->. reflexivity. Qed.

Lemma main_shop w :
  page (session w) = "shop" -> main inp w = show_shop_page inp w.
Proof. unfold main, bind, session_state. intros ->. reflexivity. Qed.

Lemma main_result w :
  page (session w) = "result" -> main inp w = show_result_page inp w.
Proof. unfold main, bind, session_state. intros ->. reflexivity. Qed.

(** The shopping screen, cut before its last two buttons: up to there it
    maintains any [I] that its elements and the clicked button do not
    disturb; [Q] is what the two buttons establish from [I], and what [I]
    gives when the screen ends before them. *)
Lemma shop_page_hoare (I Q : world -> Prop) :
  emit_stable (shows_only (fun b => b <> BtnShopBack /\ b <> BtnCheckout)) I ->
  (adds inp -> cart_stable I) ->
  (forall w, I w -> Q w) ->
  (pressed inp BtnShopGuardBack = true ->
   forall w, I w -> Q (with_session w (with_page (session w) "mission"))) ->
  (forall c, hoare (fun w => I w /\ cart (session w) = c)
                   (shop_back inp ;; shop_checkout inp c)
                   (fun _ => Q) (fun _ => Q)) ->
  hoare I (show_shop_page inp) (fun _ => Q) (fun _ => Q).
Proof.
  intros I_emit I_cart IQ I_guard I_tail.
  assert (Hpas : emit_stable (shows_only no_button) I).
  { eapply emit_stable_mono; [|exact I_emit]. intros b []. }
  assert (Hrow : emit_stable (shows_only is_add) I).
  { eapply emit_stable_mono; [|exact I_emit].
    intros b [idx ->]. split; discriminate. }
  pose proof (maintains_show I Hpas) as Hshow.
  intros w Hw. unfold show_shop_page.
  wp_cut Hw; [apply Hshow; exact Logic.I|].
  wp_cut Hw; [apply Hshow; exact Logic.I|].
  wp_steps. wp_case.
  - wp_cut Hw; [apply Hshow; exact Logic.I|].
    wp_steps. cbn [py_int].
    wp_cut Hw; [apply Hshow; exact Logic.I|].
    wp_cut Hw; [apply load_products_maintains, Hpas|].
    wp_case; [apply IQ, Hw|].
    wp_cut Hw; [apply get_column_name_maintains, Hpas|].
    wp_cut Hw; [apply get_column_name_maintains, Hpas|].
    cbv zeta.
    wp_cut Hw; [apply Hshow; exact Logic.I|].
    wp_cut Hw; [apply catalog_rows_maintain; assumption|].
    wp_cut Hw; [apply Hshow; exact Logic.I|].
    wp_steps. cbv zeta.
    match goal with
    | |- wp _ _ _ ?w0 =>
        eapply wp_bind_maintains
          with (I := fun w => I w /\ cart (session w) = cart (session w0))
    end.
    + apply shop_cart_summary_maintains.
      intros w0 e He [H1 H2]. split; [apply Hpas; assumption | exact H2].
    + split; [exact Hw | reflexivity].
    + intros h w0 [H1 _]. apply IQ, H1.
    + intros _ w0 Hw0. apply (I_tail _ w0 Hw0).
  - wp_cut Hw; [apply Hshow; exact Logic.I|].
    wp_steps.
    match goal with
    | |- wp _ _ _ (shown ?w0 _) =>
        assert (Hb : I (shown w0 (StButton BtnShopGuardBack)))
          by (apply I_emit; [split; discriminate | exact Hw])
    end.
    destruct (pressed inp BtnShopGuardBack) eqn:Hp; [|apply IQ, Hb].
    wp_steps. apply (I_guard eq_refl _ Hb).
Qed.

(** The same for the result screen, whose tail starts at the text area. *)
Lemma result_page_hoare (I Q : world -> Prop) :
  emit_stable (shows_only (fun b => b = BtnResultGuardBack)) I ->
  (forall w, I w -> Q w) ->
  (pressed inp BtnResultGuardBack = true ->
   forall w, I w -> Q (with_session w (with_page (session w) "mission"))) ->
  (forall s0, hoare (fun w => I w /\ session w = s0)
                (text <- st_text_area inp "왜 이렇게 구매했는지 이유를 적어보세요."
                           (reason s0) ;;
                 set_reason text ;;
                 result_back inp ;;
                 result_submit inp (cart s0))
                (fun _ => Q) (fun _ => Q)) ->
  hoare I (show_result_page inp) (fun _ => Q) (fun _ => Q).
Proof.
  intros I_emit IQ I_guard I_tail.
  assert (Hpas : emit_stable (shows_only no_button) I).
  { eapply emit_stable_mono; [|exact I_emit]. intros b []. }
  pose proof (maintains_show I Hpas) as Hshow.
  intros w Hw. unfold show_result_page.
  wp_cut Hw; [apply Hshow; exact Logic.I|].
  wp_cut Hw; [apply Hshow; exact Logic.I|].
  wp_steps. wp_case.
  - match goal with
    | |- wp _ _ _ ?w0 =>
        set (s0 := session w0);
        assert (Hw0 : I w0 /\ session w0 = s0) by (split; [exact Hw | reflexivity]);
        clearbody s0; clear Hw; revert Hw0; generalize w0
    end.
    assert (Hpas' : emit_stable (shows_only no_button)
                      (fun w => I w /\ session w = s0)).
    { intros w0 e He [H1 H2]. split; [apply Hpas; assumption | exact H2]. }
    pose proof (maintains_show _ Hpas') as Hshow'.
    intros w0 Hw.
    wp_cut Hw; [apply Hshow'; exact Logic.I|].
    wp_steps. cbn [py_int].
    wp_cut Hw; [apply Hshow'; exact Logic.I|].
    cbv zeta.
    wp_cut Hw; [apply maintains_calc_cart_total|].
    wp_cut Hw; [apply maintains_lift|].
    wp_cut Hw; [apply Hshow'; exact Logic.I|].
    wp_cut Hw; [apply result_cart_summary_maintains, Hpas'|].
    wp_cut Hw; [apply Hshow'; exact Logic.I|].
    apply (I_tail s0 _ Hw).
  - wp_cut Hw; [apply Hshow; exact Logic.I|].
    wp_steps.
    match goal with
    | |- wp _ _ _ (shown ?w0 _) =>
        assert (Hb : I (shown w0 (StButton BtnResultGuardBack)))
          by (apply I_emit; [reflexivity | exact Hw])
    end.
    destruct (pressed inp BtnResultGuardBack) eqn:Hp; [|apply IQ, Hb].
    wp_steps. apply (I_guard eq_refl _ Hb).
Qed.

End Screens.

(* ===================================================================== *)
(** * What a run leaves untouched *)
(* ===================================================================== *)

(** Establish [Inv] of the current world with [tac], then forget how the
    world came about. *)
Ltac wp_invariant H Inv tac :=
  lazymatch goal with
  | |- wp _ _ _ ?w0 =>
      let w := fresh "w" in
      assert (H : Inv w0) by tac;
      revert H; generalize w0; intros w H
  end.

Section Frames.

Context {R : Runtime}.
Variable inp : inputs.

(** A property of the session alone, kept by assignments to the page. *)
Variable P : SessionState -> Prop.
Hypothesis P_page : forall s p, P s -> P (with_page s p).

Let I (w : world) : Prop := P (session w).

Lemma session_only_emit ok : emit_stable (shows_only ok) I.
Proof. intros w e _ Hw. exact Hw. Qed.

Lemma shop_page_frame :
  (adds inp -> forall s item, P s -> P (with_cart s (append (cart s) item))) ->
  maintains I (show_shop_page inp).
Proof.
  intros P_cart. apply shop_page_hoare.
  - apply session_only_emit.
  - intros Ha w item Hw. apply (P_cart Ha), Hw.
  - auto.
  - intros _ w Hw. apply P_page, Hw.
  - intros c w [Hw _]. unfold shop_back, shop_checkout. wp_steps.
    destruct (pressed inp BtnShopBack); wp_steps;
      (destruct (pressed inp BtnCheckout); [destruct c; wp_steps|]);
      repeat apply P_page; exact Hw.
Qed.

Lemma result_page_frame :
  (forall s r, P s -> P (with_reason s r)) ->
  maintains I (show_result_page inp).
Proof.
  intros P_reason. apply result_page_hoare.
  - apply session_only_emit.
  - auto.
  - intros _ w Hw. apply P_page, Hw.
  - intros s0 w [Hw _]. wp_steps. cbv zeta.
    wp_invariant H1 I ltac:(apply P_reason, Hw).
    unfold result_back. wp_steps.
    destruct (pressed inp BtnResultBack); wp_steps;
      (wp_invariant H2 I ltac:(repeat apply P_page; exact H1));
      unfold result_submit; wp_steps;
      (destruct (pressed inp BtnSubmit); [|exact H2]);
      wp_steps; (wp_case; [wp_steps; exact H2|]);
      (wp_invariant H3 I ltac:(exact H2));
      (wp_cut H3; [apply create_submission_png_maintains; intros ? ? H; exact H|]);
      (wp_cut H3; [apply read_file_maintains|]);
      wp_steps; exact H3.
Qed.

Lemma mission_page_frame :
  (pressed inp BtnMissionDone = true ->
   forall s label amount,
     dict_get MISSIONS label = Ok amount ->
     P s -> P (with_budget (with_mission s label) amount)) ->
  maintains I (show_mission_page inp).
Proof.
  intros P_done w Hw. unfold show_mission_page, st_radio. wp_steps.
  destruct (dict_get MISSIONS _) as [amount|h] eqn:Hd; [|exact Hw].
  wp_steps. destruct (pressed inp BtnMissionDone) eqn:Hp; [|exact Hw].
  unfold set_mission, set_budget. wp_steps.
  apply P_page. apply (P_done eq_refl _ _ _ Hd). exact Hw.
Qed.

Lemma main_frame :
  (adds inp -> forall s item, P s -> P (with_cart s (append (cart s) item))) ->
  (forall s r, P s -> P (with_reason s r)) ->
  (pressed inp BtnMissionDone = true ->
   forall s label amount,
     dict_get MISSIONS label = Ok amount ->
     P s -> P (with_budget (with_mission s label) amount)) ->
  maintains I (main inp).
Proof.
  intros P_cart P_reason P_done w Hw. unfold main. wp_steps.
  destruct (String.eqb (page (session w)) "mission");
    [apply mission_page_frame; assumption|].
  destruct (String.eqb (page (session w)) "shop");
    [apply shop_page_frame; assumption|].
  destruct (String.eqb (page (session w)) "result");
    [apply result_page_frame; assumption|].
  wp_steps. apply mission_page_frame; [assumption|]. apply P_page, Hw.
Qed.

End Frames.

(* ===================================================================== *)
(** * Choosing a mission *)
(* ===================================================================== *)

Lemma dict_get_In d k v : dict_get d k = Ok v -> In (k, v) d.
Proof.
  induction d as [|[k' v'] d IH]; simpl; [discriminate|].
  destruct (String.eqb_spec k k') as [->|Hne].
  - intros [= ->]. left. reflexivity.
  - intros H. right. apply IH, H.
Qed.

Lemma MISSIONS_amounts label amount :
  In (label, amount) MISSIONS -> amount = 10000 \/ amount = 20000 \/ amount = 30000.
Proof.
  simpl. intros [H|[H|[H|[]]]]; inversion H; auto.
Qed.

(** The amount of an entry of [MISSIONS] is what looking its label up gives:
    no label occurs twice. *)
Lemma MISSIONS_get label amount :
  In (label, amount) MISSIONS -> dict_get MISSIONS label = Ok amount.
Proof.
  simpl. intros [H|[H|[H|[]]]]; inversion H; reflexivity.
Qed.

(** C1. On the mission screen, confirming the mission selected in the radio
    group sets the budget to the amount [MISSIONS] gives for its label, sets
    the selected mission to that label and the page to "shop"; this holds
    for every entry of [MISSIONS].  The cart and the justification stay. *)
Theorem confirm_mission_sets_budget_and_page `{Runtime}
  (inp : inputs) (s : SessionState) (fs : list png_file)
  (label : string) (amount : Z) :
  In (label, amount) MISSIONS ->
  page s = "mission" ->
  selected_mission inp = label ->
  clicked inp = Some BtnMissionDone ->
  fst (run inp s fs) = Ok tt
  /\ session (snd (run inp s fs))
     = {| page := "shop"; mission := Some label; budget := amount;
          cart := cart s; reason := reason s |}.
Proof.
  intros Hin Hpage Hsel Hclick.
  apply MISSIONS_get in Hin.
  unfold run. rewrite main_mission by exact Hpage.
  unfold show_mission_page, st_radio, st_button, pressed, bind, emit, ret, lift.
  cbn [session]. fold (selected_mission inp).
  rewrite Hsel, Hin, Hclick. cbn.
  split; reflexivity.
Qed.

(** Every entry of [MISSIONS] can be selected. *)
Lemma every_mission_selectable label amount :
  In (label, amount) MISSIONS ->
  exists i, forall inp, radio_index inp = i -> selected_mission inp = label.
Proof.
  simpl. intros [H|[H|[H|[]]]]; inversion H; subst;
    [exists 0%nat | exists 1%nat | exists 2%nat];
    intros inp Hi; unfold selected_mission; rewrite Hi; reflexivity.
Qed.

(* ===================================================================== *)
(** * The shopping screen: checkout and back *)
(* ===================================================================== *)

Lemma click_not_adds inp b :
  clicked inp = Some b -> (forall idx, b <> BtnAdd idx) -> ~ adds inp.
Proof.
  intros Hc Hb [idx Ha]. rewrite Hc in Ha. injection Ha as ->.
  apply (Hb idx). reflexivity.
Qed.

Lemma click_pressed inp b c :
  clicked inp = Some c -> pressed inp b = button_eqb c b.
Proof. unfold pressed. intros ->. reflexivity. Qed.

(** C3. A click on the checkout button of the shopping screen while the
    cart is empty leaves the session state as it was (the page stays "shop";
    budget, cart and mission are not modified) and writes no file; the run
    that shows the button shows the warning under it. *)
Theorem checkout_with_empty_cart_is_blocked `{Runtime}
  (inp : inputs) (s : SessionState) (fs : list png_file) :
  page s = "shop" ->
  cart s = [] ->
  clicked inp = Some BtnCheckout ->
  session (snd (run inp s fs)) = s
  /\ page (session (snd (run inp s fs))) = "shop"
  /\ files (snd (run inp s fs)) = fs
  /\ (In (StButton BtnCheckout) (screen (snd (run inp s fs))) ->
      In empty_cart_warning (screen (snd (run inp s fs)))).
Proof.
  intros Hpage Hcart Hclick.
  set (Q := fun w : world =>
              session w = s /\ files w = fs /\
              (In (StButton BtnCheckout) (screen w) ->
               In empty_cart_warning (screen w))).
  set (I := fun w : world =>
              session w = s /\ files w = fs /\
              ~ In (StButton BtnCheckout) (screen w)).
  assert (HQ : Q (snd (run inp s fs))).
  { unfold run. rewrite main_shop by exact Hpage.
    apply wp_snd. apply (shop_page_hoare inp I Q).
    - intros w e He (Hs & Hf & Hb). repeat split; auto.
      cbn [shown screen]. intros Hin. apply in_append in Hin.
      destruct Hin as [Hin | Heq]; [exact (Hb Hin)|].
      subst e. destruct He as [_ He]. apply He. reflexivity.
    - intros Ha. exfalso. revert Ha.
      apply (click_not_adds inp _ Hclick). discriminate.
    - intros w (Hs & Hf & Hb). repeat split; auto.
      intros Hin. destruct (Hb Hin).
    - rewrite (click_pressed inp _ _ Hclick). discriminate.
    - intros c w [(Hs & Hf & Hb) Hc].
      assert (c = []) as -> by (rewrite <- Hc, Hs; exact Hcart).
      unfold shop_back, shop_checkout. wp_click Hclick.
      unfold Q. cbn [shown screen session files].
      split; [exact Hs|]. split; [exact Hf|]. intros _.
      apply in_append. right. reflexivity.
    - unfold I. cbn. auto. }
  destruct HQ as (Hs & Hf & Hb).
  rewrite Hs. auto.
Qed.

(** The back button of the shopping screen, one run.  The run its
    click triggers changes nothing but the page, and sets the page to
    "mission" when it shows the button. *)
Lemma shop_back_changes_only_page `{Runtime}
  (inp : inputs) (s : SessionState) (fs : list png_file) :
  page s = "shop" ->
  clicked inp = Some BtnShopBack ->
  (session (snd (run inp s fs)) = s
   \/ session (snd (run inp s fs)) = with_page s "mission")
  /\ files (snd (run inp s fs)) = fs
  /\ (In (StButton BtnShopBack) (screen (snd (run inp s fs))) ->
      session (snd (run inp s fs)) = with_page s "mission").
Proof.
  intros Hpage Hclick.
  set (Q := fun w : world =>
              (session w = s \/ session w = with_page s "mission")
              /\ files w = fs
              /\ (In (StButton BtnShopBack) (screen w) ->
                  session w = with_page s "mission")).
  set (I := fun w : world =>
              session w = s /\ files w = fs /\
              ~ In (StButton BtnShopBack) (screen w)).
  change (Q (snd (run inp s fs))).
  unfold run. rewrite main_shop by exact Hpage.
  apply wp_snd. apply (shop_page_hoare inp I Q).
  - intros w e He (Hs & Hf & Hb). repeat split; auto.
    cbn [shown screen]. intros Hin. apply in_append in Hin.
    destruct Hin as [Hin | Heq]; [exact (Hb Hin)|].
    subst e. destruct He as [He _]. apply He. reflexivity.
  - intros Ha. exfalso. revert Ha.
    apply (click_not_adds inp _ Hclick). discriminate.
  - intros w (Hs & Hf & Hb). repeat split; auto.
    intros Hin. destruct (Hb Hin).
  - rewrite (click_pressed inp _ _ Hclick). discriminate.
  - intros c w [(Hs & Hf & Hb) Hc].
    unfold shop_back, shop_checkout. wp_click Hclick.
    unfold Q. cbn [shown with_session session files screen]. rewrite Hs.
    auto.
  - unfold I. cbn. auto.
Qed.

(** The world a run starts from. *)
Lemma next_maintains `{Runtime} (P : SessionState -> Prop) inp w :
  maintains (fun w => P (session w)) (main inp) ->
  P (session w) -> P (session (next w inp)).
Proof.
  intros Hm Hw. unfold next, run.
  apply (wp_snd _ (fun w => P (session w))). apply Hm. exact Hw.
Qed.

(** No run takes an item out of the cart. *)
Lemma runs_extend_cart `{Runtime} inps w :
  exists added, cart (session (runs inps w)) = (cart (session w) ++ added)%list.
Proof.
  revert w. induction inps as [|inp inps IH]; intros w.
  - exists []. simpl. rewrite app_nil_r. reflexivity.
  - simpl.
    assert (Hn : exists added,
               cart (session (next w inp)) = (cart (session w) ++ added)%list).
    { apply (next_maintains
               (fun s' => exists added, cart s' = (cart (session w) ++ added)%list)).
      - apply (main_frame inp
                 (fun s' => exists added, cart s' = (cart (session w) ++ added)%list)).
        + intros s' p Hs'. exact Hs'.
        + intros _ s' item [added Hs']. exists (added ++ [item])%list.
          cbn [with_cart cart]. unfold append. rewrite Hs', app_assoc. reflexivity.
        + intros s' r Hs'. exact Hs'.
        + intros _ s' label amount _ Hs'. exact Hs'.
      - exists []. rewrite app_nil_r. reflexivity. }
    destruct Hn as [a1 H1]. destruct (IH (next w inp)) as [a2 H2].
    exists (a1 ++ a2)%list. rewrite H2, H1, app_assoc. reflexivity.
Qed.

(** Runs that no click on an add button triggered leave the cart alone. *)
Lemma runs_without_adds_keep_cart `{Runtime} inps w :
  (forall i, In i inps -> ~ adds i) ->
  cart (session (runs inps w)) = cart (session w).
Proof.
  revert w. induction inps as [|inp inps IH]; intros w Hn; [reflexivity|].
  simpl. rewrite IH by (intros i Hi; apply Hn; right; exact Hi).
  apply (next_maintains (fun s' => cart s' = cart (session w))); [|reflexivity].
  apply (main_frame inp (fun s' => cart s' = cart (session w))).
  - intros s' p Hs'. exact Hs'.
  - intros Ha. destruct (Hn inp (or_introl eq_refl) Ha).
  - intros s' r Hs'. exact Hs'.
  - intros _ s' label amount _ Hs'. exact Hs'.
Qed.

(** C9. The back button of the shopping screen changes the page and nothing
    else: budget, mission, cart and justification are as before, and the
    page is "mission" once the run has shown the button.  Whatever runs
    follow, the cart keeps the items it had, and it is exactly the cart it
    was as long as no add button is clicked: coming back to the shopping
    screen does not clear it. *)
Theorem shop_back_keeps_budget_and_cart `{Runtime}
  (inp : inputs) (s : SessionState) (fs : list png_file) :
  page s = "shop" ->
  clicked inp = Some BtnShopBack ->
  let w' := snd (run inp s fs) in
  budget (session w') = budget s
  /\ mission (session w') = mission s
  /\ cart (session w') = cart s
  /\ reason (session w') = reason s
  /\ (In (StButton BtnShopBack) (screen w') -> page (session w') = "mission")
  /\ (forall inps, exists added,
        cart (session (runs inps w')) = (cart s ++ added)%list)
  /\ (forall inps, (forall i, In i inps -> ~ adds i) ->
        cart (session (runs inps w')) = cart s).
Proof.
  intros Hpage Hclick w'.
  destruct (shop_back_changes_only_page inp s fs Hpage Hclick) as (Hs & _ & Hb).
  fold w' in Hs, Hb.
  assert (Hc : cart (session w') = cart s) by (destruct Hs as [-> | ->]; reflexivity).
  repeat split.
  - destruct Hs as [-> | ->]; reflexivity.
  - destruct Hs as [-> | ->]; reflexivity.
  - exact Hc.
  - destruct Hs as [-> | ->]; reflexivity.
  - intros Hin. rewrite (Hb Hin). reflexivity.
  - intros inps. rewrite <- Hc. apply runs_extend_cart.
  - intros inps Hn. rewrite <- Hc. apply runs_without_adds_keep_cart, Hn.
Qed.

(* ===================================================================== *)
(** * The result screen: submitting *)
(* ===================================================================== *)

Lemma with_reason_same s : with_reason s (reason s) = s.
Proof. destruct s. reflexivity. Qed.

(** C5. A click on the submit button of the result screen while the text of
    the justification is empty or blank writes no file (the renderer is not
    called) and keeps the page "result".  The session state is as it was
    but for the justification: the mission, the budget and the cart are
    unchanged, and the justification is the text in the text area, which
    the run stores before it shows the buttons.  So the state is unchanged
    when that text is the stored justification.  The run that shows the
    button shows the warning under it. *)
Theorem submit_with_blank_justification_is_blocked `{Runtime}
  (inp : inputs) (s : SessionState) (fs : list png_file) :
  page s = "result" ->
  clicked inp = Some BtnSubmit ->
  blank (justification inp s) = true ->
  let w' := snd (run inp s fs) in
  (session w' = s \/ session w' = with_reason s (justification inp s))
  /\ (justification inp s = reason s -> session w' = s)
  /\ page (session w') = "result"
  /\ files w' = fs
  /\ (In (StButton BtnSubmit) (screen w') -> In blank_reason_warning (screen w'))
  /\ (mission (session w') = mission s
      /\ budget (session w') = budget s
      /\ cart (session w') = cart s)
  /\ (In (StButton BtnSubmit) (screen w') ->
      session w' = with_reason s (justification inp s)).
Proof.
  intros Hpage Hclick Hblank w'.
  set (Q := fun w : world =>
              (session w = s \/ session w = with_reason s (justification inp s))
              /\ files w = fs
              /\ (In (StButton BtnSubmit) (screen w) ->
                  In blank_reason_warning (screen w)
                  /\ session w = with_reason s (justification inp s))).
  set (I := fun w : world =>
              session w = s /\ files w = fs /\
              ~ In (StButton BtnSubmit) (screen w)).
  assert (HQ : Q w').
  { unfold w', run. rewrite main_result by exact Hpage.
    apply wp_snd. apply (result_page_hoare inp I Q).
    - intros w e He (Hs & Hf & Hb). repeat split; auto.
      cbn [shown screen]. intros Hin. apply in_append in Hin.
      destruct Hin as [Hin | Heq]; [exact (Hb Hin)|].
      subst e. simpl in He. discriminate.
    - intros w (Hs & Hf & Hb). unfold Q. split; [left; exact Hs|].
      split; [exact Hf|]. intros Hin. destruct (Hb Hin).
    - rewrite (click_pressed inp _ _ Hclick). discriminate.
    - intros s0 w [(Hs & Hf & Hb) Hs0]. rewrite Hs in Hs0. subst s0.
      unfold result_back, result_submit. wp_click Hclick. cbv zeta.
      wp_click Hclick.
      cbn [with_session shown session with_reason reason].
      fold (justification inp s). rewrite Hblank. wp_steps.
      unfold Q. cbn [shown with_session session files screen]. rewrite Hs.
      split; [right; reflexivity|]. split; [exact Hf|].
      intros _. split; [|reflexivity]. apply in_append. right. reflexivity.
    - unfold I. cbn. auto. }
  destruct HQ as (Hs & Hf & Hb).
  split; [exact Hs|]. split.
  { intros Heq. rewrite Heq, with_reason_same in Hs. destruct Hs; assumption. }
  split; [destruct Hs as [-> | ->]; exact Hpage|].
  split; [exact Hf|].
  split; [intros Hin; exact (proj1 (Hb Hin))|].
  split; [destruct Hs as [-> | ->]; repeat split|].
  intros Hin. exact (proj2 (Hb Hin)).
Qed.

(* ===================================================================== *)
(** * The budget *)
(* ===================================================================== *)

Lemma pressed_clicked inp b : pressed inp b = true -> clicked inp = Some b.
Proof.
  unfold pressed. destruct (clicked inp) as [c|]; [|discriminate].
  destruct c, b; try discriminate; try reflexivity.
  simpl. intros Heq. apply Nat.eqb_eq in Heq. subst. reflexivity.
Qed.

(** The budget of a reachable session is 0 or an amount of [MISSIONS]. *)
Lemma reachable_budget `{Runtime} s :
  reachable s ->
  budget s = 0 \/ exists label, In (label, budget s) MISSIONS.
Proof.
  induction 1 as [|inp s fs Hr IH]; [left; reflexivity|].
  unfold run.
  apply (wp_snd _ (fun w => budget (session w) = 0
                            \/ exists label, In (label, budget (session w)) MISSIONS)).
  apply (main_frame inp
           (fun s => budget s = 0 \/ exists label, In (label, budget s) MISSIONS)).
  - intros s' p Hs'. exact Hs'.
  - intros _ s' item Hs'. exact Hs'.
  - intros s' r Hs'. exact Hs'.
  - intros _ s' label amount Hget _. right. exists label.
    apply dict_get_In, Hget.
  - exact IH.
Qed.

(** A run changes the budget only on the mission screen, on a click on its
    button; the budget is then the amount of the mission it selects. *)
Lemma run_budget `{Runtime} inp s fs :
  let s' := session (snd (run inp s fs)) in
  budget s' = budget s
  \/ (clicked inp = Some BtnMissionDone
      /\ page s <> "shop" /\ page s <> "result"
      /\ exists label, mission s' = Some label /\ In (label, budget s') MISSIONS).
Proof.
  intros s'. unfold s', run.
  set (w := {| session := s; screen := []; files := fs |}).
  pose (Same := fun s0 : SessionState => budget s0 = budget s).
  pose (Set_ := fun s0 : SessionState =>
                  budget s0 = budget s
                  \/ exists label, mission s0 = Some label
                                   /\ In (label, budget s0) MISSIONS).
  destruct (String.eqb_spec (page s) "shop") as [Hshop|Hshop].
  { left. rewrite main_shop by exact Hshop.
    apply (wp_snd _ (fun w => Same (session w))).
    apply (shop_page_frame inp Same); [| |reflexivity]; intros; assumption. }
  destruct (String.eqb_spec (page s) "result") as [Hres|Hres].
  { left. rewrite main_result by exact Hres.
    apply (wp_snd _ (fun w => Same (session w))).
    apply (result_page_frame inp Same); [| |reflexivity]; intros; assumption. }
  destruct (pressed inp BtnMissionDone) eqn:Hp.
  - assert (Hs : Set_ (session (snd (main inp w)))).
    { apply (wp_snd _ (fun w => Set_ (session w))).
      apply (main_frame inp Set_); try (intros; assumption).
      - intros _ s0 label amount Hget _. right. exists label.
        split; [reflexivity | apply dict_get_In, Hget].
      - left. reflexivity. }
    destruct Hs as [Hs|Hs]; [left; exact Hs|].
    right. repeat split; try assumption. apply pressed_clicked, Hp.
  - left. apply (wp_snd _ (fun w => Same (session w))).
    apply (main_frame inp Same); try (intros; assumption).
    + rewrite Hp. discriminate.
    + reflexivity.
Qed.

(** C8. In every reachable session the budget is not negative, and a run
    changes it only by confirming a mission on the mission screen: every
    other run leaves it as it was. *)
Theorem budget_nonnegative_and_set_only_by_mission `{Runtime}
  (s : SessionState) :
  reachable s ->
  0 <= budget s
  /\ forall inp fs,
       let s' := session (snd (run inp s fs)) in
       budget s' = budget s
       \/ (clicked inp = Some BtnMissionDone
           /\ page s <> "shop" /\ page s <> "result"
           /\ exists label, mission s' = Some label
                            /\ In (label, budget s') MISSIONS).
Proof.
  intros Hr. split.
  - destruct (reachable_budget s Hr) as [H0 | [label Hin]]; [lia|].
    apply MISSIONS_amounts in Hin. lia.
  - intros inp fs. apply run_budget.
Qed.

(* ===================================================================== *)
(** * The catalog: missing columns and prices that do not parse *)
(* ===================================================================== *)

(** Column resolution on a frame that has neither spelling: the error
    message goes on the screen and the run stops. *)
Lemma get_column_name_missing (df : DataFrame) (kor eng label : string) w :
  has_column df kor = false ->
  has_column df eng = false ->
  get_column_name df kor eng label w
  = (Halt StopScript, shown w (StError (missing_column_message kor eng label))).
Proof.
  intros Hk He. unfold get_column_name. rewrite Hk, He. reflexivity.
Qed.

Lemma get_column_name_found (df : DataFrame) (kor eng label : string) w :
  has_column df kor = true \/ has_column df eng = true ->
  exists col, get_column_name df kor eng label w = (Ok col, w).
Proof.
  unfold get_column_name. intros H.
  destruct (has_column df kor); [exists kor; reflexivity|].
  destruct (has_column df eng); [exists eng; reflexivity|].
  destruct H; discriminate.
Qed.

(** The message names both spellings. *)
Lemma missing_column_message_names_both kor eng label :
  exists pre mid post,
    missing_column_message kor eng label = pre ++ kor ++ mid ++ eng ++ post.
Proof.
  exists "products.csv에 '", "' 또는 '", ("' 열이 필요합니다. (" ++ label ++ ")").
  reflexivity.
Qed.

(** The shopping screen on a catalog with rows that lacks a required
    column. *)
Lemma shop_page_missing_column `{Runtime} inp s fs m df kor eng label :
  page s = "shop" ->
  mission s = Some m ->
  read_csv inp "products.csv" = CsvData df ->
  df_empty df = false ->
  missing_required df = Some (kor, eng, label) ->
  run inp s fs
  = (Halt StopScript,
     {| session := s;
        screen := [ StTitle "🛒 쇼핑 화면";
                    StSubheader "2. 물품 선택하기";
                    StWrite ("**현재 미션:** " ++ m);
                    StWrite ("**예산:** " ++ format_thousands (budget s) ++ "원");
                    StError (missing_column_message kor eng label) ];
        files := fs |}).
Proof.
  intros Hpage Hm Hcsv Hne Hmiss.
  unfold run. rewrite main_shop by exact Hpage.
  unfold show_shop_page, load_products.
  unfold bind at 1. unfold emit at 1. cbn [session screen files].
  unfold bind at 1. unfold emit at 1. cbn [session screen files].
  unfold bind at 1. unfold session_state at 1. cbn [session screen files].
  rewrite Hm.
  unfold bind at 1. unfold emit at 1. cbn [session screen files].
  unfold bind at 1. unfold lift at 1. cbn [py_int].
  unfold bind at 1. unfold emit at 1. cbn [session screen files].
  rewrite Hcsv.
  unfold bind at 1. unfold ret at 1.
  rewrite Hne.
  unfold missing_required in Hmiss.
  destruct (has_column df "품명" || has_column df "name")%bool eqn:Hname.
  - destruct (has_column df "가격" || has_column df "price")%bool eqn:Hprice;
      [discriminate|].
    injection Hmiss as <- <- <-.
    apply orb_true_iff in Hname. apply orb_false_iff in Hprice.
    destruct Hprice as [Hp1 Hp2].
    unfold bind at 1.
    destruct (get_column_name_found df "품명" "name" "품명(상품명)"
                {| session := s;
                   screen := append (append (append (append []
                     (StTitle "🛒 쇼핑 화면")) (StSubheader "2. 물품 선택하기"))
                     (StWrite ("**현재 미션:** " ++ m)))
                     (StWrite ("**예산:** " ++ format_thousands (budget s) ++ "원"));
                   files := fs |} Hname) as [col ->].
    unfold bind at 1.
    rewrite (get_column_name_missing df "가격" "price" "가격" _ Hp1 Hp2).
    reflexivity.
  - injection Hmiss as <- <- <-.
    apply orb_false_iff in Hname. destruct Hname as [Hn1 Hn2].
    unfold bind at 1.
    rewrite (get_column_name_missing df "품명" "name" "품명(상품명)" _ Hn1 Hn2).
    reflexivity.
Qed.

Lemma shop_page_empty_catalog `{Runtime} inp s fs m df :
  page s = "shop" ->
  mission s = Some m ->
  read_csv inp "products.csv" = CsvData df ->
  df_empty df = true ->
  run inp s fs
  = (Ok tt,
     {| session := s;
        screen := [ StTitle "🛒 쇼핑 화면";
                    StSubheader "2. 물품 선택하기";
                    StWrite ("**현재 미션:** " ++ m);
                    StWrite ("**예산:** " ++ format_thousands (budget s) ++ "원") ];
        files := fs |}).
Proof.
  intros Hpage Hm Hcsv He.
  unfold run. rewrite main_shop by exact Hpage.
  unfold show_shop_page, load_products.
  unfold bind at 1. unfold emit at 1. cbn [session screen files].
  unfold bind at 1. unfold emit at 1. cbn [session screen files].
  unfold bind at 1. unfold session_state at 1. cbn [session screen files].
  rewrite Hm.
  unfold bind at 1. unfold emit at 1. cbn [session screen files].
  unfold bind at 1. unfold lift at 1. cbn [py_int].
  unfold bind at 1. unfold emit at 1. cbn [session screen files].
  rewrite Hcsv.
  unfold bind at 1. unfold ret at 1.
  rewrite He. reflexivity.
Qed.

(** C6, as the claim states it, fails on a catalog file that has a header
    and no row: the price column is missing under both spellings, and the
    run ends normally without any error message. *)
Lemma header_only_catalog_reports_no_missing_column :
  missing_required header_only = Some ("가격", "price", "가격")
  /\ fst (@run (Demo.runtime false) (idle (CsvData header_only)) (shopping []) [])
     = Ok tt
  /\ forall msg,
       ~ In (StError msg)
            (screen (snd (@run (Demo.runtime false)
                            (idle (CsvData header_only)) (shopping []) []))).
Proof.
  split; [reflexivity|].
  rewrite (@shop_page_empty_catalog (Demo.runtime false)
             (idle (CsvData header_only)) (shopping []) [] _ header_only
             eq_refl eq_refl eq_refl eq_refl).
  split; [reflexivity|].
  intros msg Hin. cbn [snd screen] in Hin.
  repeat (destruct Hin as [Hin|Hin]; [discriminate|]). exact Hin.
Qed.

(** C6, amended.  When the catalog that was loaded has at least one row and
    has neither spelling of a required column (the name, or else the
    price), column resolution stops the run with an error message that
    names both spellings, the last element on the screen; no row of the
    catalog is shown, and the session and the files stay as they were. *)
Theorem missing_column_stops_the_render `{Runtime}
  (inp : inputs) (s : SessionState) (fs : list png_file)
  (m : string) (df : DataFrame) (kor eng label : string) :
  page s = "shop" ->
  mission s = Some m ->
  read_csv inp "products.csv" = CsvData df ->
  df_empty df = false ->
  missing_required df = Some (kor, eng, label) ->
  let r := run inp s fs in
  fst r = Halt StopScript
  /\ last (screen (snd r)) (StTitle "")
     = StError (missing_column_message kor eng label)
  /\ (exists pre mid post,
        missing_column_message kor eng label = pre ++ kor ++ mid ++ eng ++ post)
  /\ (forall idx, ~ In (StButton (BtnAdd idx)) (screen (snd r)))
  /\ session (snd r) = s
  /\ files (snd r) = fs.
Proof.
  intros Hpage Hm Hcsv Hne Hmiss r. unfold r.
  rewrite (shop_page_missing_column inp s fs m df kor eng label
             Hpage Hm Hcsv Hne Hmiss).
  cbn [fst snd session screen files].
  split; [reflexivity|]. split; [reflexivity|].
  split; [apply missing_column_message_names_both|].
  split; [|split; reflexivity].
  intros idx Hin.
  repeat (destruct Hin as [Hin|Hin]; [discriminate|]). exact Hin.
Qed.

Lemma bind_ok {A B} (m : script A) (k : A -> script B) w a w' :
  m w = (Ok a, w') -> bind m k w = k a w'.
Proof. unfold bind. intros ->. reflexivity. Qed.

Lemma bind_halt {A B} (m : script A) (k : A -> script B) w h w' :
  m w = (Halt h, w') -> bind m k w = (Halt h, w').
Proof. unfold bind. intros ->. reflexivity. Qed.

Lemma bind_assoc {A B C} (m : script A) (k : A -> script B) (k' : B -> script C) w :
  bind (bind m k) k' w = bind m (fun a => bind (k a) k') w.
Proof. unfold bind. destruct (m w) as [[a|h] w']; reflexivity. Qed.

(** Run the statement at the head of the script, when it computes. *)
Ltac script_step := rewrite ?bind_assoc; erewrite bind_ok by reflexivity.

(** [float(0)] *)
Lemma float_of_int_0 : float_of_int 0 = Ok 0%float.
Proof. reflexivity. Qed.

Lemma row_image_ok `{Runtime} inp df image_col row w w1 :
  row_image inp df image_col row w = (Ok tt, w1) ->
  session w1 = session w /\ files w1 = files w
  /\ forall ic, image_col = Some ic -> exists c, row_get df row ic = Ok c.
Proof.
  unfold row_image. destruct image_col as [ic|].
  - unfold bind, lift.
    destruct (row_get df row ic) as [c|h] eqn:Hc; [|discriminate].
    destruct (notna c); [destruct (image_fails inp c)|];
      unfold emit; intros [= <-]; cbn;
      (split; [reflexivity|]); (split; [reflexivity|]);
      intros ? [= <-]; exists c; exact Hc.
  - unfold emit. intros [= <-]. cbn.
    split; [reflexivity|]. split; [reflexivity|]. discriminate.
Qed.

(** The recovery where it works.  A row whose price cell is a text that
    [float] refuses with [ValueError] is shown like any other row, with the
    price 0 and with its button; the row puts no error on the screen and
    does not end the run; a click on its button appends the row to the cart
    with the price 0.0. *)
Theorem unparseable_price_counts_as_zero `{Runtime}
  (inp : inputs) (df : DataFrame) (name_col price_col : string)
  (image_col : option string) (idx : nat) (row : list cell)
  (w w1 : world) (name : cell) (txt : string) :
  row_image inp df image_col row w = (Ok tt, w1) ->
  row_get df row name_col = Ok name ->
  row_get df row price_col = Ok (CStr txt) ->
  float_of_str txt = None ->
  let r := shop_row inp df name_col price_col image_col (idx, row) w in
  fst r = Ok tt
  /\ screen (snd r)
     = (screen w1
        ++ [ StMarkdown ("**" ++ py_str name ++ "**");
             StWrite "가격: 0원";
             StButton (BtnAdd idx) ]
        ++ (if pressed inp (BtnAdd idx)
            then [StSuccess ("장바구니에 '" ++ py_str name ++ "'을(를) 담았습니다.")]
            else [])
        ++ [StMarkdown "---"])%list
  /\ session (snd r)
     = (if pressed inp (BtnAdd idx)
        then with_cart (session w)
               (append (cart (session w))
                  {| item_name := name;
                     item_price := 0%float;
                     item_image_url := row_image_url df image_col row |})
        else session w)
  /\ files (snd r) = files w.
Proof.
  intros Himg Hname Hprice Hparse r. unfold r.
  destruct (row_image_ok _ _ _ _ _ _ Himg) as (Hs & Hf & Hurl).
  assert (Hinfo : row_info df name_col price_col row w1
                  = (Ok (PyInt 0),
                     shown (shown w1 (StMarkdown ("**" ++ py_str name ++ "**")))
                           (StWrite "가격: 0원"))).
  { unfold row_info. rewrite Hname, Hprice. do 3 script_step.
    cbn [float_of_cell]. rewrite Hparse. reflexivity. }
  assert (Hu : forall w0,
             match image_col with
             | Some ic => c <- lift (row_get df row ic) ;; ret (Some c)
             | None => ret None
             end w0 = (Ok (row_image_url df image_col row), w0)).
  { intros w0. unfold row_image_url. destruct image_col as [ic|]; [|reflexivity].
    destruct (Hurl ic eq_refl) as [c Hc]. unfold bind, lift. rewrite Hc.
    reflexivity. }
  unfold shop_row.
  rewrite (bind_ok _ _ _ _ _ Himg), (bind_ok _ _ _ _ _ Hinfo).
  unfold row_add, st_button. do 2 script_step.
  destruct (pressed inp (BtnAdd idx)); unfold when.
  - rewrite !bind_assoc, Hname. script_step.
    rewrite !bind_assoc, (bind_ok _ _ _ _ _ (Hu _)).
    unfold add_to_cart. script_step.
    cbn [py_float]. rewrite float_of_int_0. script_step.
    unfold set_cart. script_step.
    unfold bind, put_session, emit.
    cbn [fst snd session screen files shown]. rewrite Hs, Hf.
    split; [reflexivity|]. split; [|split; reflexivity].
    unfold append. rewrite <- !app_assoc. reflexivity.
  - script_step. unfold emit.
    cbn [fst snd session screen files shown]. rewrite Hs, Hf.
    split; [reflexivity|]. split; [|split; reflexivity].
    unfold append. rewrite <- !app_assoc. reflexivity.
Qed.

(** C7. The recovery misses the price that is missing.  A price cell that
    pandas read as missing is a NaN: [float] accepts it, so the handler
    that sets the price to zero does not run, and [int] refuses the NaN on
    the next line, outside the [try].  The row ends the run with
    [ValueError] after its name: neither a price nor the button of the row
    is shown, whatever follows the row is not run, and nothing is added to
    the cart, whichever button was clicked. *)
Theorem missing_price_halts_the_row `{Runtime}
  (inp : inputs) (df : DataFrame) (name_col price_col : string)
  (image_col : option string) (idx : nat) (row : list cell)
  (w w1 : world) (name : cell) (f : float) :
  row_image inp df image_col row w = (Ok tt, w1) ->
  row_get df row name_col = Ok name ->
  row_get df row price_col = Ok (CFloat f) ->
  Prim2SF f = S754_nan ->
  let r := shop_row inp df name_col price_col image_col (idx, row) w in
  fst r = Halt (Uncaught ValueError)
  /\ screen (snd r)
     = (screen w1 ++ [StMarkdown ("**" ++ py_str name ++ "**")])%list
  /\ session (snd r) = session w
  /\ files (snd r) = files w
  /\ (forall k : unit -> script unit,
        bind (shop_row inp df name_col price_col image_col (idx, row)) k w = r)
  /\ except_ValueError
       (rbind (float_of_cell (CFloat f)) (fun x => Ok (PyFloat x)))
       (Ok (PyInt 0))
     = Ok (PyFloat f).
Proof.
  intros Himg Hname Hprice Hnan r.
  destruct (row_image_ok _ _ _ _ _ _ Himg) as (Hs & Hf & _).
  assert (Hinfo : row_info df name_col price_col row w1
                  = (Halt (Uncaught ValueError),
                     shown w1 (StMarkdown ("**" ++ py_str name ++ "**")))).
  { unfold row_info. rewrite Hname, Hprice. do 3 script_step.
    cbn [float_of_cell rbind except_ValueError]. script_step.
    apply bind_halt. unfold lift. cbn [py_int]. unfold int_of_float.
    rewrite Hnan. reflexivity. }
  assert (Hrow : r = (Halt (Uncaught ValueError),
                      shown w1 (StMarkdown ("**" ++ py_str name ++ "**")))).
  { unfold r, shop_row. rewrite (bind_ok _ _ _ _ _ Himg).
    apply bind_halt. exact Hinfo. }
  rewrite Hrow. cbn [fst snd shown screen session files].
  split; [reflexivity|]. split; [reflexivity|].
  split; [exact Hs|]. split; [exact Hf|].
  split; [|reflexivity].
  intros k. apply bind_halt. rewrite <- Hrow. reflexivity.
Qed.

(* ===================================================================== *)
(** * The submission renderer *)
(* ===================================================================== *)

(** ** The thousands format *)

Lemma string_of_uint_no_comma d :
  forallb not_comma (list_ascii_of_string (NilEmpty.string_of_uint d)) = true.
Proof. induction d; simpl; auto. Qed.

Lemma digits_no_comma n : forallb not_comma (digits n) = true.
Proof.
  unfold digits, NilZero.string_of_uint.
  destruct (N.to_uint n); try reflexivity; apply string_of_uint_no_comma.
Qed.

Lemma filter_commas_rev k l :
  filter not_comma (commas_rev k l) = filter not_comma l.
Proof.
  revert k. induction l as [|d l IH]; intros k; [reflexivity|].
  destruct k as [|[|[|[|k]]]]; cbn [commas_rev filter];
    rewrite IH; reflexivity.
Qed.

Lemma filter_all {A} (f : A -> bool) l : forallb f l = true -> filter f l = l.
Proof.
  induction l as [|x l IH]; [reflexivity|]. simpl.
  destruct (f x); [|discriminate]. simpl. intros H. rewrite IH by exact H.
  reflexivity.
Qed.

Lemma forallb_rev {A} (f : A -> bool) l : forallb f (rev l) = forallb f l.
Proof.
  induction l as [|x l IH]; [reflexivity|]. simpl.
  rewrite forallb_app, IH. simpl. rewrite andb_true_r. apply andb_comm.
Qed.

(** Without its commas, the formatted number is the decimal numeral. *)
Lemma format_thousands_digits (z : Z) :
  remove_commas (format_thousands z) = str_of_int z.
Proof.
  assert (Hd : filter not_comma (rev (commas_rev 0 (rev (digits (Z.abs_N z)))))
               = digits (Z.abs_N z)).
  { rewrite filter_rev, filter_commas_rev, <- filter_rev, rev_involutive.
    apply filter_all, digits_no_comma. }
  unfold remove_commas, format_thousands, str_of_int.
  destruct (z <? 0); cbn [String.append list_ascii_of_string filter];
    rewrite ?list_ascii_of_string_of_list_ascii;
    change (not_comma "-"%char) with true; cbn iota;
    rewrite Hd; reflexivity.
Qed.

(** ** Truncation *)

(** [int] of a float is its exact value divided with rounding toward zero. *)
Lemma int_of_float_truncates f : int_of_float f = truncate_toward_zero f.
Proof.
  unfold int_of_float, truncate_toward_zero.
  destruct (Prim2SF f) as [s|s| |s m e]; try reflexivity.
  cbn [trunc_SF]. f_equal.
  destruct (Z.leb_spec 0 e) as [He|He].
  - rewrite Z.max_l by lia. rewrite (Z.max_r (- e) 0) by lia.
    rewrite Z.pow_0_r, Z.quot_1_r. 
    destruct s; cbn [cond_Zopp]; lia.
  - rewrite (Z.max_r e 0) by lia. rewrite (Z.max_l (- e) 0) by lia.
    rewrite Z.pow_0_r, Z.mul_1_r.
    assert (Hp : 0 < 2 ^ (- e)) by (apply Z.pow_pos_nonneg; lia).
    destruct s; cbn [cond_Zopp].
    + rewrite Z.quot_opp_l by lia. rewrite Z.quot_div_nonneg by lia. reflexivity.
    + rewrite Z.quot_div_nonneg by lia. reflexivity.
Qed.

Lemma py_int_truncates x : py_int x = truncated_budget x.
Proof. destruct x; [reflexivity | apply int_of_float_truncates]. Qed.

Section Renderer.

Context {R : Runtime}.

Lemma fold_append_lines (ls ws : list string) :
  fold_left (fun ls wrapped => append ls wrapped) ws ls = (ls ++ ws)%list.
Proof.
  revert ls. induction ws as [|w ws IH]; intros ls; simpl.
  - rewrite app_nil_r. reflexivity.
  - rewrite IH. unfold append. rewrite <- app_assoc. reflexivity.
Qed.

(** The loop over the paragraphs appends the reflowed text. *)
Lemma append_reason_lines_flat (lines paras : list string) :
  append_reason_lines lines paras
  = (lines ++ flat_map paragraph_lines paras)%list.
Proof.
  revert lines. induction paras as [|para rest IH]; intros lines; simpl.
  - rewrite app_nil_r. reflexivity.
  - unfold paragraph_lines at 1. destruct (blank para).
    + rewrite IH. unfold append. rewrite <- app_assoc. reflexivity.
    + rewrite IH, fold_append_lines. unfold wrap_width.
      rewrite <- app_assoc. reflexivity.
Qed.

(** The loop over the cart appends one line per item, in cart order. *)
Lemma append_item_lines_map (lines : list string) (cart : list CartItem) :
  append_item_lines lines cart
  = rbind (truncated_prices cart) (fun ps =>
      Ok (lines
          ++ map (fun item => item_line (fst item) (snd item))
                 (combine (map (fun item => py_str (item_name item)) cart) ps))%list).
Proof.
  revert lines. induction cart as [|item rest IH]; intros lines; simpl.
  - rewrite app_nil_r. reflexivity.
  - rewrite int_of_float_truncates.
    destruct (truncate_toward_zero (item_price item)) as [p|h]; [|reflexivity].
    cbn [rbind]. rewrite IH.
    destruct (truncated_prices rest) as [ps|h]; [|reflexivity].
    cbn [rbind map combine fst snd]. unfold append, item_line.
    rewrite <- app_assoc. reflexivity.
Qed.

Lemma truncated_prices_length cart ps :
  truncated_prices cart = Ok ps -> List.length ps = List.length cart.
Proof.
  revert ps. induction cart as [|item rest IH]; intros ps; simpl.
  - intros [= <-]. reflexivity.
  - destruct (truncate_toward_zero (item_price item)); [|discriminate].
    cbn [rbind]. destruct (truncated_prices rest) as [ps'|]; [|discriminate].
    intros [= <-]. simpl. rewrite (IH ps' eq_refl). reflexivity.
Qed.

(** Truncation gives an integer for every finite price. *)
Lemma truncated_prices_finite cart :
  forallb finite_price cart = true ->
  exists ps, truncated_prices cart = Ok ps /\ List.length ps = List.length cart.
Proof.
  induction cart as [|item rest IH]; cbn [forallb truncated_prices].
  - intros _. exists []. split; reflexivity.
  - intros Hf. apply andb_true_iff in Hf. destruct Hf as [Hi Hr].
    destruct (IH Hr) as (ps & Hps & Hlen). rewrite Hps.
    unfold finite_price in Hi. unfold truncate_toward_zero.
    destruct (Prim2SF (item_price item)) as [s|s| |s m e]; try discriminate;
      cbn [rbind]; eexists; (split; [reflexivity|]); simpl; rewrite Hlen;
      reflexivity.
Qed.

(** The lines the renderer builds are the display lines of the budget and
    the prices, truncated. *)
Lemma submission_lines_display mission budget cart reason_text :
  submission_lines mission budget cart reason_text
  = rbind (truncated_budget budget) (fun b =>
    rbind (truncated_prices cart) (fun ps =>
      Ok (display_lines mission b
            (combine (map (fun item => py_str (item_name item)) cart) ps)
            reason_text))).
Proof.
  unfold submission_lines. rewrite py_int_truncates.
  destruct (truncated_budget budget) as [b|h]; [|reflexivity].
  cbn [rbind]. destruct cart as [|item rest].
  - cbn [rbind truncated_prices map combine]. rewrite append_reason_lines_flat.
    unfold display_lines, reflow, append. cbn [app]. reflexivity.
  - rewrite append_item_lines_map.
    destruct (truncated_prices (item :: rest)) as [ps|h] eqn:Hps; [|reflexivity].
    cbn [rbind]. rewrite append_reason_lines_flat.
    pose proof (truncated_prices_length _ _ Hps) as Hlen.
    destruct ps as [|p ps]; [discriminate|].
    unfold display_lines, reflow, append. cbn [map combine app].
    rewrite <- !app_assoc. reflexivity.
Qed.

End Renderer.

(** Thousands separators: up to three digits take no comma; from four
    digits on, the three lowest digits are set off by a comma and the
    digits above them are grouped in the same way. *)
Lemma commas_rev_short (l : list ascii) :
  (List.length l <= 3)%nat -> commas_rev 0 l = l.
Proof.
  destruct l as [|a [|b [|c [|d r]]]]; simpl; intros Hl;
    try reflexivity; lia.
Qed.

Lemma commas_rev_group (a b c d : ascii) (r : list ascii) :
  commas_rev 0 (a :: b :: c :: d :: r)
  = a :: b :: c :: ","%char :: commas_rev 0 (d :: r).
Proof. reflexivity. Qed.

Lemma create_submission_png_file `{Runtime} inp mission budget cart text w :
  create_submission_png inp mission budget cart text w
  = match submission_lines mission budget cart text with
    | Ok lines =>
        (Ok (png_path (submission_file inp lines)),
         {| session := session w;
            screen := screen w;
            files := submission_file inp lines :: files w |})
    | Halt h => (Halt h, w)
    end.
Proof.
  unfold create_submission_png, bind, lift.
  destruct (submission_lines mission budget cart text); reflexivity.
Qed.

Lemma split_lines_nonempty s : split_lines s <> [].
Proof.
  destruct s as [|c r]; cbn [split_lines]; [discriminate|].
  destruct (Ascii.eqb c "010"); [discriminate|].
  destruct (split_lines r); discriminate.
Qed.

Lemma split_lines_one para :
  no_line_feed para = true -> split_lines para = [para].
Proof.
  unfold no_line_feed. induction para as [|c r IH]; intros Hp; [reflexivity|].
  cbn [list_ascii_of_string forallb] in Hp. apply andb_true_iff in Hp.
  destruct Hp as [Hc Hr]. apply negb_true_iff in Hc.
  cbn [split_lines]. rewrite Hc, (IH Hr). reflexivity.
Qed.

Lemma split_lines_next para rest :
  no_line_feed para = true ->
  split_lines (para ++ nl ++ rest) = para :: split_lines rest.
Proof.
  unfold no_line_feed. induction para as [|c r IH]; intros Hp; [reflexivity|].
  cbn [list_ascii_of_string forallb] in Hp. apply andb_true_iff in Hp.
  destruct Hp as [Hc Hr]. apply negb_true_iff in Hc.
  cbn [String.append split_lines]. rewrite Hc, (IH Hr). reflexivity.
Qed.

(** Splitting a text gives back the paragraphs it was written from. *)
Lemma split_lines_join paras :
  paras <> [] -> forallb no_line_feed paras = true ->
  split_lines (join_lines paras) = paras.
Proof.
  induction paras as [|para rest IH]; intros Hne Hp; [destruct Hne; reflexivity|].
  cbn [forallb] in Hp. apply andb_true_iff in Hp. destruct Hp as [Hpara Hrest].
  destruct rest as [|next rest].
  - apply split_lines_one, Hpara.
  - change (join_lines (para :: next :: rest))
      with (para ++ nl ++ join_lines (next :: rest)).
    rewrite split_lines_next by exact Hpara.
    rewrite IH; [reflexivity|discriminate|exact Hrest].
Qed.

Lemma join_split_lines s : join_lines (split_lines s) = s.
Proof.
  induction s as [|c r IH]; [reflexivity|]. cbn [split_lines].
  pose proof (split_lines_nonempty r) as Hne.
  destruct (Ascii.eqb_spec c "010") as [->|Hc].
  - destruct (split_lines r) as [|h t]; [destruct Hne; reflexivity|].
    change (join_lines ("" :: h :: t)) with (nl ++ join_lines (h :: t)).
    rewrite IH. reflexivity.
  - destruct (split_lines r) as [|h t]; [destruct Hne; reflexivity|].
    rewrite <- IH. destruct t; reflexivity.
Qed.

Lemma split_lines_no_line_feed s : forallb no_line_feed (split_lines s) = true.
Proof.
  induction s as [|c r IH]; [reflexivity|]. cbn [split_lines].
  destruct (Ascii.eqb c "010") eqn:Hc; [exact IH|].
  destruct (split_lines r) as [|h t]; [cbn; rewrite Hc; reflexivity|].
  cbn [forallb] in IH |- *. unfold no_line_feed at 1.
  cbn [list_ascii_of_string forallb]. rewrite Hc. exact IH.
Qed.

Lemma lstrip_nil l : lstrip l = [] <-> forallb isspace l = true.
Proof.
  induction l as [|c r IH]; [tauto|]. cbn [lstrip forallb].
  destruct (isspace c); cbn [andb]; [exact IH|]. split; discriminate.
Qed.

Lemma lstrip_ends l c : isspace c = false -> lstrip (l ++ [c]) <> [].
Proof.
  intros Hc. induction l as [|d r IH]; cbn [app lstrip].
  - rewrite Hc. discriminate.
  - destruct (isspace d); [exact IH|discriminate].
Qed.

Lemma lstrip_head l c r : lstrip l = c :: r -> isspace c = false.
Proof.
  induction l as [|d t IH]; cbn [lstrip]; [discriminate|].
  destruct (isspace d) eqn:Hd; [exact IH|]. intros [= <- _]. exact Hd.
Qed.

(** [not para.strip()] holds of the paragraphs of white space. *)
Lemma blank_all_space para : blank para = all_space para.
Proof.
  unfold blank, strip, all_space.
  destruct (forallb isspace (code_points para)) eqn:Hall.
  - apply lstrip_nil in Hall. rewrite Hall. reflexivity.
  - destruct (lstrip (code_points para)) as [|c r] eqn:Hl.
    + apply lstrip_nil in Hl. congruence.
    + pose proof (lstrip_ends (rev r) c (lstrip_head _ _ _ Hl)) as Hne.
      cbn [rev]. destruct (lstrip (rev r ++ [c])) as [|d t] eqn:Hd;
        [destruct Hne; reflexivity|].
      cbn [rev]. destruct (rev t); reflexivity.
Qed.

Section Layout.
Context {R : Runtime}.

Lemma reflow_join paras :
  paras <> [] -> forallb no_line_feed paras = true ->
  reflow (join_lines paras) = justification_lines paras.
Proof.
  intros Hne Hp. unfold reflow, justification_lines.
  rewrite split_lines_join by assumption.
  apply flat_map_ext. intros para. unfold paragraph_lines.
  rewrite blank_all_space. reflexivity.
Qed.

Lemma display_lines_layout mission b items paras :
  paras <> [] -> forallb no_line_feed paras = true ->
  display_lines mission b items (join_lines paras) = layout mission b items paras.
Proof.
  intros Hne Hp. unfold display_lines, layout. rewrite reflow_join by assumption.
  reflexivity.
Qed.
End Layout.

(** Where the commas are: counting from the end, every fourth character is a
    comma and the others are the digits in their order. *)
Lemma commas_rev_length l : forall k, (k <= 3)%nat ->
  List.length (commas_rev k l)
  = (List.length l + (List.length l + k - 1) / 3)%nat.
Proof.
  induction l as [|d r IH]; intros k Hk.
  - cbn [commas_rev List.length].
    assert ((0 + k - 1) / 3 = 0)%nat by (apply Nat.div_small; lia). lia.
  - cbn [commas_rev List.length].
    assert (Hcase : (k = 0 \/ k = 1 \/ k = 2 \/ k = 3)%nat) by lia.
    destruct Hcase as [-> | [-> | [-> | ->]]]; cbn [List.length];
      rewrite IH by lia;
      generalize (List.length r); intros n.
    all: pose proof (Nat.div_mod_eq (n + 1 - 1) 3);
      pose proof (Nat.div_mod_eq (n + 2 - 1) 3);
      pose proof (Nat.div_mod_eq (n + 3 - 1) 3);
      pose proof (Nat.div_mod_eq (S n + 0 - 1) 3);
      pose proof (Nat.div_mod_eq (S n + 1 - 1) 3);
      pose proof (Nat.div_mod_eq (S n + 2 - 1) 3);
      pose proof (Nat.div_mod_eq (S n + 3 - 1) 3);
      pose proof (Nat.mod_upper_bound (n + 1 - 1) 3);
      pose proof (Nat.mod_upper_bound (n + 2 - 1) 3);
      pose proof (Nat.mod_upper_bound (n + 3 - 1) 3);
      pose proof (Nat.mod_upper_bound (S n + 0 - 1) 3);
      pose proof (Nat.mod_upper_bound (S n + 1 - 1) 3);
      pose proof (Nat.mod_upper_bound (S n + 2 - 1) 3);
      pose proof (Nat.mod_upper_bound (S n + 3 - 1) 3);
      lia.
Qed.

Lemma commas_rev_nth l : forall k i, (k <= 3)%nat ->
  (i < List.length (commas_rev k l))%nat ->
  nth i (commas_rev k l) ","%char
  = if ((i + k) mod 4 =? 3)%nat then ","%char
    else nth (i - (i + k) / 4) l ","%char.
Proof.
  induction l as [|d r IH]; intros k i Hk Hi; [cbn in Hi; lia|].
  assert (Hcase : (k = 3 \/ k < 3)%nat) by lia.
  destruct Hcase as [-> | Hlt].
  - cbn [commas_rev] in Hi |- *.
    destruct i as [|[|j]]; [reflexivity|reflexivity|].
    cbn [nth List.length] in Hi |- *.
    rewrite (IH 1%nat j) by lia.
    replace (S (S j) + 3)%nat with (j + 1 + 1 * 4)%nat by lia.
    rewrite Nat.Div0.mod_add, Nat.div_add by lia.
    destruct ((j + 1) mod 4 =? 3)%nat; [reflexivity|].
    pose proof (Nat.div_mod_eq (j + 1) 4).
    pose proof (Nat.mod_upper_bound (j + 1) 4).
    replace (S (S j) - ((j + 1) / 4 + 1))%nat with (S (j - (j + 1) / 4)) by lia.
    reflexivity.
  - assert (Hstep : commas_rev k (d :: r) = d :: commas_rev (S k) r)
      by (destruct k as [|[|[|k]]]; [reflexivity|reflexivity|reflexivity|lia]).
    rewrite Hstep in Hi |- *.
    destruct i as [|j].
    + cbn [nth Nat.add]. rewrite Nat.mod_small, Nat.div_small by lia.
      destruct (Nat.eqb_spec k 3); [lia|reflexivity].
    + cbn [nth List.length] in Hi |- *.
      rewrite (IH (S k) j) by lia.
      replace (S j + k)%nat with (j + S k)%nat by lia.
      destruct ((j + S k) mod 4 =? 3)%nat; [reflexivity|].
      pose proof (Nat.div_mod_eq (j + S k) 4).
      pose proof (Nat.mod_upper_bound (j + S k) 4).
      replace (S j - (j + S k) / 4)%nat with (S (j - (j + S k) / 4)) by lia.
      reflexivity.
Qed.

Lemma list_ascii_format_thousands z :
  0 <= z ->
  list_ascii_of_string (format_thousands z)
  = rev (commas_rev 0 (rev (list_ascii_of_string (str_of_int z)))).
Proof.
  intros Hz. unfold format_thousands, str_of_int.
  destruct (Z.ltb_spec z 0); [lia|]. cbn [String.append].
  rewrite !list_ascii_of_string_of_list_ascii. reflexivity.
Qed.

(** The commas of [format_thousands], counted from the last character:
    every fourth character is a comma, the others are the digits of the
    decimal numeral in their order, and there is no comma in front. *)
Lemma format_thousands_commas z :
  0 <= z ->
  let out := rev (list_ascii_of_string (format_thousands z)) in
  let ds := rev (list_ascii_of_string (str_of_int z)) in
  List.length out = (List.length ds + (List.length ds - 1) / 3)%nat
  /\ forall i, (i < List.length out)%nat ->
       nth i out ","%char
       = if (i mod 4 =? 3)%nat then ","%char else nth (i - i / 4) ds ","%char.
Proof.
  intros Hz out ds. unfold out. rewrite list_ascii_format_thousands by exact Hz.
  rewrite rev_involutive. fold ds. split.
  - rewrite commas_rev_length by lia. f_equal. f_equal. lia.
  - intros i Hi. rewrite commas_rev_nth by (lia || exact Hi).
    rewrite Nat.add_0_r. reflexivity.
Qed.

Lemma format_thousands_negative z :
  z < 0 -> format_thousands z = "-" ++ format_thousands (- z).
Proof.
  intros Hz. unfold format_thousands.
  destruct (Z.ltb_spec z 0); [|lia]. destruct (Z.ltb_spec (- z) 0); [lia|].
  replace (Z.abs_N (- z)) with (Z.abs_N z) by (rewrite Zabs2N.inj_opp; reflexivity).
  reflexivity.
Qed.

Lemma format_thousands_examples :
  format_thousands 0 = "0"
  /\ format_thousands 999 = "999"
  /\ format_thousands 1000 = "1,000"
  /\ format_thousands 10000 = "10,000"
  /\ format_thousands 100000 = "100,000"
  /\ format_thousands 1234567 = "1,234,567"
  /\ format_thousands (-1234567) = "-1,234,567".
Proof.
  repeat split; vm_compute; reflexivity.
Qed.

(** C4. The renderer builds its lines in the order of the specification:
    the mission, the budget, a blank line, the header of the items, one
    line per cart item in cart order or the placeholder of the empty cart,
    a blank line, the header of the justification, and the justification,
    split at line feeds into paragraphs that are wrapped at 30 columns,
    a blank paragraph giving one blank line.  The budget and the prices are
    written with thousands separators and the currency suffix: commas set
    off the digits in groups of three from the right, and nothing else is
    added to the decimal numeral.  These are the lines of the image the
    renderer saves, and the renderer returns them for every finite price.

    The paragraphs are those of the text itself: every text is a list of
    paragraphs without line feeds, joined by line feeds, in exactly one
    way, and the justification written from the paragraphs [paras] gives,
    paragraph by paragraph, one blank line for a paragraph of white space
    (the empty one included) and the wrapped paragraph otherwise.  Counted
    from the last character, every fourth character of a formatted amount
    is a comma and the others are the digits of its decimal numeral, with
    the sign of a negative amount in front. *)
Theorem submission_lines_follow_the_layout `{Runtime}
  (inp : inputs) (mission : string) (budget : pynum) (cart : list CartItem)
  (reason_text : string) (w : world) :
  submission_lines mission budget cart reason_text
  = rbind (truncated_budget budget) (fun b =>
    rbind (truncated_prices cart) (fun ps =>
      Ok (display_lines mission b
            (combine (map (fun item => py_str (item_name item)) cart) ps)
            reason_text)))
  /\ create_submission_png inp mission budget cart reason_text w
     = match submission_lines mission budget cart reason_text with
       | Ok lines =>
           (Ok (png_path (submission_file inp lines)),
            {| session := session w;
               screen := screen w;
               files := submission_file inp lines :: files w |})
       | Halt h => (Halt h, w)
       end
  /\ submission_lines "절약형 장보기 (예산 10,000원)" (PyInt 10000)
       [apple 1500] "test"
     = Ok ([ "미션: 절약형 장보기 (예산 10,000원)";
             "예산: 10,000원";
             "";
             "▶ 구매한 물품";
             "- Apple (1,500원)";
             "";
             "▶ 구매 이유" ] ++ textwrap_wrap "test" 30)%list
  /\ (forall b, budget = PyInt b -> forallb finite_price cart = true ->
      exists ps,
        List.length ps = List.length cart
        /\ submission_lines mission budget cart reason_text
           = Ok (display_lines mission b
                   (combine (map (fun item => py_str (item_name item)) cart) ps)
                   reason_text))
  /\ (forall z, remove_commas (format_thousands z) = str_of_int z)
  /\ (forall l, (List.length l <= 3)%nat -> commas_rev 0 l = l)
  /\ (forall a b c d r,
        commas_rev 0 (a :: b :: c :: d :: r)
        = a :: b :: c :: ","%char :: commas_rev 0 (d :: r))
  /\ (forall paras, paras <> [] -> forallb no_line_feed paras = true ->
      submission_lines mission budget cart (join_lines paras)
      = rbind (truncated_budget budget) (fun b =>
        rbind (truncated_prices cart) (fun ps =>
          Ok (layout mission b
                (combine (map (fun item => py_str (item_name item)) cart) ps)
                paras))))
  /\ (forall text, exists paras,
        paras <> [] /\ forallb no_line_feed paras = true
        /\ join_lines paras = text)
  /\ (forall paras paras',
        paras <> [] -> forallb no_line_feed paras = true ->
        paras' <> [] -> forallb no_line_feed paras' = true ->
        join_lines paras = join_lines paras' -> paras = paras')
  /\ (all_space "" = true /\ all_space "  " = true
      /\ all_space (String "009" (String "013" "　")) = true
      /\ all_space " a " = false /\ all_space "a" = false)
  /\ (forall z, 0 <= z ->
        let out := rev (list_ascii_of_string (format_thousands z)) in
        let ds := rev (list_ascii_of_string (str_of_int z)) in
        List.length out = (List.length ds + (List.length ds - 1) / 3)%nat
        /\ forall i, (i < List.length out)%nat ->
             nth i out ","%char
             = if (i mod 4 =? 3)%nat then ","%char
               else nth (i - i / 4) ds ","%char)
  /\ (forall z, z < 0 -> format_thousands z = "-" ++ format_thousands (- z))
  /\ (format_thousands 0 = "0"
      /\ format_thousands 999 = "999"
      /\ format_thousands 1000 = "1,000"
      /\ format_thousands 100000 = "100,000"
      /\ format_thousands 1234567 = "1,234,567"
      /\ format_thousands (-1234567) = "-1,234,567")
  /\ submission_lines "m" (PyInt 1234567) [apple 1500.9; bread 2000000]
       ("a" ++ nl ++ nl ++ " b c" ++ nl ++ "  ")
     = Ok ([ "미션: m";
             "예산: 1,234,567원";
             "";
             "▶ 구매한 물품";
             "- Apple (1,500원)";
             "- Bread (2,000,000원)";
             "";
             "▶ 구매 이유" ]
           ++ textwrap_wrap "a" 30 ++ [""] ++ textwrap_wrap " b c" 30
           ++ [""])%list
  /\ submission_lines "m" (PyInt 0) [] ""
     = Ok [ "미션: m";
            "예산: 0원";
            "";
            "▶ 구매한 물품";
            "- (구매한 물품 없음)";
            "";
            "▶ 구매 이유";
            "" ].
Proof.
  split; [apply submission_lines_display|].
  split; [apply create_submission_png_file|].
  split.
  { rewrite submission_lines_display.
    cbn [truncated_budget rbind truncated_prices apple item_price].
    replace (truncate_toward_zero 1500) with (@Ok Z 1500) by reflexivity.
    cbn [rbind]. unfold display_lines, reflow.
    replace (split_lines "test") with ["test"] by reflexivity.
    cbn [flat_map]. unfold paragraph_lines.
    replace (blank "test") with false by reflexivity.
    rewrite app_nil_r. reflexivity. }
  split.
  { intros b -> Hf.
    destruct (truncated_prices_finite cart Hf) as (ps & Hps & Hlen).
    exists ps. split; [exact Hlen|].
    rewrite submission_lines_display, Hps. reflexivity. }
  split; [exact format_thousands_digits|].
  split; [exact commas_rev_short|]. split; [exact commas_rev_group|].
  split.
  { intros paras Hne Hp. rewrite submission_lines_display.
    destruct (truncated_budget budget) as [b|h]; [|reflexivity].
    destruct (truncated_prices cart) as [ps|h]; [|reflexivity].
    cbn [rbind]. rewrite display_lines_layout by assumption. reflexivity. }
  split.
  { intros text. exists (split_lines text).
    split; [apply split_lines_nonempty|].
    split; [apply split_lines_no_line_feed | apply join_split_lines]. }
  split.
  { intros paras paras' Hne Hp Hne' Hp' Heq.
    rewrite <- (split_lines_join paras), <- (split_lines_join paras')
      by assumption.
    rewrite Heq. reflexivity. }
  split; [repeat split; vm_compute; reflexivity|].
  split; [exact format_thousands_commas|].
  split; [exact format_thousands_negative|].
  split; [repeat split; vm_compute; reflexivity|].
  split.
  { rewrite submission_lines_display.
    cbn [truncated_budget rbind truncated_prices apple bread item_price].
    replace (truncate_toward_zero 1500.9) with (@Ok Z 1500)
      by (vm_compute; reflexivity).
    replace (truncate_toward_zero 2000000) with (@Ok Z 2000000)
      by (vm_compute; reflexivity).
    cbn [rbind]. unfold display_lines, reflow.
    replace (split_lines ("a" ++ nl ++ nl ++ " b c" ++ nl ++ "  "))
      with ["a"; ""; " b c"; "  "] by reflexivity.
    cbn [flat_map]. unfold paragraph_lines.
    replace (blank "a") with false by reflexivity.
    replace (blank "") with true by reflexivity.
    replace (blank " b c") with false by reflexivity.
    replace (blank "  ") with true by reflexivity.
    rewrite app_nil_r. reflexivity. }
  rewrite submission_lines_display. reflexivity.
Qed.

(** C10. The budget and every price go through [int] before they are
    formatted: a float is replaced by its exact value divided with rounding
    toward zero, so 1500.9 is written 1,500 and -1500.9 would be written
    -1,500. *)
Theorem rendered_amounts_are_truncated `{Runtime}
  (mission : string) (budget : pynum) (cart : list CartItem)
  (reason_text : string) :
  (forall f, py_int (PyFloat f) = truncate_toward_zero f)
  /\ submission_lines mission budget cart reason_text
     = rbind (truncated_budget budget) (fun b =>
       rbind (truncated_prices cart) (fun ps =>
         Ok (display_lines mission b
               (combine (map (fun item => py_str (item_name item)) cart) ps)
               reason_text)))
  /\ truncate_toward_zero 1500.9 = Ok 1500
  /\ truncate_toward_zero (-1500.9) = Ok (-1500)
  /\ submission_lines mission (PyFloat 10000.7) [apple 1500.9] reason_text
     = Ok ([ ("미션: " ++ mission)%string;
             "예산: 10,000원";
             "";
             "▶ 구매한 물품";
             "- Apple (1,500원)";
             "";
             "▶ 구매 이유" ] ++ reflow reason_text)%list.
Proof.
  split; [exact int_of_float_truncates|].
  split; [apply submission_lines_display|].
  split; [reflexivity|]. split; [reflexivity|].
  rewrite submission_lines_display.
  cbn [truncated_budget truncated_prices apple item_price].
  replace (truncate_toward_zero 10000.7) with (@Ok Z 10000) by reflexivity.
  replace (truncate_toward_zero 1500.9) with (@Ok Z 1500) by reflexivity.
  reflexivity.
Qed.
(* ===================================================================== *)
(** * Whole numbers as floats: addition is exact below 2^53 *)
(* ===================================================================== *)

Lemma digits_shl k p :
  Zpos (digits2_pos (shl k p)) = Zpos (digits2_pos p) + Z.of_nat k.
Proof.
  induction k as [|k IH]; [simpl; lia|].
  change (shl (S k) p) with (xO (shl k p)). cbn [digits2_pos].
  rewrite Pos2Z.inj_succ, IH. lia.
Qed.

Lemma Zpos_shl k p : Zpos (shl k p) = Zpos p * 2 ^ Z.of_nat k.
Proof.
  induction k as [|k IH]; [simpl; lia|].
  change (shl (S k) p) with (xO (shl k p)).
  rewrite Pos2Z.inj_xO, IH, Nat2Z.inj_succ, Z.pow_succ_r by lia. lia.
Qed.

Lemma shl_add j k p : shl j (shl k p) = shl (j + k) p.
Proof. unfold shl. rewrite Nat.iter_add. reflexivity. Qed.

Lemma Pos_iter_shl d p : Pos.iter xO p d = shl (Pos.to_nat d) p.
Proof. apply Pos2Nat.inj_iter. Qed.

Lemma iter_pos_nat {A} (f : A -> A) n x :
  iter_pos f n x = Nat.iter (Pos.to_nat n) f x.
Proof.
  revert x. induction n as [n IH|n IH|]; intros x; cbn [iter_pos].
  - rewrite !IH, Pos2Nat.inj_xI.
    replace (S (2 * Pos.to_nat n))%nat
      with (Pos.to_nat n + (Pos.to_nat n + 1))%nat by lia.
    rewrite !Nat.iter_add. reflexivity.
  - rewrite !IH, Pos2Nat.inj_xO.
    replace (2 * Pos.to_nat n)%nat with (Pos.to_nat n + Pos.to_nat n)%nat by lia.
    rewrite Nat.iter_add. reflexivity.
  - reflexivity.
Qed.

Lemma shr_exact k p :
  Nat.iter k shr_1 (exact (Zpos (shl k p))) = exact (Zpos p).
Proof.
  induction k as [|k IH]; [reflexivity|].
  rewrite Nat.iter_succ_r.
  change (shl (S k) p) with (xO (shl k p)). cbn [shr_1 exact orb].
  exact IH.
Qed.

Lemma digits_le_53 p : Zpos p < 2 ^ 53 -> Zpos (digits2_pos p) <= 53.
Proof.
  assert (Hs : forall q, digits2_pos q = Pos.size q).
  { induction q as [q IH|q IH|]; cbn [digits2_pos Pos.size];
      [rewrite IH | rewrite IH |]; reflexivity. }
  intros Hp. specialize (Hs p).
  rewrite Hs.
  destruct (Z.le_gt_cases (Zpos (Pos.size p)) 53) as [Hle|Hgt]; [exact Hle|].
  exfalso. pose proof (Pos.size_le p) as Hsz.
  apply Pos2Z.pos_le_pos in Hsz. rewrite Pos2Z.inj_pow in Hsz.
  change (Z.pos p~0) with (2 * Z.pos p) in Hsz.
  assert (H54 : 2 ^ 54 <= 2 ^ Zpos (Pos.size p)) by (apply Z.pow_le_mono_r; lia).
  change (2 ^ 54) with 18014398509481984 in H54.
  change (2 ^ 53) with 9007199254740992 in Hp.
  lia.
Qed.

(** A mantissa of 53 digits with an exponent in range needs no shift. *)
Lemma shr_fexp_canonical p e :
  Zpos (digits2_pos p) = 53 -> -1074 <= e ->
  shr_fexp prec emax (Zpos p) e loc_Exact = (exact (Zpos p), e).
Proof.
  intros Hd He.
  unfold shr_fexp, fexp, SpecFloat.emin. cbn [Zdigits2 shr_record_of_loc].
  rewrite Hd. change prec with 53. change emax with 1024.
  replace (Z.max (53 + e - 53) (3 - 1024 - 53) - e) with 0 by lia.
  reflexivity.
Qed.

(** Rounding is exact when the first shift leaves such a mantissa and
    nothing behind it. *)
Lemma binary_round_aux_exact s m e p e' :
  shr_fexp prec emax m e loc_Exact = (exact (Zpos p), e') ->
  Zpos (digits2_pos p) = 53 -> -1074 <= e' <= 971 ->
  binary_round_aux prec emax s m e loc_Exact = S754_finite s p e'.
Proof.
  intros Hshr Hd He. unfold binary_round_aux. rewrite Hshr.
  cbn [exact shr_m loc_of_shr_record round_nearest_even].
  rewrite shr_fexp_canonical by (assumption || lia).
  cbn [exact shr_m]. change prec with 53. change emax with 1024.
  destruct (Z.leb_spec e' (1024 - 53)); [reflexivity | lia].
Qed.

(** Rounding a whole number below 2^53, given with [k] extra zero bits. *)
Lemma binary_round_shl s c k :
  Zpos c < 2 ^ 53 -> (k <= 1000)%nat ->
  binary_round prec emax s (shl k c) (- Z.of_nat k)
  = S754_finite s (shl (Z.to_nat (53 - Zpos (digits2_pos c))) c)
                  (Zpos (digits2_pos c) - 53).
Proof.
  intros Hc Hk. pose proof (digits_le_53 c Hc) as Hd.
  set (d := Zpos (digits2_pos c)) in *.
  assert (Hd1 : 1 <= d) by (unfold d; lia).
  assert (Hd53 : Zpos (digits2_pos (shl (Z.to_nat (53 - d)) c)) = 53).
  { rewrite digits_shl. fold d. lia. }
  unfold binary_round.
  assert (Hfexp : fexp prec emax (Zpos (digits2_pos (shl k c)) + - Z.of_nat k) = d - 53).
  { rewrite digits_shl. fold d. unfold fexp, SpecFloat.emin.
    change prec with 53. change emax with 1024. lia. }
  rewrite Hfexp. unfold shl_align.
  destruct (d - 53 - - Z.of_nat k) as [|q|q] eqn:Hdiff.
  - (* already aligned *)
    replace k with (Z.to_nat (53 - d)) by lia.
    replace (- Z.of_nat (Z.to_nat (53 - d))) with (d - 53) by lia.
    apply binary_round_aux_exact; [|exact Hd53|lia].
    apply shr_fexp_canonical; [exact Hd53|lia].
  - (* too many zero bits: the first shift takes them off *)
    apply binary_round_aux_exact; [|exact Hd53|lia].
    unfold shr_fexp. cbn [Zdigits2 shr_record_of_loc]. rewrite Hfexp, Hdiff.
    unfold shr. rewrite iter_pos_nat. f_equal; [|lia].
    replace k with (Pos.to_nat q + Z.to_nat (53 - d))%nat at 1 by lia.
    rewrite <- shl_add. apply shr_exact.
  - (* too few: the alignment adds them *)
    rewrite Pos_iter_shl, shl_add.
    replace (Pos.to_nat q + k)%nat with (Z.to_nat (53 - d)) by lia.
    apply binary_round_aux_exact; [|exact Hd53|lia].
    apply shr_fexp_canonical; [exact Hd53|lia].
Qed.

Lemma binary_normalize_scaled z k :
  Z.abs z < 2 ^ 53 -> (k <= 1000)%nat ->
  binary_normalize prec emax (z * 2 ^ Z.of_nat k) (- Z.of_nat k) false
  = whole z.
Proof.
  intros Hz Hk. unfold whole. destruct z as [|p|p].
  - reflexivity.
  - rewrite <- (Zpos_shl k p).
    change (binary_round prec emax false (shl k p) (- Z.of_nat k)
            = binary_round prec emax false (shl 0 p) (- Z.of_nat 0)).
    rewrite !binary_round_shl by (assumption || lia). reflexivity.
  - change (Z.neg p) with (- Z.pos p). rewrite Z.mul_opp_l, <- (Zpos_shl k p).
    change (binary_round prec emax true (shl k p) (- Z.of_nat k)
            = binary_round prec emax true (shl 0 p) (- Z.of_nat 0)).
    rewrite !binary_round_shl by (assumption || lia). reflexivity.
Qed.

Lemma whole_canon s p :
  Zpos p < 2 ^ 53 -> whole (cond_Zopp s (Zpos p)) = canon s p.
Proof.
  intros Hp. unfold whole, canon.
  destruct s; cbn [cond_Zopp Z.opp binary_normalize];
    change 0 with (- Z.of_nat 0); change p with (shl 0 p) at 1;
    apply binary_round_shl; assumption || lia.
Qed.

Lemma whole_cases z :
  Z.abs z < 2 ^ 53 ->
  (z = 0 /\ whole z = S754_zero false)
  \/ exists s p, z = cond_Zopp s (Zpos p) /\ Zpos p < 2 ^ 53 /\ whole z = canon s p.
Proof.
  intros Hz. destruct z as [|p|p].
  - left. split; reflexivity.
  - right. exists false, p. split; [reflexivity|]. split; [exact Hz|].
    apply (whole_canon false), Hz.
  - right. exists true, p. split; [reflexivity|]. split; [exact Hz|].
    apply (whole_canon true), Hz.
Qed.

Lemma whole_valid z : Z.abs z < 2 ^ 53 -> valid_binary (whole z) = true.
Proof.
  intros Hz. destruct (whole_cases z Hz) as [[_ ->] | (s & p & _ & Hp & ->)];
    [reflexivity|].
  pose proof (digits_le_53 p Hp) as Hd.
  unfold canon. cbn [SpecFloat.valid_binary]. unfold bounded, canonical_mantissa.
  rewrite digits_shl. unfold fexp, SpecFloat.emin.
  change prec with 53. change emax with 1024.
  apply andb_true_intro. split.
  - apply Z.eqb_eq. lia.
  - apply Z.leb_le. lia.
Qed.

(** Aligning the float of a whole number to [-k]. *)
Lemma shl_align_canon p k :
  Zpos p < 2 ^ 53 -> Zpos (digits2_pos p) - 53 >= - Z.of_nat k ->
  fst (shl_align (shl (Z.to_nat (53 - Zpos (digits2_pos p))) p)
                 (Zpos (digits2_pos p) - 53) (- Z.of_nat k))
  = shl k p.
Proof.
  intros Hp Hk. pose proof (digits_le_53 p Hp) as Hd.
  unfold shl_align.
  destruct (- Z.of_nat k - (Zpos (digits2_pos p) - 53)) as [|q|q] eqn:Hdiff.
  - cbn [fst]. f_equal. lia.
  - lia.
  - cbn [fst]. rewrite Pos_iter_shl, shl_add. f_equal. lia.
Qed.

Lemma cond_Zopp_shl s k p :
  cond_Zopp s (Zpos (shl k p)) = cond_Zopp s (Zpos p) * 2 ^ Z.of_nat k.
Proof. rewrite Zpos_shl. destruct s; cbn [cond_Zopp]; lia. Qed.

(** Adding the floats of two whole numbers gives the float of their sum,
    as long as the three are below 2^53 in absolute value. *)
Lemma SFadd_whole a b :
  Z.abs a < 2 ^ 53 -> Z.abs b < 2 ^ 53 -> Z.abs (a + b) < 2 ^ 53 ->
  SFadd prec emax (whole a) (whole b) = whole (a + b).
Proof.
  intros Ha Hb Hab.
  destruct (whole_cases a Ha) as [[-> Hwa] | (sa & pa & Hza & Hpa & Hwa)];
    destruct (whole_cases b Hb) as [[-> Hwb] | (sb & pb & Hzb & Hpb & Hwb)].
  - reflexivity.
  - rewrite Z.add_0_l, Hwa, Hwb. reflexivity.
  - rewrite Z.add_0_r, Hwa, Hwb. reflexivity.
  - rewrite Hwa, Hwb. unfold canon. cbn [SFadd].
    pose proof (digits_le_53 pa Hpa) as Hda.
    pose proof (digits_le_53 pb Hpb) as Hdb.
    set (da := Zpos (digits2_pos pa)) in *.
    set (db := Zpos (digits2_pos pb)) in *.
    assert (Hda1 : 1 <= da) by (unfold da; lia).
    assert (Hdb1 : 1 <= db) by (unfold db; lia).
    set (k := Z.to_nat (- Z.min (da - 53) (db - 53))).
    assert (Hk : Z.min (da - 53) (db - 53) = - Z.of_nat k) by (unfold k; lia).
    cbv zeta. rewrite Hk.
    unfold da, db. rewrite !shl_align_canon by (assumption || (fold da db; lia)).
    rewrite !cond_Zopp_shl, <- Z.mul_add_distr_r, <- Hza, <- Hzb.
    apply binary_normalize_scaled; [exact Hab | unfold k; lia].
Qed.

(** Subtraction is addition of the opposite. *)
Lemma SFsub_SFadd x y : SFsub prec emax x y = SFadd prec emax x (SFopp y).
Proof.
  destruct x as [sx|sx| |sx mx ex], y as [sy|sy| |sy my ey];
    try reflexivity;
    destruct sx, sy; reflexivity.
Qed.

Lemma SFopp_whole b : Z.abs b < 2 ^ 53 -> b <> 0 -> SFopp (whole b) = whole (- b).
Proof.
  intros Hb Hne.
  destruct (whole_cases b Hb) as [[-> _] | (s & p & -> & Hp & ->)]; [contradiction|].
  replace (- cond_Zopp s (Zpos p)) with (cond_Zopp (negb s) (Zpos p))
    by (destruct s; reflexivity).
  rewrite whole_canon by exact Hp. reflexivity.
Qed.

Lemma SFsub_whole a b :
  Z.abs a < 2 ^ 53 -> Z.abs b < 2 ^ 53 -> Z.abs (a - b) < 2 ^ 53 ->
  SFsub prec emax (whole a) (whole b) = whole (a - b).
Proof.
  intros Ha Hb Hab. destruct (Z.eq_dec b 0) as [->|Hne].
  - rewrite Z.sub_0_r.
    destruct (whole_cases a Ha) as [[-> ->] | (s & p & _ & _ & ->)]; reflexivity.
  - rewrite SFsub_SFadd, SFopp_whole by assumption.
    apply SFadd_whole; [assumption | lia | exact Hab].
Qed.

(** ** The primitive floats *)

Lemma Prim2SF_Z2float z :
  Z.abs z < 2 ^ 53 -> Prim2SF (Z2float z) = whole z.
Proof.
  intros Hz. unfold Z2float. apply Prim2SF_SF2Prim, whole_valid, Hz.
Qed.

Lemma add_whole a b :
  Z.abs a < 2 ^ 53 -> Z.abs b < 2 ^ 53 -> Z.abs (a + b) < 2 ^ 53 ->
  (Z2float a + Z2float b)%float = Z2float (a + b).
Proof.
  intros Ha Hb Hab. apply Prim2SF_inj.
  rewrite add_spec, !Prim2SF_Z2float by assumption.
  apply SFadd_whole; assumption.
Qed.

Lemma sub_whole a b :
  Z.abs a < 2 ^ 53 -> Z.abs b < 2 ^ 53 -> Z.abs (a - b) < 2 ^ 53 ->
  (Z2float a - Z2float b)%float = Z2float (a - b).
Proof.
  intros Ha Hb Hab. apply Prim2SF_inj.
  rewrite sub_spec, !Prim2SF_Z2float by assumption.
  apply SFsub_whole; assumption.
Qed.

Lemma Z2float_0 : Z2float 0 = 0%float.
Proof. reflexivity. Qed.

(** ** Sums *)

Lemma sum_abs_nonneg ks : 0 <= sum_abs ks.
Proof. induction ks; simpl; lia. Qed.

Lemma sum_Z_abs ks : Z.abs (sum_Z ks) <= sum_abs ks.
Proof. induction ks; simpl; lia. Qed.

Lemma sum_Z_app ks ks' : sum_Z (ks ++ ks') = sum_Z ks + sum_Z ks'.
Proof. induction ks; simpl; lia. Qed.

Lemma sum_abs_app ks ks' : sum_abs (ks ++ ks') = sum_abs ks + sum_abs ks'.
Proof. induction ks; simpl; lia. Qed.

Lemma sum_Z_perm ks ks' : Permutation ks ks' -> sum_Z ks = sum_Z ks'.
Proof. induction 1; simpl; lia. Qed.

Lemma sum_abs_perm ks ks' : Permutation ks ks' -> sum_abs ks = sum_abs ks'.
Proof. induction 1; simpl; lia. Qed.

Lemma fold_add_whole ks acc :
  Z.abs acc + sum_abs ks < 2 ^ 53 ->
  fold_left PrimFloat.add (map Z2float ks) (Z2float acc)
  = Z2float (acc + sum_Z ks).
Proof.
  revert acc. induction ks as [|k ks IH]; intros acc Hb; simpl in *.
  - rewrite Z.add_0_r. reflexivity.
  - pose proof (sum_abs_nonneg ks).
    rewrite add_whole by lia. rewrite IH by lia. f_equal. lia.
Qed.

Lemma sum_sequential_whole ks :
  sum_abs ks < 2 ^ 53 -> sum_sequential (map Z2float ks) = whole_total ks.
Proof.
  destruct ks as [|k ks]; [reflexivity|]. intros Hb. simpl in Hb.
  pose proof (sum_abs_nonneg ks).
  cbn [map sum_sequential whole_total]. f_equal.
  rewrite <- Z2float_0, add_whole by (simpl; lia).
  rewrite fold_add_whole by (simpl; lia). reflexivity.
Qed.

Lemma compensated_step_whole acc k :
  Z.abs acc < 2 ^ 53 -> Z.abs k < 2 ^ 53 -> Z.abs (acc + k) < 2 ^ 53 ->
  compensated_step (Z2float acc, 0%float) (Z2float k)
  = (Z2float (acc + k), 0%float).
Proof.
  intros Ha Hk Hak. unfold compensated_step.
  rewrite add_whole by assumption. f_equal.
  destruct (abs (Z2float k) <=? abs (Z2float acc))%float.
  - rewrite sub_whole by (assumption || lia).
    rewrite add_whole by (assumption || lia).
    replace (acc - (acc + k) + k) with 0 by lia. reflexivity.
  - rewrite sub_whole by (assumption || lia).
    rewrite add_whole by (assumption || lia).
    replace (k - (acc + k) + acc) with 0 by lia. reflexivity.
Qed.

Lemma fold_compensated_whole ks acc :
  Z.abs acc + sum_abs ks < 2 ^ 53 ->
  fold_left compensated_step (map Z2float ks) (Z2float acc, 0%float)
  = (Z2float (acc + sum_Z ks), 0%float).
Proof.
  revert acc. induction ks as [|k ks IH]; intros acc Hb; cbn [map fold_left].
  - simpl. rewrite Z.add_0_r. reflexivity.
  - change (sum_abs (k :: ks)) with (Z.abs k + sum_abs ks) in Hb.
    change (sum_Z (k :: ks)) with (k + sum_Z ks).
    pose proof (sum_abs_nonneg ks).
    rewrite compensated_step_whole by lia. rewrite IH by lia.
    f_equal. f_equal. lia.
Qed.

Lemma sum_compensated_whole ks :
  sum_abs ks < 2 ^ 53 -> sum_compensated (map Z2float ks) = whole_total ks.
Proof.
  destruct ks as [|k ks]; [reflexivity|]. intros Hb. simpl in Hb.
  pose proof (sum_abs_nonneg ks).
  cbn [map sum_compensated whole_total]. f_equal.
  rewrite <- Z2float_0 at 1. rewrite add_whole by (simpl; lia).
  rewrite fold_compensated_whole by (simpl; lia). reflexivity.
Qed.

(** Whatever the interpreter, the sum of whole prices is exact. *)
Lemma py_sum_whole `{Runtime} ks :
  sum_abs ks < 2 ^ 53 -> py_sum (map Z2float ks) = whole_total ks.
Proof.
  intros Hb. unfold py_sum.
  destruct compensated_sum;
    [apply sum_compensated_whole | apply sum_sequential_whole]; exact Hb.
Qed.

Lemma whole_total_perm ks ks' :
  Permutation ks ks' -> whole_total ks = whole_total ks'.
Proof.
  intros Hp. destruct ks as [|k ks].
  - apply Permutation_nil in Hp. subst. reflexivity.
  - destruct ks' as [|k' ks'].
    + apply Permutation_sym, Permutation_nil in Hp. discriminate.
    + cbn [whole_total]. rewrite (sum_Z_perm _ _ Hp). reflexivity.
Qed.

(* ===================================================================== *)
(** * The total of the cart *)
(* ===================================================================== *)

(** [add_to_cart] with a float price appends one item and never fails. *)
Lemma add_to_cart_float name p image_url w :
  add_to_cart name (PyFloat p) image_url w
  = (Ok tt,
     with_session w
       (with_cart (session w)
          (append (cart (session w))
             {| item_name := name; item_price := p;
                item_image_url := image_url |}))).
Proof. reflexivity. Qed.

(** A sequence of calls with whole prices appends their prices in order. *)
Lemma add_items_whole items w :
  fst (add_items (map whole_call items) w) = Ok tt
  /\ map item_price (cart (session (snd (add_items (map whole_call items) w))))
     = (map item_price (cart (session w))
        ++ map Z2float (map (fun item => snd (fst item)) items))%list.
Proof.
  revert w. induction items as [|[[name k] image_url] items IH]; intros w.
  - split; [reflexivity|]. simpl. rewrite app_nil_r. reflexivity.
  - unfold add_items. cbn [map for_each whole_call fst snd].
    rewrite (bind_ok _ _ _ _ _ (add_to_cart_float _ _ _ _)).
    fold (add_items (map whole_call items)).
    destruct (IH (with_session w
                    (with_cart (session w)
                       (append (cart (session w))
                          {| item_name := name; item_price := Z2float k;
                             item_image_url := image_url |}))))
      as [Hok Hcart].
    split; [exact Hok|]. rewrite Hcart.
    cbn [with_session with_cart session cart]. unfold append.
    rewrite map_app, <- app_assoc. reflexivity.
Qed.

(** C2, as the claim states it, fails: the same three items in two orders
    give two totals, whichever way [sum] adds floats, and the first total
    is not the arithmetic sum of the prices. *)
Lemma cart_total_depends_on_order :
  Permutation huge_first huge_apart
  /\ forall compensated : bool,
       fst (@calc_cart_total (Demo.runtime compensated) (fresh (shopping huge_first)))
       = Ok (PyFloat infinity)
       /\ fst (@calc_cart_total (Demo.runtime compensated) (fresh (shopping huge_apart)))
          = Ok (PyFloat 1e308)
       /\ fst (@calc_cart_total (Demo.runtime compensated) (fresh (shopping huge_first)))
          <> fst (@calc_cart_total (Demo.runtime compensated) (fresh (shopping huge_apart))).
Proof.
  split.
  { unfold huge_first, huge_apart. apply perm_skip. apply perm_swap. }
  intros compensated.
  assert (H1 : fst (@calc_cart_total (Demo.runtime compensated)
                      (fresh (shopping huge_first))) = Ok (PyFloat infinity))
    by (destruct compensated; reflexivity).
  assert (H2 : fst (@calc_cart_total (Demo.runtime compensated)
                      (fresh (shopping huge_apart))) = Ok (PyFloat 1e308))
    by (destruct compensated; reflexivity).
  split; [exact H1|]. split; [exact H2|].
  rewrite H1, H2. intros Heq.
  assert (Hinf : is_infinity infinity = is_infinity 1e308) by congruence.
  discriminate Hinf.
Qed.

(** C2, amended.  Starting from any cart whose prices are whole numbers,
    after any sequence of [add_to_cart] calls with whole prices, all of
    them adding up to less than 2^53 in absolute value, [calc_cart_total]
    returns the arithmetic sum of the prices of all items of the cart, and
    returns the same for every cart that holds the same items in another
    order.  For an empty cart it returns 0, whatever the prices were. *)
Theorem cart_total_of_whole_prices `{Runtime}
  (w : world) (ks0 : list Z) (items : list (cell * Z * option cell)) :
  map item_price (cart (session w)) = map Z2float ks0 ->
  sum_abs ks0 + sum_abs (map (fun item => snd (fst item)) items) < 2 ^ 53 ->
  let ks := (ks0 ++ map (fun item => snd (fst item)) items)%list in
  let w' := snd (add_items (map whole_call items) w) in
  fst (add_items (map whole_call items) w) = Ok tt
  /\ map item_price (cart (session w')) = map Z2float ks
  /\ calc_cart_total w' = (Ok (whole_total ks), w')
  /\ (forall w'', Permutation (cart (session w')) (cart (session w'')) ->
        fst (calc_cart_total w'') = Ok (whole_total ks))
  /\ (forall w0, cart (session w0) = [] ->
        calc_cart_total w0 = (Ok (PyInt 0), w0)).
Proof.
  intros Hcart Hb ks w'.
  destruct (add_items_whole items w) as [Hok Hprices]. fold w' in Hprices.
  assert (Hks : map item_price (cart (session w')) = map Z2float ks).
  { rewrite Hprices, Hcart. unfold ks. rewrite map_app. reflexivity. }
  assert (Hsum : sum_abs ks < 2 ^ 53).
  { unfold ks. rewrite sum_abs_app. exact Hb. }
  split; [exact Hok|]. split; [exact Hks|]. split; [|split].
  - unfold calc_cart_total, bind, session_state, ret.
    rewrite Hks, py_sum_whole by exact Hsum. reflexivity.
  - intros w'' Hperm.
    apply (Permutation_map item_price) in Hperm. rewrite Hks in Hperm.
    apply Permutation_sym, Permutation_map_inv in Hperm.
    destruct Hperm as (ks' & Hks' & Hp).
    unfold calc_cart_total, bind, session_state, ret. cbn [fst].
    rewrite Hks', py_sum_whole by (rewrite <- (sum_abs_perm _ _ Hp); exact Hsum).
    rewrite (whole_total_perm _ _ Hp). reflexivity.
  - intros w0 H0. unfold calc_cart_total, bind, session_state, ret.
    rewrite H0. unfold py_sum. destruct compensated_sum; reflexivity.
Qed.

(* ===================================================================== *)
(** * The rows of the catalog and the click that adds one *)
(* ===================================================================== *)

Lemma wp_mono {A} (m : script A) (Q Q' : A -> world -> Prop)
  (E E' : halt -> world -> Prop) w :
  wp m Q E w ->
  (forall a w', Q a w' -> Q' a w') -> (forall h w', E h w' -> E' h w') ->
  wp m Q' E' w.
Proof.
  unfold wp. destruct (m w) as [[a|h] w']; auto.
Qed.

(** [int] accepts the floats that are finite, and no others. *)
Lemma int_of_float_finite f z : int_of_float f = Ok z -> finite_float f = true.
Proof.
  unfold int_of_float, finite_float.
  destruct (Prim2SF f); try discriminate; reflexivity.
Qed.

(** A float that is a zero or a finite number passes [is_finite]. *)
Lemma finite_float_is_finite f : finite_float f = true -> is_finite f = true.
Proof.
  unfold finite_float, is_finite, is_nan, is_infinity.
  rewrite !eqb_spec, abs_spec.
  destruct (Prim2SF f) as [s|s| |s m e]; try discriminate; intros _.
  - reflexivity.
  - change (Prim2SF infinity) with (S754_infinity false).
    unfold SFeqb. cbn [SFabs SFcompare].
    rewrite Z.compare_refl, Pos.compare_cont_refl.
    destruct s; reflexivity.
Qed.

(** The item of a row has a finite price: [int] saw it first. *)
Lemma row_item_finite `{Runtime} df nc pc ic row item :
  row_item df nc pc ic row = Ok item -> finite_price item = true.
Proof.
  unfold row_item.
  destruct (row_get df row nc) as [name|]; [|discriminate].
  destruct (row_get df row pc) as [c|]; [|discriminate]. cbn [rbind].
  destruct (float_of_cell c) as [f|[|[]]];
    cbn [rbind except_ValueError py_int py_float]; try discriminate.
  - destruct (int_of_float f) as [z|] eqn:Hz; [|discriminate]. cbn [rbind].
    intros [= <-]. apply (int_of_float_finite _ _ Hz).
  - intros [= <-]. reflexivity.
Qed.

Lemma pressed_other inp b c :
  clicked inp = Some c -> button_eqb c b = false -> pressed inp b = false.
Proof. unfold pressed. intros -> H. exact H. Qed.

Lemma pressed_add_index inp i idx :
  clicked inp = Some (BtnAdd i) -> pressed inp (BtnAdd idx) = true -> idx = i.
Proof.
  unfold pressed. intros ->. cbn [button_eqb]. intros H.
  apply Nat.eqb_eq in H. congruence.
Qed.

Section RowEffect.

Context {R : Runtime}.
Variable inp : inputs.

(** One row of the catalog, however it ends. *)
Lemma shop_row_effect df nc pc ic idx row w :
  wp (shop_row inp df nc pc ic (idx, row))
     (fun _ => row_effect inp df nc pc ic idx row w)
     (fun _ => row_effect inp df nc pc ic idx row w) w.
Proof.
  (* the elements a row shows before its button leave everything in place *)
  set (Same := fun w' : world =>
                 session w' = session w /\ files w' = files w
                 /\ (forall b, In (StButton b) (screen w') ->
                               In (StButton b) (screen w))).
  assert (Hsame : forall w', Same w' -> row_effect inp df nc pc ic idx row w w').
  { intros w' (Hs & Hf & Hb). split; [exact Hf|]. split; [auto|].
    left. split; [exact Hs|]. intros _. apply Hb. }
  assert (Hemit : emit_stable (shows_only no_button) Same).
  { intros w' e He (Hs & Hf & Hb). split; [exact Hs|]. split; [exact Hf|].
    intros b Hin. cbn [shown screen] in Hin. apply in_append in Hin.
    destruct Hin as [Hin|Heq]; [auto|]. subst e. destruct He. }
  assert (H0 : Same w) by (unfold Same; auto).
  assert (Himg : maintains Same (row_image inp df ic row)).
  { unfold row_image. destruct ic as [c|].
    - apply maintains_bind; [apply maintains_lift|]. intros x.
      destruct (notna x); [destruct (image_fails inp x)|];
        apply (maintains_emit (shows_only no_button)); auto; exact Logic.I.
    - apply (maintains_emit (shows_only no_button)); auto; exact Logic.I. }
  specialize (Himg w H0). unfold wp in Himg.
  unfold shop_row. apply wp_bind. unfold wp at 1.
  destruct (row_image inp df ic row w) as [[[]|h] w1] eqn:Hrun;
    [|apply Hsame, Himg].
  destruct (row_image_ok _ _ _ _ _ _ Hrun) as (_ & _ & Hcell).
  clear H0 Hrun. rename Himg into H1.
  unfold row_info. wp_steps.
  destruct (row_get df row nc) as [name|h] eqn:Hname; [|apply Hsame, H1].
  wp_steps.
  destruct (row_get df row pc) as [c|h] eqn:Hc;
    [|apply Hsame, Hemit; [exact Logic.I | exact H1]].
  wp_steps.
  destruct (except_ValueError _ _) as [pv|h] eqn:Hpv;
    [|apply Hsame, Hemit; [exact Logic.I | exact H1]].
  wp_steps.
  destruct (py_int pv) as [z|h] eqn:Hz;
    [|apply Hsame, Hemit; [exact Logic.I | exact H1]].
  wp_steps. unfold row_add. wp_steps.
  match goal with
  | |- wp _ _ _ (shown ?w0 _) =>
      assert (H2 : Same w0) by (repeat apply Hemit; try exact Logic.I; exact H1);
      revert H2; generalize w0; clear w1 H1; intros w1 H1
  end.
  destruct H1 as (Hs & Hf & Hb).
  destruct (pressed inp (BtnAdd idx)) eqn:Hp.
  - (* the click: the item goes into the cart *)
    assert (Hitem : exists p, py_float pv = Ok p).
    { destruct pv as [k|f]; [|eexists; reflexivity].
      revert Hpv. destruct (float_of_cell c) as [f|[|[]]];
        cbn [rbind except_ValueError]; try discriminate.
      intros [= <-]. exists 0%float. reflexivity. }
    destruct Hitem as [p Hpf].
    assert (Hurl : forall w0,
               match ic with
               | Some c0 => x <- lift (row_get df row c0) ;; ret (Some x)
               | None => ret None
               end w0 = (Ok (row_image_url df ic row), w0)).
    { intros w0. unfold row_image_url. destruct ic as [c0|]; [|reflexivity].
      destruct (Hcell c0 eq_refl) as [x Hx]. unfold bind, lift. rewrite Hx.
      reflexivity. }
    wp_steps. rewrite Hname. wp_steps.
    apply wp_bind. unfold wp at 1. rewrite Hurl. cbv beta iota.
    unfold add_to_cart. wp_steps. rewrite Hpf. wp_steps.
    split; [exact Hf|]. split.
    + intros b Hin. cbn [shown with_session screen] in Hin.
      apply in_append in Hin. destruct Hin as [Hin|Heq]; [|discriminate].
      apply in_append in Hin. destruct Hin as [Hin|Heq]; [|discriminate].
      apply in_append in Hin.
      destruct Hin as [Hin|Heq]; [left; auto | right; congruence].
    + right. split; [exact Hp|].
      eexists. split.
      * unfold row_item. rewrite Hname, Hc. cbn [rbind]. rewrite Hpv.
        cbn [rbind]. rewrite Hz. cbn [rbind]. rewrite Hpf. reflexivity.
      * cbn [shown with_session session]. rewrite Hs. reflexivity.
  - wp_steps. split; [exact Hf|]. split.
    + intros b Hin. cbn [shown screen] in Hin.
      apply in_append in Hin. destruct Hin as [Hin|Heq]; [|discriminate].
      apply in_append in Hin.
      destruct Hin as [Hin|Heq]; [left; auto | right; congruence].
    + left. split; [exact Hs|]. rewrite Hp. discriminate.
Qed.

(** The loop over the rows, in a run that a click on the button of row [i]
    triggered, if a click on such a button did. *)
Section Rows.

Variable i : nat.
Hypothesis one_click : forall idx, pressed inp (BtnAdd idx) = true -> idx = i.

Variable df : DataFrame.
Variables nc pc : string.
Variable ic : option string.

Lemma rows_effect_refl first rows w :
  rows_effect inp df nc pc ic i first rows w w.
Proof.
  split; [reflexivity|]. split; [auto|]. left. auto.
Qed.

Lemma rows_effect_halt first row rest w w1 :
  row_effect inp df nc pc ic first row w w1 ->
  rows_effect inp df nc pc ic i first (row :: rest) w w1.
Proof.
  intros (Hf & Hb & Hs). split; [exact Hf|]. split.
  { intros b Hin. destruct (Hb b Hin) as [H | ->]; [left; exact H|].
    right. exists first. reflexivity. }
  destruct Hs as [[Hs Hshown] | (Hp & item & Hitem & Hs)].
  - left. split; [exact Hs|]. intros Hp Hin.
    destruct (Hb _ Hin) as [H|Heq]; [exact H|].
    injection Heq as ->. apply Hshown; assumption.
  - right. apply one_click in Hp. subst first.
    exists row, item. rewrite Nat.sub_diag. auto.
Qed.

Lemma rows_effect_step first row rest w w1 w' :
  row_effect inp df nc pc ic first row w w1 ->
  rows_effect inp df nc pc ic i (S first) rest w1 w' ->
  rows_effect inp df nc pc ic i first (row :: rest) w w'.
Proof.
  intros Hrow (Hf' & Hb' & Hs').
  pose proof (rows_effect_halt first row rest w w1 Hrow) as (Hf & Hb & Hs).
  split; [congruence|]. split.
  { intros b Hin. destruct (Hb' b Hin) as [H|H]; [auto | right; exact H]. }
  destruct Hs' as [[Hs' Hshown'] | (row' & item' & Hle & Hnth & Hitem & Hs')].
  - destruct Hs as [[Hs Hshown] | (row0 & item & Hle & Hnth & Hitem & Hs)].
    + left. split; [congruence | auto].
    + right. exists row0, item. rewrite Hs'. auto.
  - destruct Hrow as (_ & _ & [[Hs1 _] | (Hp & _)]).
    + right. exists row', item'. rewrite Hs1 in Hs'.
      replace (i - first)%nat with (S (i - S first)) by lia.
      split; [lia|]. auto.
    + apply one_click in Hp. lia.
Qed.

Lemma catalog_rows_effect rows : forall first w,
  wp (for_each (shop_row inp df nc pc ic)
               (combine (seq first (List.length rows)) rows))
     (fun _ => rows_effect inp df nc pc ic i first rows w)
     (fun _ => rows_effect inp df nc pc ic i first rows w) w.
Proof.
  induction rows as [|row rest IH]; intros first w.
  - apply rows_effect_refl.
  - cbn [List.length seq combine for_each]. apply wp_bind.
    apply (wp_mono _ _ _ _ _ _ (shop_row_effect df nc pc ic first row w)).
    + intros _ w1 Hrow.
      apply (wp_mono _ _ _ _ _ _ (IH (S first) w1));
        intros _ w' Hrest; exact (rows_effect_step _ _ _ _ _ _ Hrow Hrest).
    + intros h w1 Hrow. apply rows_effect_halt, Hrow.
Qed.

End Rows.

(** Column resolution in front of a continuation. *)
Lemma wp_bind_get_column_name {B} (I : world -> Prop) df kor eng label
  (k : string -> script B) Q E w :
  emit_stable (shows_only no_button) I -> I w ->
  (forall h w', I w' -> E h w') ->
  wp (k (resolved df kor eng)) Q E w ->
  wp (bind (get_column_name df kor eng label) k) Q E w.
Proof.
  intros He Hw HE Hk. apply wp_bind. unfold get_column_name, resolved in *.
  destruct (has_column df kor); [exact Hk|].
  destruct (has_column df eng); [exact Hk|].
  wp_steps. apply HE, He; [exact Logic.I | exact Hw].
Qed.

(** Loading the catalog in front of a continuation. *)
Lemma wp_bind_load_products {B} (I : world -> Prop) path
  (k : DataFrame -> script B) Q E w :
  emit_stable (shows_only no_button) I -> I w ->
  (forall df w', I w' ->
     read_csv inp path = CsvData df \/
     (read_csv inp path = FileNotFound /\ df = empty_frame) ->
     wp (k df) Q E w') ->
  wp (bind (load_products inp path) k) Q E w.
Proof.
  intros He Hw Hk. apply wp_bind. unfold load_products.
  destruct (read_csv inp path) as [|df] eqn:Hcsv.
  - wp_steps. apply Hk; [apply He; [exact Logic.I | exact Hw]|].
    right. auto.
  - apply wp_ret. apply Hk; [exact Hw|]. left. reflexivity.
Qed.

(** The shopping screen, cut around the loop over the catalog: [I] holds up
    to the loop, [J] from the loop to the two buttons, and [Q] at the end,
    wherever the end is. *)
Lemma shop_page_hoare_rows (I J Q : world -> Prop) :
  emit_stable (shows_only (fun b => b = BtnShopGuardBack)) I ->
  emit_stable (shows_only no_button) J ->
  (forall w, I w -> Q w) ->
  (forall w, J w -> Q w) ->
  (pressed inp BtnShopGuardBack = true ->
   forall w, I w -> Q (with_session w (with_page (session w) "mission"))) ->
  (forall df,
     read_csv inp "products.csv" = CsvData df ->
     df_empty df = false ->
     hoare I
       (for_each (shop_row inp df (resolved df "품명" "name")
                    (resolved df "가격" "price") (image_column df))
                 (iterrows df))
       (fun _ => J) (fun _ => Q)) ->
  (forall c, hoare (fun w => J w /\ cart (session w) = c)
                   (shop_back inp ;; shop_checkout inp c)
                   (fun _ => Q) (fun _ => Q)) ->
  hoare I (show_shop_page inp) (fun _ => Q) (fun _ => Q).
Proof.
  intros I_emit J_emit IQ JQ I_guard I_rows J_tail.
  assert (Hpas : emit_stable (shows_only no_button) I).
  { eapply emit_stable_mono; [|exact I_emit]. intros b []. }
  pose proof (maintains_show I Hpas) as Hshow.
  pose proof (maintains_show J J_emit) as Jshow.
  intros w Hw. unfold show_shop_page.
  wp_cut Hw; [apply Hshow; exact Logic.I|].
  wp_cut Hw; [apply Hshow; exact Logic.I|].
  wp_steps. wp_case.
  - wp_cut Hw; [apply Hshow; exact Logic.I|].
    wp_steps. cbn [py_int].
    wp_cut Hw; [apply Hshow; exact Logic.I|].
    apply (wp_bind_load_products I); [exact Hpas | exact Hw |].
    clear Hw. intros df w2 Hw Hcsv.
    wp_case; [apply IQ, Hw|].
    destruct Hcsv as [Hcsv | [_ ->]]; [|discriminate].
    apply (wp_bind_get_column_name I); [exact Hpas | exact Hw | auto |].
    apply (wp_bind_get_column_name I); [exact Hpas | exact Hw | auto |].
    cbv zeta.
    wp_cut Hw; [apply Hshow; exact Logic.I|].
    apply wp_bind.
    eapply wp_hoare; [apply (I_rows df Hcsv); assumption | exact Hw | | auto].
    clear Hw. cbn beta. intros _ w1 Hw.
    wp_cut Hw; [apply Jshow; exact Logic.I|].
    wp_steps. cbv zeta.
    match goal with
    | |- wp _ _ _ ?w0 =>
        eapply wp_bind_maintains
          with (I := fun w => J w /\ cart (session w) = cart (session w0))
    end.
    + apply shop_cart_summary_maintains.
      intros w0 e He [H1 H2]. split; [apply J_emit; assumption | exact H2].
    + split; [exact Hw | reflexivity].
    + intros h w0 [H1 _]. apply JQ, H1.
    + intros _ w0 Hw0. apply (J_tail _ w0 Hw0).
  - wp_cut Hw; [apply Hshow; exact Logic.I|].
    wp_steps.
    match goal with
    | |- wp _ _ _ (shown ?w0 _) =>
        assert (Hb : I (shown w0 (StButton BtnShopGuardBack)))
          by (apply I_emit; [reflexivity | exact Hw])
    end.
    destruct (pressed inp BtnShopGuardBack) eqn:Hp; [|apply IQ, Hb].
    wp_steps. apply (I_guard eq_refl _ Hb).
Qed.

End RowEffect.

(** A run of the shopping screen that a click on the button of row [i]
    triggered. *)
Lemma shop_page_add_click `{Runtime} inp s fs i :
  page s = "shop" ->
  clicked inp = Some (BtnAdd i) ->
  let w' := snd (run inp s fs) in
  files w' = fs
  /\ (session w' = s \/ clicked_row_added inp i s (session w'))
  /\ (In (StButton (BtnAdd i)) (screen w') ->
      clicked_row_added inp i s (session w')).
Proof.
  intros Hpage Hclick w'.
  set (I := fun w : world =>
              session w = s /\ files w = fs
              /\ forall b, In (StButton b) (screen w) -> b = BtnShopGuardBack).
  set (J := fun w : world =>
              files w = fs
              /\ ((session w = s /\ ~ In (StButton (BtnAdd i)) (screen w))
                  \/ clicked_row_added inp i s (session w))).
  set (Q := fun w : world =>
              files w = fs
              /\ (session w = s \/ clicked_row_added inp i s (session w))
              /\ (In (StButton (BtnAdd i)) (screen w) ->
                  clicked_row_added inp i s (session w))).
  assert (JQ : forall w, J w -> Q w).
  { intros w (Hf & [[Hs Hn] | Ha]); (split; [exact Hf|]); split; auto.
    intros Hin. destruct (Hn Hin). }
  change (Q w'). unfold w', run. rewrite main_shop by exact Hpage.
  apply wp_snd. apply (shop_page_hoare_rows inp I J Q).
  - intros w e He (Hs & Hf & Hb). split; [exact Hs|]. split; [exact Hf|].
    intros b Hin. cbn [shown screen] in Hin. apply in_append in Hin.
    destruct Hin as [Hin|Heq]; [auto|]. subst e. exact He.
  - intros w e He (Hf & Hs). split; [exact Hf|].
    destruct Hs as [[Hs Hn] | Ha]; [left|right; exact Ha].
    split; [exact Hs|]. intros Hin. cbn [shown screen] in Hin.
    apply in_append in Hin. destruct Hin as [Hin|Heq]; [auto|].
    subst e. destruct He.
  - intros w (Hs & Hf & Hb). split; [exact Hf|]. split; [left; exact Hs|].
    intros Hin. apply Hb in Hin. discriminate.
  - exact JQ.
  - rewrite (pressed_other inp _ _ Hclick) by reflexivity. discriminate.
  - intros df Hcsv Hne w (Hs & Hf & Hb).
    assert (Hw : J (snd (for_each
                           (shop_row inp df (resolved df "품명" "name")
                              (resolved df "가격" "price") (image_column df))
                           (iterrows df) w))).
    { apply wp_snd.
      apply (wp_mono _ _ _ _ _ _
               (catalog_rows_effect inp i
                  (fun idx => pressed_add_index inp i idx Hclick)
                  df _ _ _ (rows df) 0%nat w));
        intros _ w1 (Hf1 & Hb1 & Hs1); (split; [congruence|]);
        (destruct Hs1 as [[Hs1 Hshown] | (row & item & _ & Hnth & Hitem & Hs1)];
         [ left; split; [congruence|]; intros Hin;
           assert (Hp : pressed inp (BtnAdd i) = true)
             by (unfold pressed; rewrite Hclick; apply Nat.eqb_refl);
           specialize (Hb _ (Hshown Hp Hin)); discriminate
         | right; exists df, row, item; rewrite Nat.sub_0_r in Hnth;
           rewrite Hs1, Hs; auto ]). }
    revert Hw. unfold wp, iterrows.
    destruct (for_each _ _ w) as [[a|h] w1]; cbn [snd]; auto.
  - intros c w [(Hf & Hs) _]. unfold shop_back, shop_checkout.
    wp_click Hclick. split; [exact Hf|].
    cbn [shown session screen].
    destruct Hs as [[Hs Hn] | Ha]; (split; [auto|]); [|auto].
    intros Hin. apply in_append in Hin.
    destruct Hin as [Hin|Heq]; [|discriminate].
    apply in_append in Hin.
    destruct Hin as [Hin|Heq]; [|discriminate]. destruct (Hn Hin).
  - unfold I. cbn. split; [reflexivity|]. split; [reflexivity|]. intros b [].
Qed.

(** What a click that is not on an add button can do on the shopping
    screen. *)
Lemma shop_page_other_click `{Runtime} inp s fs :
  page s = "shop" ->
  ~ adds inp ->
  let w' := snd (run inp s fs) in
  files w' = fs
  /\ (session w' = s
      \/ session w' = with_page s "mission"
      \/ (cart s <> [] /\ session w' = with_page s "result")).
Proof.
  intros Hpage Hadds w'.
  set (I := fun w : world => session w = s /\ files w = fs).
  set (Q := fun w : world =>
              files w = fs
              /\ (session w = s
                  \/ session w = with_page s "mission"
                  \/ (cart s <> [] /\ session w = with_page s "result"))).
  change (Q w'). unfold w', run. rewrite main_shop by exact Hpage.
  apply wp_snd. apply (shop_page_hoare inp I Q).
  - intros w e _ Hw. exact Hw.
  - intros Ha. destruct (Hadds Ha).
  - intros w [Hs Hf]. split; auto.
  - intros _ w [Hs Hf]. split; [exact Hf|].
    cbn [with_session session]. rewrite Hs. auto.
  - intros c w [[Hs Hf] Hc]. unfold shop_back, shop_checkout. wp_steps.
    destruct (pressed inp BtnShopBack) eqn:Hback.
    + apply pressed_clicked in Hback. wp_click Hback. split; [exact Hf|].
      cbn [shown with_session session]. rewrite Hs. auto.
    + wp_steps. destruct (pressed inp BtnCheckout); [|split; auto].
      destruct c as [|item c]; wp_steps; (split; [exact Hf|]); auto.
      cbn [shown with_session session]. rewrite Hs.
      right. right. split; [|reflexivity].
      rewrite <- Hs, Hc. discriminate.
  - split; reflexivity.
Qed.

(** X1. A click on the button of row [i] of the catalog writes no file and
    changes the session in one way at most: the entry of that row, with its
    name, its price as a float and its image cell, is appended to the cart,
    once.  This is what happened whenever the run got as far as showing
    that button, and the price of the entry is then finite. *)
Theorem add_click_adds_the_clicked_row `{Runtime}
  (inp : inputs) (s : SessionState) (fs : list png_file) (i : nat) :
  page s = "shop" ->
  clicked inp = Some (BtnAdd i) ->
  let w' := snd (run inp s fs) in
  files w' = fs
  /\ (session w' = s \/ clicked_row_added inp i s (session w'))
  /\ (In (StButton (BtnAdd i)) (screen w') ->
      clicked_row_added inp i s (session w'))
  /\ (forall item, cart (session w') = append (cart s) item ->
      finite_price item = true).
Proof.
  intros Hpage Hclick w'.
  destruct (shop_page_add_click inp s fs i Hpage Hclick) as (Hf & Hs & Hb).
  fold w' in Hf, Hs, Hb.
  split; [exact Hf|]. split; [exact Hs|]. split; [exact Hb|].
  intros item Hc.
  destruct Hs as [Hs | (df & row & item' & _ & _ & Hitem & Hs)].
  - rewrite Hs in Hc. exfalso. apply (f_equal (@List.length _)) in Hc.
    unfold append in Hc. rewrite length_app in Hc. simpl in Hc. lia.
  - rewrite Hs in Hc. cbn [with_cart cart] in Hc. unfold append in Hc.
    apply app_inj_tail in Hc. destruct Hc as [_ <-].
    apply (row_item_finite _ _ _ _ _ _ Hitem).
Qed.

(** X2. When the catalog file is missing, the shopping screen shows the
    error of [load_products] under the mission and the budget and ends
    there: it shows no product and no button, not even the one that leads
    back, and the session and the files stay as they were. *)
Theorem missing_catalog_file_ends_the_screen `{Runtime}
  (inp : inputs) (s : SessionState) (fs : list png_file) (m : string) :
  page s = "shop" ->
  mission s = Some m ->
  read_csv inp "products.csv" = FileNotFound ->
  run inp s fs
  = (Ok tt,
     {| session := s;
        screen := [ StTitle "🛒 쇼핑 화면";
                    StSubheader "2. 물품 선택하기";
                    StWrite ("**현재 미션:** " ++ m);
                    StWrite ("**예산:** " ++ format_thousands (budget s) ++ "원");
                    StError missing_file_message ];
        files := fs |}).
Proof.
  intros Hpage Hm Hcsv.
  unfold run. rewrite main_shop by exact Hpage.
  unfold show_shop_page, load_products.
  do 3 script_step. cbn [session]. rewrite Hm.
  do 3 script_step. rewrite Hcsv. do 2 script_step. reflexivity.
Qed.

(** X3. A click on the checkout button while the cart holds an item changes
    nothing but the page, which is "result" once the run has shown the
    button: the budget is not looked at, so a cart over the budget goes
    through as well. *)
Theorem checkout_with_items_opens_the_result `{Runtime}
  (inp : inputs) (s : SessionState) (fs : list png_file) :
  page s = "shop" ->
  cart s <> [] ->
  clicked inp = Some BtnCheckout ->
  let w' := snd (run inp s fs) in
  (session w' = s \/ session w' = with_page s "result")
  /\ files w' = fs
  /\ (In (StButton BtnCheckout) (screen w') ->
      session w' = with_page s "result").
Proof.
  intros Hpage Hcart Hclick w'.
  set (Q := fun w : world =>
              (session w = s \/ session w = with_page s "result")
              /\ files w = fs
              /\ (In (StButton BtnCheckout) (screen w) ->
                  session w = with_page s "result")).
  set (I := fun w : world =>
              session w = s /\ files w = fs /\
              ~ In (StButton BtnCheckout) (screen w)).
  change (Q w'). unfold w', run. rewrite main_shop by exact Hpage.
  apply wp_snd. apply (shop_page_hoare inp I Q).
  - intros w e He (Hs & Hf & Hb). repeat split; auto.
    cbn [shown screen]. intros Hin. apply in_append in Hin.
    destruct Hin as [Hin | Heq]; [exact (Hb Hin)|].
    subst e. destruct He as [_ He]. apply He. reflexivity.
  - intros Ha. exfalso. revert Ha.
    apply (click_not_adds inp _ Hclick). discriminate.
  - intros w (Hs & Hf & Hb). repeat split; auto.
    intros Hin. destruct (Hb Hin).
  - rewrite (click_pressed inp _ _ Hclick). discriminate.
  - intros c w [(Hs & Hf & Hb) Hc].
    assert (Hne : c <> []) by (rewrite <- Hc, Hs; exact Hcart).
    unfold shop_back, shop_checkout. wp_click Hclick.
    destruct c as [|item c]; [destruct Hne; reflexivity|].
    wp_steps. unfold Q. cbn [shown with_session session files screen].
    rewrite Hs. auto.
  - unfold I. cbn. auto.
Qed.

(** X4. A row whose price converts to a float that is not finite ends the
    run after its name: [int] raises [ValueError] on a NaN, which is what a
    missing price is, and [OverflowError] on an infinity, both outside the
    [try]; the button of the row is not shown and nothing is added. *)
Theorem price_that_is_not_finite_halts_the_row `{Runtime}
  (inp : inputs) (df : DataFrame) (name_col price_col : string)
  (image_col : option string) (idx : nat) (row : list cell)
  (w w1 : world) (name price_cell : cell) (f : float) :
  row_image inp df image_col row w = (Ok tt, w1) ->
  row_get df row name_col = Ok name ->
  row_get df row price_col = Ok price_cell ->
  float_of_cell price_cell = Ok f ->
  finite_float f = false ->
  shop_row inp df name_col price_col image_col (idx, row) w
  = (Halt (Uncaught (int_error f)),
     shown w1 (StMarkdown ("**" ++ py_str name ++ "**"))).
Proof.
  intros Himg Hname Hprice Hfloat Hfin.
  unfold shop_row. rewrite (bind_ok _ _ _ _ _ Himg).
  apply bind_halt. unfold row_info. rewrite Hname, Hprice.
  do 3 script_step. rewrite Hfloat.
  cbn [rbind except_ValueError]. script_step.
  apply bind_halt. unfold lift. cbn [py_int].
  unfold int_of_float, int_error. unfold finite_float in Hfin.
  destruct (Prim2SF f); try discriminate; reflexivity.
Qed.

Lemma index_of_found col cols :
  existsb (String.eqb col) cols = true ->
  exists i, index_of col cols = Some i /\ (i < List.length cols)%nat.
Proof.
  induction cols as [|c cols IH]; [discriminate|].
  cbn [existsb index_of List.length].
  destruct (String.eqb col c).
  - intros _. exists 0%nat. split; [reflexivity | lia].
  - cbn [orb]. intros Hex. destruct (IH Hex) as (i & -> & Hi).
    exists (S i). split; [reflexivity | lia].
Qed.

Lemma row_get_found df row col :
  has_column df col = true ->
  List.length row = List.length (columns df) ->
  exists c, row_get df row col = Ok c.
Proof.
  intros Hcol Hlen. unfold row_get.
  destruct (index_of_found col (columns df) Hcol) as (i & -> & Hi).
  destruct (nth_error row i) as [c|] eqn:Hnth; [exists c; reflexivity|].
  apply nth_error_None in Hnth. lia.
Qed.

(** X5. When column resolution returns, it has shown nothing, and the name
    it returns is a column of the frame: the Korean spelling if the frame
    has it, else the English one.  Looking that column up in a row that has
    a cell for every column of the frame does not raise. *)
Theorem resolved_column_is_in_every_row
  (df : DataFrame) (kor eng label : string) (w w' : world) (col : string) :
  get_column_name df kor eng label w = (Ok col, w') ->
  w' = w
  /\ col = resolved df kor eng
  /\ has_column df col = true
  /\ forall row,
       List.length row = List.length (columns df) ->
       exists c, row_get df row col = Ok c.
Proof.
  unfold get_column_name, resolved.
  destruct (has_column df kor) eqn:Hk.
  - intros [= <- <-]. repeat split; auto. intros row. apply row_get_found, Hk.
  - destruct (has_column df eng) eqn:He; [|discriminate].
    intros [= <- <-]. repeat split; auto. intros row. apply row_get_found, He.
Qed.

(* ===================================================================== *)
(** * The mission screen, and the screens without a mission *)
(* ===================================================================== *)

(** Whatever the position of the radio group, the label it returns is a key
    of [MISSIONS]. *)
Lemma selected_mission_In inp :
  exists amount, In (selected_mission inp, amount) MISSIONS.
Proof.
  unfold selected_mission. destruct (radio_index inp) as [|[|[|n]]].
  - exists 10000. simpl. auto.
  - exists 20000. simpl. auto.
  - exists 30000. simpl. auto.
  - exists 10000. cbn [dict_keys MISSIONS map fst nth hd].
    destruct n; simpl; auto.
Qed.

Lemma mission_page_run inp w :
  exists amount,
    In (selected_mission inp, amount) MISSIONS
    /\ show_mission_page inp w
       = (Ok tt,
          {| session := if pressed inp BtnMissionDone
                        then confirmed (session w) (selected_mission inp) amount
                        else session w;
             screen := (screen w ++ mission_screen (selected_mission inp) amount)%list;
             files := files w |}).
Proof.
  destruct (selected_mission_In inp) as [amount Hin].
  exists amount. split; [exact Hin|].
  apply MISSIONS_get in Hin.
  unfold show_mission_page, st_radio, st_button, bind, emit, ret, lift.
  cbn [session screen files]. fold (selected_mission inp). rewrite Hin.
  unfold mission_screen, append. rewrite <- !app_assoc. cbn [app].
  destruct (pressed inp BtnMissionDone); reflexivity.
Qed.

(** On a page [main] does not know, the run is the one of the mission
    screen. *)
Lemma main_fallback `{Runtime} inp s fs :
  page s <> "shop" -> page s <> "result" ->
  run inp s fs = run inp (with_page s "mission") fs.
Proof.
  intros H2 H3. destruct (String.eqb_spec (page s) "mission") as [Hp|H1].
  - replace (with_page s "mission") with s; [reflexivity|].
    destruct s; cbn in *; subst; reflexivity.
  - unfold run.
    rewrite (main_mission inp {| session := with_page s "mission" |})
      by reflexivity.
    unfold main, bind, session_state. cbn [session].
    apply String.eqb_neq in H1, H2, H3. rewrite H1, H2, H3. reflexivity.
Qed.

Lemma mission_page_files `{Runtime} inp s fs :
  page s <> "shop" -> page s <> "result" ->
  files (snd (run inp s fs)) = fs.
Proof.
  intros Hshop Hres. rewrite main_fallback by assumption.
  unfold run. rewrite main_mission by reflexivity.
  destruct (mission_page_run inp
              {| session := with_page s "mission"; screen := []; files := fs |})
    as (amount & _ & ->).
  reflexivity.
Qed.

(** X6. On the mission screen, and on any page that is neither "shop" nor
    "result", which [main] turns into the mission screen, the run never
    fails, whatever position the radio group reports: the label it returns
    is a key of [MISSIONS].  The run shows the six elements of the screen
    with that label and its amount, writes no file, and changes the session
    only when the button was clicked. *)
Theorem mission_screen_never_fails `{Runtime}
  (inp : inputs) (s : SessionState) (fs : list png_file) :
  page s <> "shop" ->
  page s <> "result" ->
  exists amount,
    In (selected_mission inp, amount) MISSIONS
    /\ run inp s fs
       = (Ok tt,
          {| session := if pressed inp BtnMissionDone
                        then confirmed s (selected_mission inp) amount
                        else with_page s "mission";
             screen := mission_screen (selected_mission inp) amount;
             files := fs |}).
Proof.
  intros Hshop Hres. rewrite main_fallback by assumption.
  unfold run. rewrite main_mission by reflexivity.
  destruct (mission_page_run inp
              {| session := with_page s "mission"; screen := []; files := fs |})
    as (amount & Hin & ->).
  exists amount. split; [exact Hin|]. reflexivity.
Qed.

(** X7. Without a selected mission, the shopping screen and the result
    screen show their title, a warning and one button, and nothing else; a
    click on that button sets the page to "mission". *)
Theorem screens_without_a_mission_offer_the_way_back `{Runtime}
  (inp : inputs) (s : SessionState) (fs : list png_file) :
  mission s = None ->
  (page s = "shop" ->
   run inp s fs
   = (Ok tt,
      {| session := if pressed inp BtnShopGuardBack
                    then with_page s "mission" else s;
         screen := [ StTitle "🛒 쇼핑 화면";
                     StSubheader "2. 물품 선택하기";
                     StWarning "먼저 미션을 선택해주세요.";
                     StButton BtnShopGuardBack ];
         files := fs |}))
  /\ (page s = "result" ->
      run inp s fs
      = (Ok tt,
         {| session := if pressed inp BtnResultGuardBack
                       then with_page s "mission" else s;
            screen := [ StTitle "📋 결과 화면";
                        StSubheader "3. 구매 결과 확인 및 이유 작성";
                        StWarning "먼저 미션을 선택하고 쇼핑을 완료해주세요.";
                        StButton BtnResultGuardBack ];
            files := fs |})).
Proof.
  intros Hm. split; intros Hpage; unfold run.
  - rewrite main_shop by exact Hpage. unfold show_shop_page.
    do 3 script_step. cbn [session]. rewrite Hm.
    unfold st_button. do 2 script_step.
    destruct (pressed inp BtnShopGuardBack); reflexivity.
  - rewrite main_result by exact Hpage. unfold show_result_page.
    do 3 script_step. cbn [session]. rewrite Hm.
    unfold st_button. do 2 script_step.
    destruct (pressed inp BtnResultGuardBack); reflexivity.
Qed.

(* ===================================================================== *)
(** * The result screen: going back, submitting, the image *)
(* ===================================================================== *)

(** What a run of the result screen can do to the session and the files. *)
Lemma result_page_click `{Runtime} inp s fs :
  page s = "result" ->
  let w' := snd (run inp s fs) in
  let t := justification inp s in
  (session w' = s
   \/ session w' = with_page s "mission"
   \/ session w' = with_reason s t
   \/ session w' = with_page (with_reason s t) "shop")
  /\ (files w' = fs
      \/ (pressed inp BtnSubmit = true
          /\ blank t = false
          /\ exists f,
               files w' = f :: fs
               /\ png_path f
                  = "submissions/submission_" ++ timestamp inp ++ ".png")).
Proof.
  intros Hpage w' t.
  set (I := fun w : world => session w = s /\ files w = fs).
  set (Written := fun w : world =>
                    pressed inp BtnSubmit = true
                    /\ blank t = false
                    /\ exists f,
                         files w = f :: fs
                         /\ png_path f
                            = "submissions/submission_" ++ timestamp inp ++ ".png").
  set (Q := fun w : world =>
              (session w = s
               \/ session w = with_page s "mission"
               \/ session w = with_reason s t
               \/ session w = with_page (with_reason s t) "shop")
              /\ (files w = fs \/ Written w)).
  change (Q w'). unfold w', run. rewrite main_result by exact Hpage.
  apply wp_snd. apply (result_page_hoare inp I Q).
  - intros w e _ Hw. exact Hw.
  - intros w [Hs Hf]. split; auto.
  - intros _ w [Hs Hf]. split; [|auto].
    cbn [with_session session]. rewrite Hs. auto.
  - intros s0 w [[Hs Hf] Hs0]. rewrite Hs in Hs0. subst s0.
    wp_steps. cbv zeta. fold (justification inp s). fold t.
    set (K := fun w : world =>
                (session w = with_reason s t
                 \/ session w = with_page (with_reason s t) "shop")
                /\ files w = fs).
    set (K' := fun w : world =>
                 (session w = with_reason s t
                  \/ session w = with_page (with_reason s t) "shop")
                 /\ Written w).
    assert (KQ : forall w, K w -> Q w).
    { intros w0 [[Hk|Hk] Hkf]; split; auto. }
    assert (KQ' : forall w, K' w -> Q w).
    { intros w0 [[Hk|Hk] Hkf]; split; auto. }
    wp_invariant H1 K ltac:(split; [left; cbn [shown with_session session];
                                    rewrite Hs; reflexivity
                                   | exact Hf]).
    unfold result_back. wp_steps.
    destruct (pressed inp BtnResultBack); wp_steps;
      (wp_invariant H2 K ltac:(
         destruct H1 as [[H1|H1] H1f]; (split; [|exact H1f]);
         cbn [shown with_session session]; rewrite H1; auto));
      unfold result_submit; wp_steps;
      (destruct (pressed inp BtnSubmit) eqn:Hsub; [|apply KQ, H2]);
      wp_steps; (wp_case; [wp_steps; apply KQ, H2|]);
      apply wp_bind; unfold wp at 1; rewrite create_submission_png_file;
      (destruct (submission_lines _ _ _ _) as [lines|h]; [|apply KQ, H2]);
      cbv beta iota;
      (wp_invariant H3 K' ltac:(
         destruct H2 as [H2 H2f]; split; [exact H2|];
         split; [reflexivity|]; split;
         [ match goal with
           | Hb : blank _ = false |- _ =>
               cbn [shown session] in Hb;
               destruct H2 as [H2|H2]; rewrite H2 in Hb; exact Hb
           end
         | cbn [files shown]; rewrite H2f; eexists;
           split; reflexivity ]));
      (wp_cut H3; [apply read_file_maintains|]);
      wp_steps; apply KQ', H3.
  - split; reflexivity.
Qed.

Lemma last_append {A} (l : list A) (x d : A) : last (append l x) d = x.
Proof. unfold append. apply last_last. Qed.

(** X8. The back button of the result screen keeps the mission, the budget
    and the cart, stores the text of the text area as the justification and
    sets the page to "shop"; it writes no file. *)
Theorem result_back_returns_to_the_shop `{Runtime}
  (inp : inputs) (s : SessionState) (fs : list png_file) :
  page s = "result" ->
  clicked inp = Some BtnResultBack ->
  let w' := snd (run inp s fs) in
  let t := justification inp s in
  (session w' = s \/ session w' = with_page (with_reason s t) "shop")
  /\ files w' = fs
  /\ (In (StButton BtnResultBack) (screen w') ->
      session w' = with_page (with_reason s t) "shop").
Proof.
  intros Hpage Hclick w' t.
  set (Q := fun w : world =>
              (session w = s \/ session w = with_page (with_reason s t) "shop")
              /\ files w = fs
              /\ (In (StButton BtnResultBack) (screen w) ->
                  session w = with_page (with_reason s t) "shop")).
  set (I := fun w : world =>
              session w = s /\ files w = fs /\
              ~ In (StButton BtnResultBack) (screen w)).
  change (Q w'). unfold w', run. rewrite main_result by exact Hpage.
  apply wp_snd. apply (result_page_hoare inp I Q).
  - intros w e He (Hs & Hf & Hb). repeat split; auto.
    cbn [shown screen]. intros Hin. apply in_append in Hin.
    destruct Hin as [Hin | Heq]; [exact (Hb Hin)|].
    subst e. simpl in He. discriminate.
  - intros w (Hs & Hf & Hb). unfold Q. repeat split; auto.
    intros Hin. destruct (Hb Hin).
  - rewrite (click_pressed inp _ _ Hclick). discriminate.
  - intros s0 w [(Hs & Hf & Hb) Hs0]. rewrite Hs in Hs0. subst s0.
    unfold result_back, result_submit. wp_click Hclick. cbv zeta.
    wp_click Hclick.
    unfold Q. cbn [shown with_session session files screen]. rewrite Hs.
    fold (justification inp s). fold t. auto.
  - unfold I. cbn. auto.
Qed.

(** X9. A click on the submit button with a justification that is not blank
    and a cart whose prices are finite: once the run has shown the button,
    it has saved one image, whose lines are the display lines of the
    mission, the budget, the cart and the text of the text area; the
    session has that text as its justification and is otherwise unchanged,
    the page included; and the last element on the screen is the download
    button, which offers that very image under the base name of its
    path. *)
Theorem submit_saves_and_offers_the_image `{Runtime}
  (inp : inputs) (s : SessionState) (fs : list png_file) (ps : list Z) :
  page s = "result" ->
  clicked inp = Some BtnSubmit ->
  blank (justification inp s) = false ->
  truncated_prices (cart s) = Ok ps ->
  let w' := snd (run inp s fs) in
  let t := justification inp s in
  let file :=
    submission_file inp
      (display_lines (str_of_mission (mission s)) (budget s)
         (combine (map (fun item => py_str (item_name item)) (cart s)) ps) t) in
  (files w' = fs \/ files w' = file :: fs)
  /\ (In (StButton BtnSubmit) (screen w') ->
      files w' = file :: fs
      /\ session w' = with_reason s t
      /\ last (screen w') (StTitle "") = download_button file).
Proof.
  intros Hpage Hclick Hblank Hps w' t file.
  set (Q := fun w : world =>
              (files w = fs \/ files w = file :: fs)
              /\ (In (StButton BtnSubmit) (screen w) ->
                  files w = file :: fs
                  /\ session w = with_reason s t
                  /\ last (screen w) (StTitle "") = download_button file)).
  set (I := fun w : world =>
              session w = s /\ files w = fs /\
              ~ In (StButton BtnSubmit) (screen w)).
  change (Q w'). unfold w', run. rewrite main_result by exact Hpage.
  apply wp_snd. apply (result_page_hoare inp I Q).
  - intros w e He (Hs & Hf & Hb). repeat split; auto.
    cbn [shown screen]. intros Hin. apply in_append in Hin.
    destruct Hin as [Hin | Heq]; [exact (Hb Hin)|].
    subst e. simpl in He. discriminate.
  - intros w (Hs & Hf & Hb). unfold Q. split; [left; exact Hf|].
    intros Hin. destruct (Hb Hin).
  - rewrite (click_pressed inp _ _ Hclick). discriminate.
  - intros s0 w [(Hs & Hf & Hb) Hs0]. rewrite Hs in Hs0. subst s0.
    unfold result_back, result_submit. wp_click Hclick. cbv zeta.
    wp_click Hclick.
    cbn [with_session shown session with_reason reason mission budget].
    fold (justification inp s). rewrite Hblank. fold t.
    apply wp_bind. unfold wp at 1. rewrite create_submission_png_file.
    rewrite submission_lines_display. cbn [truncated_budget rbind].
    rewrite Hs. cbn [cart mission budget]. rewrite Hps. cbn [rbind].
    fold file. cbv beta iota.
    apply wp_bind. unfold wp at 1. unfold read_file. cbn [files find].
    rewrite String.eqb_refl. cbv beta iota.
    wp_steps. unfold Q. cbn [shown with_session files session screen].
    split; [right; rewrite Hf; reflexivity|]. intros _.
    split; [rewrite Hf; reflexivity|]. split; [reflexivity|].
    apply last_append.
  - unfold I. cbn. auto.
Qed.

Lemma basename_join (dir name : string) :
  no_slash name = true -> basename (dir ++ "/" ++ name) = name.
Proof.
  unfold no_slash. intros Hn. apply negb_true_iff in Hn.
  induction dir as [|c dir IH].
  - cbn [String.append basename]. rewrite Hn. reflexivity.
  - cbn [String.append basename].
    replace (existsb (Ascii.eqb "/"%char)
               (list_ascii_of_string (dir ++ String "/"%char name)))
      with true; [exact IH|].
    symmetry. clear IH. induction dir as [|d dir IHd]; [reflexivity|].
    cbn [String.append list_ascii_of_string existsb]. rewrite IHd.
    apply orb_true_r.
Qed.

Lemma no_slash_app a b :
  no_slash a = true -> no_slash b = true -> no_slash (a ++ b) = true.
Proof.
  unfold no_slash. intros Ha Hb. induction a as [|c a IH]; [exact Hb|].
  cbn [String.append list_ascii_of_string existsb] in *.
  rewrite negb_orb in *. apply andb_true_iff in Ha. destruct Ha as [Hc Ha].
  rewrite Hc, IH by exact Ha. reflexivity.
Qed.

(** X10. The path the renderer returns is the file name, made of the time
    stamp, in the directory "submissions", and [os.path.basename] of that
    path gives the file name back: the download carries the name of the
    saved file without its directory.  (The time stamp has no slash: it is
    made of digits and an underscore.) *)
Theorem download_is_named_after_the_file `{Runtime}
  (inp : inputs) (label : string) (amount : pynum) (items : list CartItem)
  (text : string) (w w' : world) (path : string) :
  no_slash (timestamp inp) = true ->
  create_submission_png inp label amount items text w = (Ok path, w') ->
  path = "submissions/submission_" ++ timestamp inp ++ ".png"
  /\ basename path = "submission_" ++ timestamp inp ++ ".png".
Proof.
  intros Hts. rewrite create_submission_png_file.
  destruct (submission_lines label amount items text) as [lines|h];
    [|discriminate].
  intros [= <- _]. split; [reflexivity|].
  apply (basename_join "submissions").
  apply (no_slash_app "submission_"); [reflexivity|].
  apply no_slash_app; [exact Hts | reflexivity].
Qed.

Lemma draw_lines_inside margin line_height lines : forall y x y' line,
  0 <= line_height ->
  In (x, y', line) (draw_lines margin y line_height lines) ->
  x = margin
  /\ y <= y'
  /\ y' + line_height <= y + line_height * Z.of_nat (List.length lines).
Proof.
  induction lines as [|l lines IH]; intros y x y' line Hh Hin; [destruct Hin|].
  cbn [draw_lines List.length] in *. rewrite Nat2Z.inj_succ.
  destruct Hin as [Heq|Hin].
  - injection Heq as <- <- <-. split; [reflexivity|]. nia.
  - destruct (IH _ _ _ _ Hh Hin) as (Hx & Hy & Hy'). split; [exact Hx|]. nia.
Qed.

Lemma display_lines_length `{Runtime} label b items text :
  List.length (display_lines label b items text)
  = (6 + Nat.max 1 (List.length items) + List.length (reflow text))%nat.
Proof.
  unfold display_lines. rewrite !length_app.
  destruct items as [|item items]; cbn [List.length map]; [lia|].
  rewrite length_map. lia.
Qed.

(** X11. When the renderer returns, it has saved one more file, under the
    path it returns, with the lines it built: six fixed lines, one line per
    cart item (one for an empty cart) and the lines of the justification.
    The image is 800 wide, and its height grows with the number of lines so
    that every line, drawn at the left margin 40 and 30 under the line
    before, lies inside it, with room to spare under the last one. *)
Theorem saved_image_holds_every_line `{Runtime}
  (inp : inputs) (label : string) (amount : pynum) (items : list CartItem)
  (text : string) (w w' : world) (path : string) :
  create_submission_png inp label amount items text w = (Ok path, w') ->
  exists f,
    files w' = f :: files w
    /\ png_path f = path
    /\ submission_lines label amount items text = Ok (png_lines f)
    /\ List.length (png_lines f)
       = (6 + Nat.max 1 (List.length items) + List.length (reflow text))%nat
    /\ png_width f = 800
    /\ png_height f = 170 + 30 * Z.of_nat (List.length (png_lines f))
    /\ forall x y line,
         In (x, y, line) (drawn_text f) ->
         x = 40 /\ 40 <= y /\ y + 30 <= png_height f - 130.
Proof.
  rewrite create_submission_png_file.
  destruct (submission_lines label amount items text) as [lines|h] eqn:Hl;
    [|discriminate].
  intros [= <- <-]. exists (submission_file inp lines).
  cbn [files submission_file png_path png_width png_height png_lines].
  split; [reflexivity|]. split; [reflexivity|]. split; [reflexivity|].
  split.
  { rewrite submission_lines_display in Hl.
    destruct (truncated_budget amount) as [b|]; [|discriminate].
    cbn [rbind] in Hl.
    destruct (truncated_prices items) as [ps|] eqn:Hps; [|discriminate].
    injection Hl as <-. rewrite display_lines_length, length_combine, length_map.
    rewrite (truncated_prices_length _ _ Hps), Nat.min_id. reflexivity. }
  split; [reflexivity|]. split; [lia|].
  intros x y line Hin. unfold drawn_text in Hin. cbn [png_lines] in Hin.
  apply draw_lines_inside in Hin; [|lia].
  cbn [png_lines submission_file] in Hin. lia.
Qed.

(** X12. A run writes a file in one case only: on the result screen, on a
    click on the submit button, with a justification that is not blank.  It
    then writes one file, named after the time stamp in the directory
    "submissions"; every other run leaves the files as they were. *)
Theorem only_submit_writes_a_file `{Runtime}
  (inp : inputs) (s : SessionState) (fs : list png_file) :
  files (snd (run inp s fs)) = fs
  \/ (page s = "result"
      /\ clicked inp = Some BtnSubmit
      /\ blank (justification inp s) = false
      /\ exists f,
           files (snd (run inp s fs)) = f :: fs
           /\ png_path f = "submissions/submission_" ++ timestamp inp ++ ".png").
Proof.
  destruct (String.eqb_spec (page s) "shop") as [Hshop|Hshop].
  { left. destruct (clicked inp) as [[| |i| | | | |]|] eqn:Hclick.
    3:{ apply (shop_page_add_click inp s fs i Hshop Hclick). }
    all: apply (shop_page_other_click inp s fs Hshop);
      intros [idx Ha]; rewrite Hclick in Ha; discriminate. }
  destruct (String.eqb_spec (page s) "result") as [Hres|Hres].
  { destruct (result_page_click inp s fs Hres)
      as (_ & [Hf | (Hp & Hb & f & Hf & Hpath)]); [left; exact Hf|].
    right. split; [exact Hres|]. split; [apply pressed_clicked, Hp|].
    split; [exact Hb|]. exists f. auto. }
  left. apply mission_page_files; assumption.
Qed.

(* ===================================================================== *)
(** * What holds in every session a user can bring about *)
(* ===================================================================== *)

Lemma consistent_initial : consistent initial_session.
Proof.
  split; [left; reflexivity|]. split; [reflexivity|].
  split; [discriminate | reflexivity].
Qed.

(** Off the mission screen, a mission is selected. *)
Lemma consistent_mission s :
  consistent s -> page s <> "mission" ->
  exists label, mission s = Some label /\ In (label, budget s) MISSIONS.
Proof.
  intros (_ & Hm & _) Hp. destruct (mission s) as [label|].
  - exists label. auto.
  - subst s. destruct Hp. reflexivity.
Qed.

Lemma consistent_with_page s p :
  consistent s -> mission s <> None ->
  p = "mission" \/ p = "shop" \/ (p = "result" /\ cart s <> []) ->
  consistent (with_page s p).
Proof.
  intros (_ & Hm & _ & Hf) Hsome Hp.
  split; [cbn; tauto|]. split; [|split; [|exact Hf]].
  - cbn [with_page mission budget]. destruct (mission s); [exact Hm|].
    destruct Hsome. reflexivity.
  - cbn [with_page page cart]. intros ->.
    destruct Hp as [Hp|[Hp|[_ Hp]]]; try discriminate. exact Hp.
Qed.

Lemma consistent_with_reason s r :
  consistent s -> mission s <> None -> consistent (with_reason s r).
Proof.
  intros (Hp & Hm & Hc & Hf) Hsome.
  split; [exact Hp|]. split; [|split; assumption].
  cbn [with_reason mission budget]. destruct (mission s); [exact Hm|].
  destruct Hsome. reflexivity.
Qed.

Lemma consistent_with_cart s item :
  consistent s -> mission s <> None -> page s <> "result" ->
  finite_price item = true ->
  consistent (with_cart s (append (cart s) item)).
Proof.
  intros (Hp & Hm & Hc & Hf) Hsome Hpage Hitem.
  split; [exact Hp|]. split; [|split].
  - cbn [with_cart mission budget]. destruct (mission s); [exact Hm|].
    destruct Hsome. reflexivity.
  - cbn [with_cart page]. intros H. destruct (Hpage H).
  - cbn [with_cart cart]. unfold append. rewrite forallb_app, Hf.
    cbn [forallb]. rewrite Hitem. reflexivity.
Qed.

Lemma consistent_confirmed s label amount :
  consistent s -> In (label, amount) MISSIONS ->
  consistent (confirmed s label amount).
Proof.
  intros (_ & _ & _ & Hf) Hin.
  split; [right; left; reflexivity|]. split; [exact Hin|].
  split; [discriminate | exact Hf].
Qed.

(** Every run keeps the session consistent. *)
Lemma consistent_step `{Runtime} inp s fs :
  consistent s -> consistent (session (snd (run inp s fs))).
Proof.
  intros Hs. pose proof Hs as ([Hp|[Hp|Hp]] & _).
  - (* the mission screen *)
    unfold run. rewrite main_mission by exact Hp.
    destruct (mission_page_run inp {| session := s; screen := []; files := fs |})
      as (amount & Hin & ->).
    cbn [snd session]. destruct (pressed inp BtnMissionDone); [|exact Hs].
    apply consistent_confirmed; assumption.
  - (* the shopping screen *)
    destruct (consistent_mission s Hs) as (label & Hm & _);
      [rewrite Hp; discriminate|].
    assert (Hsome : mission s <> None) by (rewrite Hm; discriminate).
    destruct (clicked inp) as [[| |i| | | | |]|] eqn:Hclick.
    3:{ destruct (shop_page_add_click inp s fs i Hp Hclick)
          as (_ & [-> | (df & row & item & _ & _ & Hitem & ->)] & _);
          [exact Hs|].
        apply consistent_with_cart; try assumption.
        - rewrite Hp. discriminate.
        - apply (row_item_finite _ _ _ _ _ _ Hitem). }
    all: (assert (Hn : ~ adds inp)
            by (intros [idx Ha]; rewrite Hclick in Ha; discriminate));
         destruct (shop_page_other_click inp s fs Hp Hn)
           as (_ & [-> | [-> | [Hc ->]]]);
         [ exact Hs
         | apply consistent_with_page; auto
         | apply consistent_with_page; auto ].
  - (* the result screen *)
    destruct (consistent_mission s Hs) as (label & Hm & _);
      [rewrite Hp; discriminate|].
    assert (Hsome : mission s <> None) by (rewrite Hm; discriminate).
    assert (Hc : cart s <> []) by (apply Hs, Hp).
    destruct (result_page_click inp s fs Hp) as ([-> | [-> | [-> | ->]]] & _).
    + exact Hs.
    + apply consistent_with_page; auto.
    + apply consistent_with_reason; assumption.
    + apply consistent_with_page; auto.
      apply consistent_with_reason; assumption.
Qed.

Lemma reachable_consistent `{Runtime} s : reachable s -> consistent s.
Proof.
  induction 1 as [|inp s fs _ IH];
    [apply consistent_initial | apply consistent_step, IH].
Qed.

(** X13. In every reachable session the page is "mission", "shop" or
    "result", so that [main] runs the screen of that page: its last branch,
    which resets an unknown page, is never taken. *)
Theorem reachable_page_is_a_screen `{Runtime} (s : SessionState) :
  reachable s ->
  (page s = "mission"
   /\ forall inp fs,
        run inp s fs
        = show_mission_page inp {| session := s; screen := []; files := fs |})
  \/ (page s = "shop"
      /\ forall inp fs,
           run inp s fs
           = show_shop_page inp {| session := s; screen := []; files := fs |})
  \/ (page s = "result"
      /\ forall inp fs,
           run inp s fs
           = show_result_page inp {| session := s; screen := []; files := fs |}).
Proof.
  intros Hr. destruct (reachable_consistent s Hr) as ([Hp|[Hp|Hp]] & _).
  - left. split; [exact Hp|]. intros inp fs. apply main_mission, Hp.
  - right. left. split; [exact Hp|]. intros inp fs. apply main_shop, Hp.
  - right. right. split; [exact Hp|]. intros inp fs. apply main_result, Hp.
Qed.

(** X14. In every reachable session the budget is the amount [MISSIONS]
    gives for the selected mission; as long as no mission is selected the
    session is the initial one.  Off the mission screen a mission is always
    selected: the test for a missing mission at the top of the two other
    screens fails there. *)
Theorem mission_and_budget_agree `{Runtime} (s : SessionState) :
  reachable s ->
  match mission s with
  | None => s = initial_session
  | Some label => dict_get MISSIONS label = Ok (budget s)
  end
  /\ (page s <> "mission" -> mission s <> None).
Proof.
  intros Hr. pose proof (reachable_consistent s Hr) as Hs. split.
  - destruct Hs as (_ & Hm & _). destruct (mission s) as [label|]; [|exact Hm].
    apply MISSIONS_get, Hm.
  - intros Hp. destruct (consistent_mission s Hs Hp) as (label & -> & _).
    discriminate.
Qed.

(** X15. A reachable session on the result screen has a cart that is not
    empty: the checkout is the only way there and no run takes an item out
    of the cart. *)
Theorem result_screen_has_items `{Runtime} (s : SessionState) :
  reachable s -> page s = "result" -> cart s <> [].
Proof.
  intros Hr. apply (reachable_consistent s Hr).
Qed.

(** The table of a cart whose prices are finite. *)
Lemma cart_table_finite (items : list CartItem) :
  forallb finite_price items = true ->
  cart_table items
  = Ok (table_of items).
Proof.
  intros Hf. unfold cart_table.
  replace (forallb (fun item => is_finite (item_price item)) items) with true;
    [reflexivity|].
  symmetry. apply forallb_forall. intros item Hin.
  apply finite_float_is_finite.
  apply (proj1 (forallb_forall _ _) Hf), Hin.
Qed.

(** The column of prices in the table: [astype(int)] truncates a price
    toward zero, as [int] does, and keeps the result when it fits 64 bits. *)
Lemma astype_int_truncates f z :
  int_of_float f = Ok z ->
  astype_int f
  = if (- 2 ^ 63 <=? z) && (z <? 2 ^ 63) then Int64 z else OutOfRange.
Proof.
  unfold int_of_float, astype_int.
  destruct (Prim2SF f) as [s| s | |s m e]; cbn [trunc_SF raise];
    try discriminate; intros [= <-]; reflexivity.
Qed.

Lemma int_of_float_of_finite f :
  finite_float f = true -> exists z, int_of_float f = Ok z.
Proof.
  unfold finite_float, int_of_float.
  destruct (Prim2SF f); try discriminate; intros _; eexists; reflexivity.
Qed.

(** The cast at three prices: a fraction is cut off, toward zero, and a
    price beyond 64 bits leaves no number of its own. *)
Lemma astype_int_examples :
  astype_int 1500.9 = Int64 1500
  /\ astype_int (-0.5) = Int64 0
  /\ astype_int 1e308 = OutOfRange.
Proof.
  repeat split; vm_compute; reflexivity.
Qed.

(** X16. In every reachable session every price in the cart is finite: a
    row whose price is a NaN or an infinity halts before its button.  So
    the table of the cart is built without error; its column of prices
    holds the prices cast to 64-bit integers, each the price truncated
    toward zero when that fits 64 bits; and the renderer builds its lines
    for every text. *)
Theorem cart_prices_are_finite `{Runtime} (s : SessionState) :
  reachable s ->
  forallb finite_price (cart s) = true
  /\ cart_table (cart s)
     = Ok (StDataframe
             (map (fun item => (item_name item, astype_int (item_price item)))
                  (cart s)))
  /\ (forall item, In item (cart s) ->
        exists z,
          int_of_float (item_price item) = Ok z
          /\ astype_int (item_price item)
             = if (- 2 ^ 63 <=? z) && (z <? 2 ^ 63) then Int64 z
               else OutOfRange)
  /\ forall label text,
       exists ps,
         List.length ps = List.length (cart s)
         /\ submission_lines label (PyInt (budget s)) (cart s) text
            = Ok (display_lines label (budget s)
                    (combine (map (fun item => py_str (item_name item)) (cart s))
                             ps)
                    text).
Proof.
  intros Hr. destruct (reachable_consistent s Hr) as (_ & _ & _ & Hf).
  split; [exact Hf|]. split; [|split].
  - apply cart_table_finite, Hf.
  - intros item Hin.
    pose proof (proj1 (forallb_forall _ _) Hf item Hin) as Hfin.
    destruct (int_of_float_of_finite _ Hfin) as [z Hz].
    exists z. split; [exact Hz|]. apply astype_int_truncates, Hz.
  - intros label text.
    destruct (truncated_prices_finite (cart s) Hf) as (ps & Hps & Hlen).
    exists ps. split; [exact Hlen|].
    rewrite submission_lines_display, Hps. reflexivity.
Qed.

(** X21. Finite prices do not make a finite total.  When the sum of the
    prices of a cart is a float that is not finite, the summary of the cart
    halts on both screens right after the table of the prices cast to
    64-bit integers: [int] raises on the total,
    [OverflowError] for an infinity and [ValueError] for a NaN, and neither
    the total nor what is left of the budget is shown. *)
Theorem total_that_is_not_finite_halts_the_summary `{Runtime}
  (w : world) (items : list CartItem) (f : float) (remaining : pynum) :
  items <> [] ->
  forallb finite_price items = true ->
  py_sum (map item_price items) = PyFloat f ->
  finite_float f = false ->
  let table := table_of items in
  shop_cart_summary items (py_sum (map item_price items)) w
  = (Halt (Uncaught (int_error f)), shown w table)
  /\ result_cart_summary items (py_sum (map item_price items)) remaining w
     = (Halt (Uncaught (int_error f)), shown w table).
Proof.
  intros Hne Hfin Hsum Hf table.
  assert (Hint : py_int (PyFloat f) = Halt (Uncaught (int_error f))).
  { cbn [py_int]. unfold int_of_float, int_error. unfold finite_float in Hf.
    destruct (Prim2SF f); try discriminate; reflexivity. }
  rewrite Hsum. destruct items as [|item items]; [destruct Hne; reflexivity|].
  unfold shop_cart_summary, result_cart_summary.
  rewrite (cart_table_finite _ Hfin). fold table.
  split; do 2 script_step; apply bind_halt; unfold lift; rewrite Hint;
    reflexivity.
Qed.

(** X17. A run that no click triggered, with the text area as the session
    left it, changes nothing: the session and the files are as before, on
    each of the three screens. *)
Theorem run_without_event_changes_nothing `{Runtime}
  (inp : inputs) (s : SessionState) (fs : list png_file) :
  clicked inp = None ->
  text_area_input inp = None ->
  page s = "mission" \/ page s = "shop" \/ page s = "result" ->
  session (snd (run inp s fs)) = s
  /\ files (snd (run inp s fs)) = fs.
Proof.
  intros Hclick Htext Hpage.
  assert (Hp : forall b, pressed inp b = false)
    by (intros b; unfold pressed; rewrite Hclick; reflexivity).
  set (I := fun w : world => session w = s /\ files w = fs).
  change (I (snd (run inp s fs))).
  destruct Hpage as [Hpage|[Hpage|Hpage]]; unfold run.
  - rewrite main_mission by exact Hpage.
    destruct (mission_page_run inp {| session := s; screen := []; files := fs |})
      as (amount & _ & ->).
    rewrite Hp. split; reflexivity.
  - rewrite main_shop by exact Hpage.
    apply wp_snd. apply (shop_page_hoare inp I I).
    + intros w e _ Hw. exact Hw.
    + intros [idx Ha]. rewrite Hclick in Ha. discriminate.
    + auto.
    + rewrite Hp. discriminate.
    + intros c w [Hw _]. unfold shop_back, shop_checkout.
      wp_steps. rewrite Hp. wp_steps. rewrite Hp. exact Hw.
    + split; reflexivity.
  - rewrite main_result by exact Hpage.
    apply wp_snd. apply (result_page_hoare inp I I).
    + intros w e _ Hw. exact Hw.
    + auto.
    + rewrite Hp. discriminate.
    + intros s0 w [[Hs Hf] Hs0]. rewrite Hs in Hs0. subst s0.
      unfold result_back, result_submit. wp_steps. cbv zeta.
      rewrite Htext. wp_steps. rewrite Hp. wp_steps. rewrite Hp.
      split; [|exact Hf].
      cbn [shown with_session session]. rewrite Hs. apply with_reason_same.
    + split; reflexivity.
Qed.

(* ===================================================================== *)
(** * Whole amounts: prices, totals and what is left of the budget *)
(* ===================================================================== *)

Lemma finite_float_whole k : Z.abs k < 2 ^ 53 -> finite_float (Z2float k) = true.
Proof.
  intros Hk. unfold finite_float. rewrite Prim2SF_Z2float by exact Hk.
  destruct (whole_cases k Hk) as [[_ ->] | (s & p & _ & _ & ->)]; reflexivity.
Qed.

(** [int(float(k))] is [k] for a whole number below 2^53. *)
Lemma int_of_float_whole k : Z.abs k < 2 ^ 53 -> int_of_float (Z2float k) = Ok k.
Proof.
  intros Hk. unfold int_of_float. rewrite Prim2SF_Z2float by exact Hk.
  destruct (whole_cases k Hk) as [[-> ->] | (s & p & -> & Hp & ->)];
    [reflexivity|].
  unfold canon. cbn [trunc_SF]. f_equal. f_equal.
  pose proof (digits_le_53 p Hp) as Hd.
  set (d := Zpos (digits2_pos p)) in *.
  assert (Hd1 : 1 <= d) by (unfold d; lia).
  rewrite Zpos_shl, Z2Nat.id by lia.
  destruct (Z.leb_spec 0 (d - 53)) as [He|He].
  - replace (d - 53) with 0 by lia. replace (53 - d) with 0 by lia.
    rewrite Z.pow_0_r. lia.
  - replace (- (d - 53)) with (53 - d) by lia.
    apply Z.div_mul. apply Z.pow_nonzero; lia.
Qed.

(** [astype(int)] gives a whole price below 2^53 back unchanged. *)
Lemma astype_int_whole k : Z.abs k < 2 ^ 53 -> astype_int (Z2float k) = Int64 k.
Proof.
  intros Hk. rewrite (astype_int_truncates _ k (int_of_float_whole k Hk)).
  assert (H63 : 2 ^ 53 < 2 ^ 63) by (apply Z.pow_lt_mono_r; lia).
  destruct (Z.leb_spec (- 2 ^ 63) k); [|lia].
  destruct (Z.ltb_spec k (2 ^ 63)); [reflexivity|lia].
Qed.

Lemma float_of_int_whole k : Z.abs k < 2 ^ 53 -> float_of_int k = Ok (Z2float k).
Proof.
  intros Hk. unfold float_of_int.
  pose proof (finite_float_is_finite _ (finite_float_whole k Hk)) as Hf.
  unfold is_finite in Hf. apply negb_true_iff, orb_false_iff in Hf.
  destruct Hf as [_ ->]. reflexivity.
Qed.

Lemma leb0_whole k : Z.abs k < 2 ^ 53 -> (0 <=? Z2float k)%float = (0 <=? k).
Proof.
  intros Hk. rewrite leb_spec, Prim2SF_Z2float by exact Hk.
  change (Prim2SF 0) with (S754_zero false).
  destruct (whole_cases k Hk) as [[-> ->] | (s & p & -> & _ & ->)];
    [reflexivity|].
  destruct s; reflexivity.
Qed.

Lemma opp_whole k :
  Z.abs k < 2 ^ 53 -> k <> 0 -> (- Z2float k)%float = Z2float (- k).
Proof.
  intros Hk Hne. apply Prim2SF_inj.
  rewrite opp_spec, !Prim2SF_Z2float by lia.
  apply SFopp_whole; assumption.
Qed.

Lemma whole_prices_bound (items : list CartItem) : forall ks,
  map item_price items = map Z2float ks ->
  forall item, In item items ->
    exists k, item_price item = Z2float k /\ Z.abs k <= sum_abs ks.
Proof.
  induction items as [|i items IH]; intros ks Hks item Hin; [destruct Hin|].
  destruct ks as [|k ks]; [discriminate|]. cbn [map] in Hks.
  injection Hks as Hi Hrest. pose proof (sum_abs_nonneg ks) as Hnn.
  destruct Hin as [<-|Hin].
  - exists k. split; [exact Hi|]. simpl. lia.
  - destruct (IH ks Hrest item Hin) as (k' & Hk' & Hb).
    exists k'. split; [exact Hk'|]. simpl. lia.
Qed.

Lemma cart_table_whole (items : list CartItem) ks :
  map item_price items = map Z2float ks ->
  sum_abs ks < 2 ^ 53 ->
  cart_table items
  = Ok (table_of items).
Proof.
  intros Hks Hb. unfold cart_table.
  replace (forallb (fun item => is_finite (item_price item)) items) with true;
    [reflexivity|].
  symmetry. apply forallb_forall. intros item Hin.
  destruct (whole_prices_bound items ks Hks item Hin) as (k & -> & Hk).
  apply finite_float_is_finite, finite_float_whole. lia.
Qed.

(** The table of a cart of whole prices shows these very numbers. *)
Lemma table_of_whole (items : list CartItem) : forall ks,
  map item_price items = map Z2float ks ->
  sum_abs ks < 2 ^ 53 ->
  table_of items = StDataframe (combine (map item_name items) (map Int64 ks)).
Proof.
  unfold table_of.
  induction items as [|i items IH]; intros ks Hks Hb; [reflexivity|].
  destruct ks as [|k ks]; [discriminate|]. cbn [map] in Hks.
  injection Hks as Hi Hrest. pose proof (sum_abs_nonneg ks) as Hnn.
  change (sum_abs (k :: ks)) with (Z.abs k + sum_abs ks) in Hb.
  assert (Hk : Z.abs k < 2 ^ 53) by lia.
  assert (Hks : sum_abs ks < 2 ^ 53) by lia.
  specialize (IH ks Hrest Hks). injection IH as IH.
  cbn [map combine]. rewrite Hi, astype_int_whole, IH by exact Hk. reflexivity.
Qed.

(** The difference between a whole budget and a whole total, and the line
    that reports it. *)
Lemma remaining_whole b t :
  Z.abs b + Z.abs t < 2 ^ 53 ->
  py_sub (PyInt b) (PyFloat (Z2float t)) = Ok (PyFloat (Z2float (b - t))).
Proof.
  intros Hb. cbn [py_sub py_float rbind].
  rewrite float_of_int_whole by lia. cbn [rbind].
  rewrite sub_whole by lia. reflexivity.
Qed.

Lemma remaining_line b t w :
  Z.abs b + Z.abs t < 2 ^ 53 ->
  (if py_ge0 (PyFloat (Z2float (b - t))) then
     left <- lift (py_int (PyFloat (Z2float (b - t)))) ;;
     emit (StSuccess ("남은 예산: " ++ format_thousands left ++ "원"))
   else
     over <- lift (py_int (py_neg (PyFloat (Z2float (b - t))))) ;;
     emit (StError ("예산을 " ++ format_thousands over ++ "원 초과했습니다!"))) w
  = (Ok tt, shown w (budget_message b t)).
Proof.
  intros Hb. cbn [py_ge0 py_neg py_int]. rewrite leb0_whole by lia.
  unfold budget_message.
  destruct (Z.leb_spec 0 (b - t)) as [Hle|Hlt];
    (destruct (Z.leb_spec t b); [|lia]) || (destruct (Z.leb_spec t b); [lia|]).
  - rewrite int_of_float_whole by lia. reflexivity.
  - rewrite opp_whole by lia. rewrite int_of_float_whole by lia.
    replace (- (b - t)) with (t - b) by lia. reflexivity.
Qed.

(** X18. For a cart of whole prices that, with the budget, stay below 2^53
    in absolute value, the summary of the cart is exact on both screens:
    the total is the arithmetic sum of the prices; the summary shows the
    table, the total, and either what is left of the budget, when the total
    does not exceed it (nothing left included), or by how much the total
    exceeds it.  The table holds the prices cast to integers, which are
    these very numbers. *)
Theorem remaining_budget_is_exact `{Runtime}
  (w : world) (items : list CartItem) (ks : list Z) :
  items <> [] ->
  map item_price items = map Z2float ks ->
  Z.abs (budget (session w)) + sum_abs ks < 2 ^ 53 ->
  let b := budget (session w) in
  let total := py_sum (map item_price items) in
  total = PyFloat (Z2float (sum_Z ks))
  /\ shop_cart_summary items total w
     = (Ok tt, summary_shown w items b (sum_Z ks))
  /\ py_sub (PyInt b) total = Ok (PyFloat (Z2float (b - sum_Z ks)))
  /\ result_cart_summary items total (PyFloat (Z2float (b - sum_Z ks))) w
     = (Ok tt, summary_shown w items b (sum_Z ks))
  /\ table_of items
     = StDataframe (combine (map item_name items) (map Int64 ks)).
Proof.
  intros Hne Hks Hb b total.
  pose proof (sum_abs_nonneg ks) as Hnn.
  pose proof (sum_Z_abs ks) as Habs.
  assert (Htotal : total = PyFloat (Z2float (sum_Z ks))).
  { unfold total. rewrite Hks, py_sum_whole by lia.
    destruct ks as [|k ks]; [|reflexivity].
    destruct items; [destruct Hne; reflexivity | discriminate]. }
  assert (Hsub : py_sub (PyInt b) (PyFloat (Z2float (sum_Z ks)))
                 = Ok (PyFloat (Z2float (b - sum_Z ks))))
    by (apply remaining_whole; unfold b; lia).
  assert (Hline := fun w0 => remaining_line b (sum_Z ks) w0
                                ltac:(unfold b; lia)).
  assert (Htable := cart_table_whole items ks Hks ltac:(lia)).
  split; [exact Htotal|]. rewrite Htotal.
  split; [|split; [exact Hsub|split; [|apply table_of_whole; [exact Hks|lia]]]].
  - unfold shop_cart_summary. destruct items as [|item items];
      [destruct Hne; reflexivity|].
    rewrite Htable. do 2 script_step. cbn [py_int].
    rewrite int_of_float_whole by lia. do 3 script_step.
    cbn [shown session]. fold b. rewrite Hsub. script_step.
    rewrite Hline. reflexivity.
  - unfold result_cart_summary. destruct items as [|item items];
      [destruct Hne; reflexivity|].
    rewrite Htable. do 2 script_step. cbn [py_int].
    rewrite int_of_float_whole by lia. do 2 script_step.
    rewrite Hline. reflexivity.
Qed.

(** X19. A row whose price cell is an integer below 2^53 in absolute value
    is shown with that very number, and its item carries it as a float that
    [int] gives back unchanged: nothing is rounded on the way. *)
Theorem whole_price_is_shown_and_stored_exactly `{Runtime}
  (df : DataFrame) (name_col price_col : string) (image_col : option string)
  (row : list cell) (w : world) (name : cell) (k : Z) :
  row_get df row name_col = Ok name ->
  row_get df row price_col = Ok (CInt k) ->
  Z.abs k < 2 ^ 53 ->
  row_info df name_col price_col row w
  = (Ok (PyFloat (Z2float k)),
     shown (shown w (StMarkdown ("**" ++ py_str name ++ "**")))
           (StWrite ("가격: " ++ format_thousands k ++ "원")))
  /\ row_item df name_col price_col image_col row
     = Ok {| item_name := name;
             item_price := Z2float k;
             item_image_url := row_image_url df image_col row |}
  /\ py_int (PyFloat (Z2float k)) = Ok k.
Proof.
  intros Hname Hprice Hk.
  pose proof (int_of_float_whole k Hk) as Hint.
  pose proof (float_of_int_whole k Hk) as Hfloat.
  split; [|split; [|exact Hint]].
  - unfold row_info. rewrite Hname, Hprice. do 3 script_step.
    cbn [float_of_cell]. rewrite Hfloat. cbn [rbind except_ValueError].
    script_step. cbn [py_int]. rewrite Hint. script_step. reflexivity.
  - unfold row_item. rewrite Hname, Hprice. cbn [rbind float_of_cell].
    rewrite Hfloat. cbn [rbind except_ValueError py_int]. rewrite Hint.
    reflexivity.
Qed.

(** X20. A sequence of calls of [add_to_cart] with float prices never
    fails and appends one entry per call, in the order of the calls: the
    same product added twice is in the cart twice.  The page, the mission,
    the budget and the justification stay, and so do the screen and the
    files. *)
Theorem add_to_cart_appends_in_call_order
  (calls : list (cell * float * option cell)) (w : world) :
  add_items (map float_call calls) w
  = (Ok tt,
     with_session w
       (with_cart (session w)
          (cart (session w) ++ map called_item calls)%list)).
Proof.
  revert w. induction calls as [|[[name p] image_url] calls IH]; intros w.
  - cbn [map add_items for_each]. unfold add_items, ret. cbn [for_each].
    rewrite app_nil_r. destruct w as [[] ? ?]. reflexivity.
  - unfold add_items. cbn [map for_each float_call fst snd].
    rewrite (bind_ok _ _ _ _ _ (add_to_cart_float _ _ _ _)).
    fold (add_items (map float_call calls)). rewrite IH.
    cbn [with_session with_cart session cart screen files page mission budget reason].
    unfold append, called_item at 2. cbn [fst snd].
    rewrite <- app_assoc. reflexivity.
Qed.

(* ===================================================================== *)
(** * The theorems at concrete inputs *)
(* ===================================================================== *)

(** C1 on the first run of a session: the first mission is selected and
    its button clicked. *)
Lemma confirm_mission_witness :
  In ("절약형 장보기 (예산 10,000원)", 10000) MISSIONS
  /\ page initial_session = "mission"
  /\ selected_mission (click BtnMissionDone FileNotFound)
     = "절약형 장보기 (예산 10,000원)"
  /\ clicked (click BtnMissionDone FileNotFound) = Some BtnMissionDone
  /\ session (snd (@run (Demo.runtime false)
                     (click BtnMissionDone FileNotFound) initial_session []))
     = shopping [].
Proof.
  split; [left; reflexivity|].
  split; [reflexivity|]. split; [reflexivity|]. split; [reflexivity|].
  exact (proj2 (@confirm_mission_sets_budget_and_page (Demo.runtime false)
                  (click BtnMissionDone FileNotFound) initial_session []
                  "절약형 장보기 (예산 10,000원)" 10000
                  (or_introl eq_refl) eq_refl eq_refl eq_refl)).
Defined.

(** C3 on the shopping screen with an empty cart. *)
Lemma checkout_empty_cart_witness :
  page (shopping []) = "shop"
  /\ cart (shopping []) = []
  /\ clicked (click BtnCheckout (CsvData two_products)) = Some BtnCheckout
  /\ session (snd (@run (Demo.runtime false)
                     (click BtnCheckout (CsvData two_products)) (shopping []) []))
     = shopping [].
Proof.
  split; [reflexivity|]. split; [reflexivity|]. split; [reflexivity|].
  exact (proj1 (@checkout_with_empty_cart_is_blocked (Demo.runtime false)
                  (click BtnCheckout (CsvData two_products)) (shopping []) []
                  eq_refl eq_refl eq_refl)).
Defined.

(** C9 on the shopping screen with one item in the cart. *)
Lemma shop_back_witness :
  page (shopping [apple 1500]) = "shop"
  /\ clicked (click BtnShopBack (CsvData two_products)) = Some BtnShopBack
  /\ cart (session (snd (@run (Demo.runtime false)
                           (click BtnShopBack (CsvData two_products))
                           (shopping [apple 1500]) [])))
     = [apple 1500].
Proof.
  split; [reflexivity|]. split; [reflexivity|].
  exact (proj1 (proj2 (proj2
           (@shop_back_keeps_budget_and_cart (Demo.runtime false)
              (click BtnShopBack (CsvData two_products))
              (shopping [apple 1500]) [] eq_refl eq_refl)))).
Defined.

(** C5 on the result screen with a justification of two spaces. *)
Lemma submit_blank_witness :
  page (at_result [apple 1500] "  ") = "result"
  /\ clicked (click BtnSubmit FileNotFound) = Some BtnSubmit
  /\ blank (justification (click BtnSubmit FileNotFound)
              (at_result [apple 1500] "  ")) = true
  /\ files (snd (@run (Demo.runtime false) (click BtnSubmit FileNotFound)
                   (at_result [apple 1500] "  ") []))
     = [].
Proof.
  split; [reflexivity|]. split; [reflexivity|]. split; [reflexivity|].
  exact (proj1 (proj2 (proj2 (proj2
           (@submit_with_blank_justification_is_blocked (Demo.runtime false)
              (click BtnSubmit FileNotFound) (at_result [apple 1500] "  ") []
              eq_refl eq_refl eq_refl))))).
Defined.

(** C6 on a catalog with one row and no price column. *)
Lemma missing_column_witness :
  page (shopping []) = "shop"
  /\ mission (shopping []) = Some "절약형 장보기 (예산 10,000원)"
  /\ read_csv (idle (CsvData no_price_column)) "products.csv"
     = CsvData no_price_column
  /\ df_empty no_price_column = false
  /\ missing_required no_price_column = Some ("가격", "price", "가격")
  /\ fst (@run (Demo.runtime false) (idle (CsvData no_price_column))
            (shopping []) [])
     = Halt StopScript.
Proof.
  split; [reflexivity|]. split; [reflexivity|]. split; [reflexivity|].
  split; [reflexivity|]. split; [reflexivity|].
  exact (proj1 (@missing_column_stops_the_render (Demo.runtime false)
                  (idle (CsvData no_price_column)) (shopping []) []
                  "절약형 장보기 (예산 10,000원)" no_price_column
                  "가격" "price" "가격"
                  eq_refl eq_refl eq_refl eq_refl eq_refl)).
Defined.

(** The recovery on the second row of the example catalog, whose price is
    "abc". *)
Lemma unparseable_price_witness :
  row_image (click (BtnAdd 1) (CsvData two_products))
    two_products (Some "image_url") [CStr "Milk"; CStr "abc"; CFloat nan]
    (fresh (shopping []))
  = (Ok tt, shown (fresh (shopping [])) (StWrite "(이미지 없음)"))
  /\ row_get two_products [CStr "Milk"; CStr "abc"; CFloat nan] "name"
     = Ok (CStr "Milk")
  /\ row_get two_products [CStr "Milk"; CStr "abc"; CFloat nan] "price"
     = Ok (CStr "abc")
  /\ @float_of_str (Demo.runtime false) "abc" = None
  /\ cart (session (snd (@shop_row (Demo.runtime false)
                           (click (BtnAdd 1) (CsvData two_products))
                           two_products "name" "price" (Some "image_url")
                           (1%nat, [CStr "Milk"; CStr "abc"; CFloat nan])
                           (fresh (shopping [])))))
     = [ {| item_name := CStr "Milk"; item_price := 0%float;
            item_image_url := Some (CFloat nan) |} ].
Proof.
  split; [reflexivity|]. split; [reflexivity|]. split; [reflexivity|].
  split; [reflexivity|].
  destruct (@unparseable_price_counts_as_zero (Demo.runtime false)
              (click (BtnAdd 1) (CsvData two_products))
              two_products "name" "price" (Some "image_url") 1%nat
              [CStr "Milk"; CStr "abc"; CFloat nan]
              (fresh (shopping []))
              (shown (fresh (shopping [])) (StWrite "(이미지 없음)"))
              (CStr "Milk") "abc" eq_refl eq_refl eq_refl eq_refl)
    as (_ & _ & Hs & _).
  rewrite Hs. reflexivity.
Defined.

(** C7 on the second row of the catalog with a missing price, in a run that
    a click on the button of that row triggered. *)
Lemma missing_price_witness :
  row_image (click (BtnAdd 1) (CsvData missing_price_catalog))
    missing_price_catalog None [CStr "Pear"; CFloat nan] (fresh (shopping []))
  = (Ok tt, shown (fresh (shopping [])) (StWrite "(이미지 없음)"))
  /\ row_get missing_price_catalog [CStr "Pear"; CFloat nan] "name"
     = Ok (CStr "Pear")
  /\ row_get missing_price_catalog [CStr "Pear"; CFloat nan] "price"
     = Ok (CFloat nan)
  /\ Prim2SF nan = S754_nan
  /\ fst (@shop_row (Demo.runtime false)
            (click (BtnAdd 1) (CsvData missing_price_catalog))
            missing_price_catalog "name" "price" None
            (1%nat, [CStr "Pear"; CFloat nan]) (fresh (shopping [])))
     = Halt (Uncaught ValueError).
Proof.
  split; [reflexivity|]. split; [reflexivity|]. split; [reflexivity|].
  split; [reflexivity|].
  exact (proj1 (@missing_price_halts_the_row (Demo.runtime false)
                  (click (BtnAdd 1) (CsvData missing_price_catalog))
                  missing_price_catalog "name" "price" None 1%nat
                  [CStr "Pear"; CFloat nan] (fresh (shopping []))
                  (shown (fresh (shopping [])) (StWrite "(이미지 없음)"))
                  (CStr "Pear") nan eq_refl eq_refl eq_refl eq_refl)).
Defined.

(** C7, the claim as it is written, on the shopping screen: the catalog has
    a row without a price between a row at 1500 and a row whose price is
    "abc".  The run ends with [ValueError] at the row without a price: its
    price and its button are not shown, the row after it is not shown, the
    summary of the cart and the button to the result are not shown, and a
    click on the button of the row leaves the cart empty. *)
Lemma missing_price_stops_the_page :
  @run (Demo.runtime false)
    (click (BtnAdd 1) (CsvData missing_price_catalog)) (shopping []) []
  = (Halt (Uncaught ValueError),
     {| session := shopping [];
        screen :=
          [ StTitle "🛒 쇼핑 화면";
            StSubheader "2. 물품 선택하기";
            StWrite "**현재 미션:** 절약형 장보기 (예산 10,000원)";
            StWrite "**예산:** 10,000원";
            StMarkdown "### 상품 목록";
            StWrite "(이미지 없음)";
            StMarkdown "**Apple**";
            StWrite "가격: 1,500원";
            StButton (BtnAdd 0);
            StMarkdown "---";
            StWrite "(이미지 없음)";
            StMarkdown "**Pear**" ];
        files := [] |})
  /\ cart (session (snd (@run (Demo.runtime false)
                           (click (BtnAdd 1) (CsvData missing_price_catalog))
                           (shopping []) [])))
     = [].
Proof.
  split; vm_compute; reflexivity.
Qed.

(** C8 on the session a first confirmation of a mission leaves. *)
Lemma budget_witness :
  @reachable (Demo.runtime false) (shopping [])
  /\ 0 <= budget (shopping []).
Proof.
  assert (Hr : @reachable (Demo.runtime false) (shopping [])).
  { exact (@reachable_run (Demo.runtime false)
             (click BtnMissionDone FileNotFound) initial_session []
             (@reachable_init (Demo.runtime false))). }
  split; [exact Hr|].
  apply (@budget_nonnegative_and_set_only_by_mission (Demo.runtime false)
           (shopping []) Hr).
Defined.

(** C2, amended, on a cart with an apple at 1500 to which milk at 2500 is
    added. *)
Lemma cart_total_witness :
  map item_price (cart (session (fresh (shopping [apple 1500]))))
  = map Z2float [1500]
  /\ sum_abs [1500]
     + sum_abs (map (fun item => snd (fst item)) [(CStr "Milk", 2500, @None cell)])
     < 2 ^ 53
  /\ @calc_cart_total (Demo.runtime false)
       (snd (add_items (map whole_call [(CStr "Milk", 2500, @None cell)])
               (fresh (shopping [apple 1500]))))
     = (Ok (PyFloat 4000),
        snd (add_items (map whole_call [(CStr "Milk", 2500, @None cell)])
               (fresh (shopping [apple 1500])))).
Proof.
  split; [reflexivity|]. split; [reflexivity|].
  destruct (@cart_total_of_whole_prices (Demo.runtime false)
              (fresh (shopping [apple 1500])) [1500]
              [(CStr "Milk", 2500, @None cell)] eq_refl eq_refl)
    as (_ & _ & Ht & _).
  exact Ht.
Defined.

(** A session one run away from a reachable one. *)
Lemma reachable_to `{Runtime} s inp fs s' :
  reachable s -> session (snd (run inp s fs)) = s' -> reachable s'.
Proof. intros Hr <-. apply reachable_run, Hr. Qed.

(** Three sessions a user brings about: after confirming the first mission,
    after adding the first row of the example catalog, after the checkout. *)
Lemma reachable_shopping : @reachable (Demo.runtime false) (shopping []).
Proof.
  apply (@reachable_to (Demo.runtime false) initial_session
           (click BtnMissionDone FileNotFound) []).
  - apply reachable_init.
  - vm_compute. reflexivity.
Qed.

Lemma reachable_with_apple : @reachable (Demo.runtime false) (shopping [apple_row]).
Proof.
  apply (@reachable_to (Demo.runtime false) (shopping [])
           (click (BtnAdd 0) (CsvData two_products)) []).
  - apply reachable_shopping.
  - vm_compute. reflexivity.
Qed.

Lemma reachable_checked_out :
  @reachable (Demo.runtime false) (at_result [apple_row] "").
Proof.
  apply (@reachable_to (Demo.runtime false) (shopping [apple_row])
           (click BtnCheckout (CsvData two_products)) []).
  - apply reachable_with_apple.
  - vm_compute. reflexivity.
Qed.

(** X13 on the session the checkout leaves. *)
Lemma reachable_page_witness :
  @reachable (Demo.runtime false) (at_result [apple_row] "")
  /\ ((page (at_result [apple_row] "") = "mission"
       /\ forall inp fs,
            @run (Demo.runtime false) inp (at_result [apple_row] "") fs
            = show_mission_page inp
                {| session := at_result [apple_row] ""; screen := []; files := fs |})
      \/ (page (at_result [apple_row] "") = "shop"
          /\ forall inp fs,
               @run (Demo.runtime false) inp (at_result [apple_row] "") fs
               = @show_shop_page (Demo.runtime false) inp
                   {| session := at_result [apple_row] ""; screen := []; files := fs |})
      \/ (page (at_result [apple_row] "") = "result"
          /\ forall inp fs,
               @run (Demo.runtime false) inp (at_result [apple_row] "") fs
               = @show_result_page (Demo.runtime false) inp
                   {| session := at_result [apple_row] ""; screen := []; files := fs |})).
Proof.
  split; [exact reachable_checked_out|].
  exact (@reachable_page_is_a_screen (Demo.runtime false)
           (at_result [apple_row] "") reachable_checked_out).
Defined.

(** X14 on the session with one item in the cart. *)
Lemma mission_budget_witness :
  @reachable (Demo.runtime false) (shopping [apple_row])
  /\ dict_get MISSIONS "절약형 장보기 (예산 10,000원)"
     = Ok (budget (shopping [apple_row])).
Proof.
  split; [exact reachable_with_apple|].
  exact (proj1 (@mission_and_budget_agree (Demo.runtime false)
                  (shopping [apple_row]) reachable_with_apple)).
Defined.

(** X15 on the session the checkout leaves. *)
Lemma result_items_witness :
  @reachable (Demo.runtime false) (at_result [apple_row] "")
  /\ page (at_result [apple_row] "") = "result"
  /\ cart (at_result [apple_row] "") <> [].
Proof.
  split; [exact reachable_checked_out|]. split; [reflexivity|].
  exact (@result_screen_has_items (Demo.runtime false)
           (at_result [apple_row] "") reachable_checked_out eq_refl).
Defined.

(** X16 on the session with one item in the cart. *)
Lemma finite_prices_witness :
  @reachable (Demo.runtime false) (shopping [apple_row])
  /\ forallb finite_price (cart (shopping [apple_row])) = true
  /\ cart_table (cart (shopping [apple_row]))
     = Ok (StDataframe [(CStr "Apple", Int64 1500)]).
Proof.
  split; [exact reachable_with_apple|]. split.
  - exact (proj1 (@cart_prices_are_finite (Demo.runtime false)
                    (shopping [apple_row]) reachable_with_apple)).
  - exact (proj1 (proj2 (@cart_prices_are_finite (Demo.runtime false)
                           (shopping [apple_row]) reachable_with_apple))).
Defined.

(** X1 on a click on the button of the first row of the example catalog. *)
Lemma add_click_witness :
  page (shopping []) = "shop"
  /\ clicked (click (BtnAdd 0) (CsvData two_products)) = Some (BtnAdd 0%nat)
  /\ files (snd (@run (Demo.runtime false)
                   (click (BtnAdd 0) (CsvData two_products)) (shopping []) []))
     = [].
Proof.
  split; [reflexivity|]. split; [reflexivity|].
  exact (proj1 (@add_click_adds_the_clicked_row (Demo.runtime false)
                  (click (BtnAdd 0) (CsvData two_products)) (shopping []) []
                  0%nat eq_refl eq_refl)).
Defined.

(** X2 on the shopping screen without a catalog file. *)
Lemma missing_file_witness :
  page (shopping []) = "shop"
  /\ mission (shopping []) = Some "절약형 장보기 (예산 10,000원)"
  /\ read_csv (click BtnShopBack FileNotFound) "products.csv" = FileNotFound
  /\ @run (Demo.runtime false) (click BtnShopBack FileNotFound) (shopping []) []
     = (Ok tt,
        {| session := shopping [];
           screen := [ StTitle "🛒 쇼핑 화면";
                       StSubheader "2. 물품 선택하기";
                       StWrite ("**현재 미션:** " ++ "절약형 장보기 (예산 10,000원)");
                       StWrite ("**예산:** "
                                ++ format_thousands (budget (shopping [])) ++ "원");
                       StError missing_file_message ];
           files := [] |}).
Proof.
  split; [reflexivity|]. split; [reflexivity|]. split; [reflexivity|].
  exact (@missing_catalog_file_ends_the_screen (Demo.runtime false)
           (click BtnShopBack FileNotFound) (shopping []) []
           "절약형 장보기 (예산 10,000원)" eq_refl eq_refl eq_refl).
Defined.

(** X3 on the shopping screen with one item in the cart. *)
Lemma checkout_items_witness :
  page (shopping [apple_row]) = "shop"
  /\ cart (shopping [apple_row]) <> []
  /\ clicked (click BtnCheckout (CsvData two_products)) = Some BtnCheckout
  /\ files (snd (@run (Demo.runtime false)
                   (click BtnCheckout (CsvData two_products))
                   (shopping [apple_row]) []))
     = [].
Proof.
  assert (Hne : cart (shopping [apple_row]) <> []) by discriminate.
  split; [reflexivity|]. split; [exact Hne|]. split; [reflexivity|].
  exact (proj1 (proj2 (@checkout_with_items_opens_the_result (Demo.runtime false)
                         (click BtnCheckout (CsvData two_products))
                         (shopping [apple_row]) [] eq_refl Hne eq_refl))).
Defined.

(** X8 on the result screen with one item in the cart. *)
Lemma result_back_witness :
  page (at_result [apple_row] "") = "result"
  /\ clicked (click BtnResultBack FileNotFound) = Some BtnResultBack
  /\ files (snd (@run (Demo.runtime false) (click BtnResultBack FileNotFound)
                   (at_result [apple_row] "") []))
     = [].
Proof.
  split; [reflexivity|]. split; [reflexivity|].
  exact (proj1 (proj2 (@result_back_returns_to_the_shop (Demo.runtime false)
                         (click BtnResultBack FileNotFound)
                         (at_result [apple_row] "") [] eq_refl eq_refl))).
Defined.

(** X9 on the result screen with one item and a justification. *)
Lemma submit_image_witness :
  page (at_result [apple_row] "fruit") = "result"
  /\ clicked (click BtnSubmit FileNotFound) = Some BtnSubmit
  /\ blank (justification (click BtnSubmit FileNotFound)
              (at_result [apple_row] "fruit")) = false
  /\ truncated_prices (cart (at_result [apple_row] "fruit")) = Ok [1500]
  /\ (files (snd (@run (Demo.runtime false) (click BtnSubmit FileNotFound)
                    (at_result [apple_row] "fruit") []))
      = []
      \/ files (snd (@run (Demo.runtime false) (click BtnSubmit FileNotFound)
                       (at_result [apple_row] "fruit") []))
         = [ @submission_file (click BtnSubmit FileNotFound)
               (@display_lines (Demo.runtime false)
                  (str_of_mission (mission (at_result [apple_row] "fruit")))
                  (budget (at_result [apple_row] "fruit"))
                  (combine (map (fun item => @py_str (Demo.runtime false)
                                                (item_name item))
                                (cart (at_result [apple_row] "fruit")))
                           [1500])
                  (justification (click BtnSubmit FileNotFound)
                     (at_result [apple_row] "fruit"))) ]).
Proof.
  split; [reflexivity|]. split; [reflexivity|]. split; [reflexivity|].
  split; [reflexivity|].
  exact (proj1 (@submit_saves_and_offers_the_image (Demo.runtime false)
                  (click BtnSubmit FileNotFound) (at_result [apple_row] "fruit")
                  [] [1500] eq_refl eq_refl eq_refl eq_refl)).
Defined.

(** X10 on the image of a cart with one item. *)
Lemma download_name_witness :
  no_slash (timestamp (idle FileNotFound)) = true
  /\ @create_submission_png (Demo.runtime false) (idle FileNotFound)
       "m" (PyInt 10000) [apple_row] "fruit" (fresh (shopping [apple_row]))
     = (Ok "submissions/submission_20240101_120000.png",
        snd (@create_submission_png (Demo.runtime false) (idle FileNotFound)
               "m" (PyInt 10000) [apple_row] "fruit"
               (fresh (shopping [apple_row]))))
  /\ basename "submissions/submission_20240101_120000.png"
     = "submission_" ++ timestamp (idle FileNotFound) ++ ".png".
Proof.
  assert (Hrun : @create_submission_png (Demo.runtime false) (idle FileNotFound)
                   "m" (PyInt 10000) [apple_row] "fruit"
                   (fresh (shopping [apple_row]))
                 = (Ok "submissions/submission_20240101_120000.png",
                    snd (@create_submission_png (Demo.runtime false)
                           (idle FileNotFound) "m" (PyInt 10000) [apple_row]
                           "fruit" (fresh (shopping [apple_row])))))
    by (vm_compute; reflexivity).
  split; [reflexivity|]. split; [exact Hrun|].
  exact (proj2 (@download_is_named_after_the_file (Demo.runtime false)
                  (idle FileNotFound) "m" (PyInt 10000) [apple_row] "fruit"
                  (fresh (shopping [apple_row])) _ _ eq_refl Hrun)).
Defined.

(** X6 on the first run of a session. *)
Lemma mission_screen_witness :
  page initial_session <> "shop"
  /\ page initial_session <> "result"
  /\ exists amount,
       In (selected_mission (idle FileNotFound), amount) MISSIONS
       /\ @run (Demo.runtime false) (idle FileNotFound) initial_session []
          = (Ok tt,
             {| session := if pressed (idle FileNotFound) BtnMissionDone
                           then confirmed initial_session
                                  (selected_mission (idle FileNotFound)) amount
                           else with_page initial_session "mission";
                screen := mission_screen (selected_mission (idle FileNotFound))
                            amount;
                files := [] |}).
Proof.
  assert (H1 : page initial_session <> "shop") by discriminate.
  assert (H2 : page initial_session <> "result") by discriminate.
  split; [exact H1|]. split; [exact H2|].
  exact (@mission_screen_never_fails (Demo.runtime false)
           (idle FileNotFound) initial_session [] H1 H2).
Defined.

(** X4 on a row whose price is missing. *)
Lemma nonfinite_price_witness :
  row_image (idle (CsvData unpriced)) unpriced None [CStr "Pear"; CFloat nan]
    (fresh (shopping []))
  = (Ok tt, shown (fresh (shopping [])) (StWrite "(이미지 없음)"))
  /\ row_get unpriced [CStr "Pear"; CFloat nan] "name" = Ok (CStr "Pear")
  /\ row_get unpriced [CStr "Pear"; CFloat nan] "price" = Ok (CFloat nan)
  /\ @float_of_cell (Demo.runtime false) (CFloat nan) = Ok nan
  /\ finite_float nan = false
  /\ @shop_row (Demo.runtime false) (idle (CsvData unpriced)) unpriced
       "name" "price" None (0%nat, [CStr "Pear"; CFloat nan])
       (fresh (shopping []))
     = (Halt (Uncaught (int_error nan)),
        shown (shown (fresh (shopping [])) (StWrite "(이미지 없음)"))
              (StMarkdown ("**" ++ @py_str (Demo.runtime false) (CStr "Pear")
                           ++ "**"))).
Proof.
  split; [reflexivity|]. split; [reflexivity|]. split; [reflexivity|].
  split; [reflexivity|]. split; [reflexivity|].
  exact (@price_that_is_not_finite_halts_the_row (Demo.runtime false)
           (idle (CsvData unpriced)) unpriced "name" "price" None 0%nat
           [CStr "Pear"; CFloat nan] (fresh (shopping []))
           (shown (fresh (shopping [])) (StWrite "(이미지 없음)"))
           (CStr "Pear") (CFloat nan) nan
           eq_refl eq_refl eq_refl eq_refl eq_refl).
Defined.

(** X18 on a cart with one item at 1500 and a budget of 10000. *)
Lemma remaining_budget_witness :
  [apple_row] <> []
  /\ map item_price [apple_row] = map Z2float [1500]
  /\ Z.abs (budget (session (fresh (shopping [apple_row])))) + sum_abs [1500]
     < 2 ^ 53
  /\ @py_sum (Demo.runtime false) (map item_price [apple_row])
     = PyFloat (Z2float (sum_Z [1500])).
Proof.
  assert (Hne : [apple_row] <> []) by discriminate.
  split; [exact Hne|]. split; [reflexivity|]. split; [reflexivity|].
  exact (proj1 (@remaining_budget_is_exact (Demo.runtime false)
                  (fresh (shopping [apple_row])) [apple_row] [1500]
                  Hne eq_refl eq_refl)).
Defined.

(** X11 on the image of a cart with one item. *)
Lemma saved_image_witness :
  @create_submission_png (Demo.runtime false) (idle FileNotFound)
    "m" (PyInt 10000) [apple_row] "fruit" (fresh (shopping [apple_row]))
  = (Ok "submissions/submission_20240101_120000.png",
     snd (@create_submission_png (Demo.runtime false) (idle FileNotFound)
            "m" (PyInt 10000) [apple_row] "fruit"
            (fresh (shopping [apple_row]))))
  /\ exists f,
       files (snd (@create_submission_png (Demo.runtime false)
                     (idle FileNotFound) "m" (PyInt 10000) [apple_row] "fruit"
                     (fresh (shopping [apple_row]))))
       = f :: files (fresh (shopping [apple_row]))
       /\ png_height f = 170 + 30 * Z.of_nat (List.length (png_lines f)).
Proof.
  assert (Hrun : @create_submission_png (Demo.runtime false) (idle FileNotFound)
                   "m" (PyInt 10000) [apple_row] "fruit"
                   (fresh (shopping [apple_row]))
                 = (Ok "submissions/submission_20240101_120000.png",
                    snd (@create_submission_png (Demo.runtime false)
                           (idle FileNotFound) "m" (PyInt 10000) [apple_row]
                           "fruit" (fresh (shopping [apple_row])))))
    by (vm_compute; reflexivity).
  split; [exact Hrun|].
  destruct (@saved_image_holds_every_line (Demo.runtime false)
              (idle FileNotFound) "m" (PyInt 10000) [apple_row] "fruit"
              (fresh (shopping [apple_row])) _ _ Hrun)
    as (f & Hf & _ & _ & _ & _ & Hh & _).
  exists f. split; [exact Hf | exact Hh].
Defined.

(** X19 on a row whose price is the integer 1200. *)
Lemma whole_price_witness :
  row_get priced [CStr "Pear"; CInt 1200] "name" = Ok (CStr "Pear")
  /\ row_get priced [CStr "Pear"; CInt 1200] "price" = Ok (CInt 1200)
  /\ Z.abs 1200 < 2 ^ 53
  /\ py_int (PyFloat (Z2float 1200)) = Ok 1200.
Proof.
  split; [reflexivity|]. split; [reflexivity|]. split; [reflexivity|].
  exact (proj2 (proj2 (@whole_price_is_shown_and_stored_exactly
                         (Demo.runtime false) priced "name" "price" None
                         [CStr "Pear"; CInt 1200] (fresh (shopping []))
                         (CStr "Pear") 1200 eq_refl eq_refl eq_refl))).
Defined.

(** X17 on the shopping screen with one item in the cart. *)
Lemma idle_run_witness :
  clicked (idle (CsvData two_products)) = None
  /\ text_area_input (idle (CsvData two_products)) = None
  /\ (page (shopping [apple_row]) = "mission"
      \/ page (shopping [apple_row]) = "shop"
      \/ page (shopping [apple_row]) = "result")
  /\ session (snd (@run (Demo.runtime false) (idle (CsvData two_products))
                     (shopping [apple_row]) []))
     = shopping [apple_row].
Proof.
  split; [reflexivity|]. split; [reflexivity|].
  split; [right; left; reflexivity|].
  exact (proj1 (@run_without_event_changes_nothing (Demo.runtime false)
                  (idle (CsvData two_products)) (shopping [apple_row]) []
                  eq_refl eq_refl (or_intror (or_introl eq_refl)))).
Defined.

(** X7 on the shopping screen of a session without a mission. *)
Lemma no_mission_witness :
  mission (with_page initial_session "shop") = None
  /\ page (with_page initial_session "shop") = "shop"
  /\ @run (Demo.runtime false) (click BtnShopGuardBack FileNotFound)
       (with_page initial_session "shop") []
     = (Ok tt,
        {| session := if pressed (click BtnShopGuardBack FileNotFound)
                           BtnShopGuardBack
                      then with_page (with_page initial_session "shop") "mission"
                      else with_page initial_session "shop";
           screen := [ StTitle "🛒 쇼핑 화면";
                       StSubheader "2. 물품 선택하기";
                       StWarning "먼저 미션을 선택해주세요.";
                       StButton BtnShopGuardBack ];
           files := [] |}).
Proof.
  split; [reflexivity|]. split; [reflexivity|].
  exact (proj1 (@screens_without_a_mission_offer_the_way_back
                  (Demo.runtime false) (click BtnShopGuardBack FileNotFound)
                  (with_page initial_session "shop") [] eq_refl) eq_refl).
Defined.

(** X5 on the name column of the example catalog. *)
Lemma resolved_column_witness :
  get_column_name two_products "품명" "name" "품명(상품명)" (fresh (shopping []))
  = (Ok "name", fresh (shopping []))
  /\ has_column two_products "name" = true.
Proof.
  split; [reflexivity|].
  exact (proj1 (proj2 (proj2
           (resolved_column_is_in_every_row two_products "품명" "name"
              "품명(상품명)" (fresh (shopping [])) (fresh (shopping []))
              "name" eq_refl)))).
Defined.

(** X21 on a cart with two items at 1e308. *)
Lemma total_overflow_witness :
  [heavy "a"; heavy "b"] <> []
  /\ forallb finite_price [heavy "a"; heavy "b"] = true
  /\ @py_sum (Demo.runtime false) (map item_price [heavy "a"; heavy "b"])
     = PyFloat infinity
  /\ finite_float infinity = false
  /\ shop_cart_summary [heavy "a"; heavy "b"]
       (@py_sum (Demo.runtime false) (map item_price [heavy "a"; heavy "b"]))
       (fresh (shopping [heavy "a"; heavy "b"]))
     = (Halt (Uncaught (int_error infinity)),
        shown (fresh (shopping [heavy "a"; heavy "b"]))
          (StDataframe [(CStr "a", OutOfRange); (CStr "b", OutOfRange)])).
Proof.
  assert (Hne : [heavy "a"; heavy "b"] <> []) by discriminate.
  split; [exact Hne|]. split; [reflexivity|]. split; [reflexivity|].
  split; [reflexivity|].
  exact (proj1 (@total_that_is_not_finite_halts_the_summary (Demo.runtime false)
                  (fresh (shopping [heavy "a"; heavy "b"]))
                  [heavy "a"; heavy "b"] infinity (PyInt 0)
                  Hne eq_refl eq_refl eq_refl)).
Defined.

(** C5, the claim as it is written: with no justification stored and one
    space typed into the text area, the click on the submit button is
    blocked with the warning, and the session is not what it was: the
    justification is now that space. *)
Lemma blank_submit_stores_the_typed_text :
  @reachable (Demo.runtime false) (at_result [apple_row] "")
  /\ page (at_result [apple_row] "") = "result"
  /\ clicked (submit_typing " ") = Some BtnSubmit
  /\ blank (justification (submit_typing " ") (at_result [apple_row] "")) = true
  /\ In blank_reason_warning
        (screen (snd (@run (Demo.runtime false) (submit_typing " ")
                        (at_result [apple_row] "") [])))
  /\ files (snd (@run (Demo.runtime false) (submit_typing " ")
                   (at_result [apple_row] "") []))
     = []
  /\ session (snd (@run (Demo.runtime false) (submit_typing " ")
                     (at_result [apple_row] "") []))
     = at_result [apple_row] " "
  /\ session (snd (@run (Demo.runtime false) (submit_typing " ")
                     (at_result [apple_row] "") []))
     <> at_result [apple_row] "".
Proof.
  split; [exact reachable_checked_out|].
  split; [reflexivity|]. split; [reflexivity|]. split; [reflexivity|].
  assert (Hrun : session (snd (@run (Demo.runtime false) (submit_typing " ")
                                 (at_result [apple_row] "") []))
                 = at_result [apple_row] " ") by (vm_compute; reflexivity).
  split; [vm_compute; repeat (first [left; reflexivity | right])|].
  split; [vm_compute; reflexivity|].
  split; [exact Hrun|].
  rewrite Hrun. discriminate.
Qed.
